(** * NIRF report extractors: a shallow embedding and its checked properties

    The development follows the Python sources of the repository:

    - [Py]            the Python built-ins the extractors call (strings,
                      [int], [str], true division, [round], exceptions);
    - [Pattern]       the regular expressions of the sources, written as
                      the matchers they denote;
    - [StudentRatio]  student_ratio_tab.py;
    - [Resolver]      [find_program_name_for_table], the same text in
                      placement_data_tab.py, median_salary_tab.py and
                      university_exam_tab.py;
    - [Placement]     placement_data_tab.py;
    - [Expenditure]   expenditure_tab.py;
    - [MedianSalary]  the post-pass of median_salary_tab.py;
    - [PhdData]       phd_data_tab.py;
    - [CollegeInfo]   [extract_college_info], the same text in five files;
    - [UniversityExam] university_exam_tab.py;
    - [MedianSalaryScan] the table scan of median_salary_tab.py, and the
                      extractor as a whole;
    - [ProgramData]   [extract_program_data] of app.py;
    - [Report]        [reformat_data_for_full_report] and the report and
                      sheet names of full_report_tab.py.

    Text is a [string] of bytes (UTF-8).  Python's Unicode-aware
    [str.strip], [str.lower], [int], [\d] and [\s] are taken on their
    ASCII range: a non-ASCII space or digit is an ordinary character here.
    On plain ASCII text the functions of [Py] are Python's; a statement
    that holds of the code on such text only says so
    ([PySpec.ascii_text]). *)

From Stdlib Require Import ZArith QArith List String Ascii Bool Lia Floats.
From Stdlib Require Import DecimalString DecimalPos Sorted Permutation OrdersEx.
From Equations Require Import Equations.
Import ListNotations.

Local Open Scope string_scope.
Local Open Scope list_scope.
Local Open Scope Z_scope.

(* ===================================================================== *)
(** ** Python built-ins *)
(* ===================================================================== *)

Module Py.

(** *** Exceptions *)

Inductive exn : Type :=
| ValueError
| TypeError
| IndexError
| AttributeError
| OverflowError
| ZeroDivisionError.

Definition exn_eqb (a b : exn) : bool :=
  match a, b with
  | ValueError, ValueError | TypeError, TypeError | IndexError, IndexError
  | AttributeError, AttributeError | OverflowError, OverflowError
  | ZeroDivisionError, ZeroDivisionError => true
  | _, _ => false
  end.

(** A computation that returns or raises. *)
Inductive res (A : Type) : Type :=
| Ret (a : A)
| Raise (e : exn).
Arguments Ret {A} a.
Arguments Raise {A} e.

Definition bind {A B : Type} (m : res A) (k : A -> res B) : res B :=
  match m with
  | Ret a => k a
  | Raise e => Raise e
  end.

(** [try: m except (handled): h] *)
Definition try_except {A : Type} (m : res A) (handled : list exn) (h : res A)
  : res A :=
  match m with
  | Ret a => Ret a
  | Raise e => if existsb (exn_eqb e) handled then h else Raise e
  end.

(** *** Cells, rows and tables as the table library hands them over *)

Definition cell : Type := option string.
Definition row : Type := list cell.
Definition table : Type := list row.

(** Truth value of a cell: [None] and [''] are false. *)
Definition truthy (c : cell) : bool :=
  match c with
  | Some s => negb (String.eqb s "")
  | None => false
  end.

(** [str(cell)] *)
Definition str_cell (c : cell) : string :=
  match c with
  | Some s => s
  | None => "None"
  end.

(** [seq[i]] for a non-negative index. *)
Definition getitem {A : Type} (l : list A) (i : nat) : res A :=
  match nth_error l i with
  | Some a => Ret a
  | None => Raise IndexError
  end.

(** A method call on a cell: [None] has no string methods. *)
Definition as_str (c : cell) : res string :=
  match c with
  | Some s => Ret s
  | None => Raise AttributeError
  end.

(** *** Strings *)

Definition newline : string := String (ascii_of_nat 10) "".

(** The white space of [str.strip] and of [\s]: the characters 9 to 13, the
    separators 28 to 31 and the blank. *)
Definition is_space (c : ascii) : bool :=
  let n := nat_of_ascii c in
  (((9 <=? n) && (n <=? 13)) || ((28 <=? n) && (n <=? 32)))%nat.

Definition is_digit (c : ascii) : bool :=
  let n := nat_of_ascii c in ((48 <=? n) && (n <=? 57))%nat.

Definition digit_val (c : ascii) : Z := Z.of_nat (nat_of_ascii c) - 48.

Fixpoint lstrip (s : string) : string :=
  match s with
  | String c r => if is_space c then lstrip r else s
  | EmptyString => EmptyString
  end.

Fixpoint rstrip (s : string) : string :=
  match s with
  | String c r =>
      match rstrip r with
      | EmptyString => if is_space c then EmptyString else String c EmptyString
      | r' => String c r'
      end
  | EmptyString => EmptyString
  end.

(** [s.strip()] *)
Definition strip (s : string) : string := rstrip (lstrip s).

(** [s.startswith(p)] *)
Definition startswith (s p : string) : bool := String.prefix p s.

(** [sub in s] *)
Fixpoint contains (sub s : string) : bool :=
  String.prefix sub s ||
  match s with
  | String _ r => contains sub r
  | EmptyString => false
  end.

Fixpoint replace_from (old new s : string) (skip : nat) : string :=
  match s with
  | EmptyString => EmptyString
  | String c r =>
      match skip with
      | S k => replace_from old new r k
      | O =>
          if String.prefix old s
          then new ++ replace_from old new r (String.length old - 1)
          else String c (replace_from old new r 0)
      end
  end%string.

(** [s.replace(old, new)], [old] not empty. *)
Definition replace (old new s : string) : string := replace_from old new s 0.

(** [s.split(sep)[0]] for a one-character separator. *)
Fixpoint split_head (sep : ascii) (s : string) : string :=
  match s with
  | String c r => if Ascii.eqb c sep then EmptyString else String c (split_head sep r)
  | EmptyString => EmptyString
  end.

Definition lower_ascii (c : ascii) : ascii :=
  let n := nat_of_ascii c in
  if ((65 <=? n) && (n <=? 90))%nat then ascii_of_nat (n + 32) else c.

(** [s.lower()] *)
Fixpoint lower (s : string) : string :=
  match s with
  | String c r => String (lower_ascii c) (lower r)
  | EmptyString => EmptyString
  end.

(** [re.sub(r'[^0-9]', '', s)] *)
Fixpoint keep_digits (s : string) : string :=
  match s with
  | String c r => if is_digit c then String c (keep_digits r) else keep_digits r
  | EmptyString => EmptyString
  end.

Fixpoint all_digits (s : string) : bool :=
  match s with
  | String c r => is_digit c && all_digits r
  | EmptyString => true
  end.

(** [sep.join(parts)] *)
Fixpoint join (sep : string) (parts : list string) : string :=
  match parts with
  | [] => EmptyString
  | [p] => p
  | p :: ps => (p ++ sep ++ join sep ps)%string
  end.

(** [x in l] for a list of strings. *)
Definition mem (x : string) (l : list string) : bool := existsb (String.eqb x) l.

Fixpoint index_from (x : string) (l : list string) (i : nat) : res nat :=
  match l with
  | [] => Raise ValueError
  | y :: r => if String.eqb y x then Ret i else index_from x r (S i)
  end.

(** [l.index(x, start)] *)
Definition index (x : string) (l : list string) (start : nat) : res nat :=
  index_from x (skipn start l) start.

(** *** Integers: [int(s)] and [str(n)] *)

(** Digits with single underscores between them, as [int] reads them. *)
Fixpoint int_digits (acc : Z) (after_digit : bool) (s : string) : option Z :=
  match s with
  | EmptyString => if after_digit then Some acc else None
  | String c r =>
      if is_digit c then int_digits (10 * acc + digit_val c) true r
      else if Ascii.eqb c "_" && after_digit then int_digits acc false r
      else None
  end.

Definition int_signed (s : string) : option Z :=
  match s with
  | String "-" r => option_map Z.opp (int_digits 0 false r)
  | String "+" r => int_digits 0 false r
  | _ => int_digits 0 false s
  end.

(** The white space that [int] passes over before and after the number:
    the characters 9 to 13 and the blank.  The separators 28 to 31, which
    [str.strip] takes away, are not among them: [int] fails on them. *)
Definition is_int_space (c : ascii) : bool :=
  let n := nat_of_ascii c in
  (((9 <=? n) && (n <=? 13)) || (n =? 32))%nat.

Fixpoint int_lstrip (s : string) : string :=
  match s with
  | String c r => if is_int_space c then int_lstrip r else s
  | EmptyString => EmptyString
  end.

Fixpoint int_rstrip (s : string) : string :=
  match s with
  | String c r =>
      match int_rstrip r with
      | EmptyString => if is_int_space c then EmptyString else String c EmptyString
      | r' => String c r'
      end
  | EmptyString => EmptyString
  end.

(** [int(s)] *)
Definition int_of_str (s : string) : res Z :=
  match int_signed (int_rstrip (int_lstrip s)) with
  | Some z => Ret z
  | None => Raise ValueError
  end.

(** [int(cell)]: [int(None)] is a [TypeError]. *)
Definition int_of_cell (c : cell) : res Z :=
  match c with
  | Some s => int_of_str s
  | None => Raise TypeError
  end.

(** [str(n)] *)
Definition str_of_int (n : Z) : string := NilZero.string_of_int (Z.to_int n).

(** *** Dictionaries and sorting *)

(** A [dict] from a label to an integer, in insertion order. *)
Definition dict : Type := list (string * Z).

Fixpoint dict_get (d : dict) (k : string) (default : Z) : Z :=
  match d with
  | [] => default
  | (k', v) :: r => if String.eqb k' k then v else dict_get r k default
  end.

(** [d[k] = v]: a key already present keeps its place. *)
Fixpoint dict_set (d : dict) (k : string) (v : Z) : dict :=
  match d with
  | [] => [(k, v)]
  | (k', v') :: r =>
      if String.eqb k' k then (k, v) :: r else (k', v') :: dict_set r k v
  end.

Definition keys (d : dict) : list string := map fst d.
Definition values (d : dict) : list Z := map snd d.

(** A stable sort by insertion, for an order given by its test: [le a b]
    says that [a] may stand before [b]. *)
Fixpoint insert_by {A : Type} (le : A -> A -> bool) (x : A) (l : list A) : list A :=
  match l with
  | [] => [x]
  | y :: r => if le x y then x :: l else y :: insert_by le x r
  end.

Definition sort_by {A : Type} (le : A -> A -> bool) (l : list A) : list A :=
  fold_right (insert_by le) [] l.

(** [sorted(l, reverse=True)] on strings. *)
Definition sorted_desc (l : list string) : list string :=
  sort_by (fun a b => String.leb b a) l.

(** *** Floats: binary64 through the kernel's primitive floats *)

(** The binary64 number nearest to [(-1)^neg * a / b] (ties to even), for
    [0 <= a] and [0 < b].  The quotient is taken with at least 55 bits and a
    sticky bit, so that one rounding gives the nearest value. *)
Definition nearest_ratio (neg : bool) (a b : Z) : spec_float :=
  if a =? 0 then S754_zero neg
  else
    let k := 55 + Z.log2 b - Z.log2 a in
    let num := if 0 <=? k then a * 2 ^ k else a in
    let den := if 0 <=? k then b else b * 2 ^ (- k) in
    let q := num / den in
    let sticky := if num mod den =? 0 then 0 else 1 in
    let m := 2 * q + sticky in
    binary_normalize prec emax (if neg then - m else m) (- k - 1) false.

Definition is_infinite (x : spec_float) : bool :=
  match x with
  | S754_infinity _ => true
  | _ => false
  end.

(** [a / b] on integers: the nearest float to the quotient. *)
Definition truediv (a b : Z) : res float :=
  if b =? 0 then Raise ZeroDivisionError
  else
    let r := nearest_ratio (xorb (a <? 0) (b <? 0)) (Z.abs a) (Z.abs b) in
    if is_infinite r then Raise OverflowError else Ret (SF2Prim r).

(** [float(n)] for an integer within the float range. *)
Definition float_of_int (n : Z) : float :=
  SF2Prim (binary_normalize prec emax n 0 false).

(** The integer nearest to [m * 2^e], ties to even. *)
Definition nearest_int (m e : Z) : Z :=
  if 0 <=? e then m * 2 ^ e
  else
    let d := 2 ^ (- e) in
    let q := m / d in
    match (2 * (m mod d)) ?= d with
    | Lt => q
    | Gt => q + 1
    | Eq => if Z.even q then q else q + 1
    end.

(** [round(x, 2)]: the decimal with two places nearest to the exact value of
    [x], then the float nearest to that decimal; infinities and NaN round to
    themselves. *)
Definition round2 (x : float) : res float :=
  match Prim2SF x with
  | S754_finite s m e =>
      let r := nearest_ratio s (nearest_int (100 * Z.pos m) e) 100 in
      if is_infinite r then Raise OverflowError else Ret (SF2Prim r)
  | _ => Ret x
  end.

(** [int(x)] on a float: truncation toward zero. *)
Definition int_of_float (x : float) : res Z :=
  match Prim2SF x with
  | S754_zero _ => Ret 0
  | S754_finite s m e =>
      let a := if 0 <=? e then Z.pos m * 2 ^ e else Z.pos m / 2 ^ (- e) in
      Ret (if s then - a else a)
  | S754_infinity _ => Raise OverflowError
  | S754_nan => Raise ValueError
  end.

(** A number as a record field holds it: [0] and [0.0] are different
    objects. *)
Inductive num : Type :=
| PyInt (z : Z)
| PyFloat (f : float).

End Py.

Export Py.

Notation "x <- m ;; k" := (bind m (fun x => k))
  (at level 61, m at next level, right associativity).

(* ===================================================================== *)
(** ** The document as the table library presents it *)
(* ===================================================================== *)

Module Doc.

(** A table found on a page: its vertical offset ([bbox[1]]) and its cells
    ([extract()]). *)
Record table_obj : Type := {
  bbox_top : Q;
  extract : table
}.

(** A page: its text, line by line with the vertical offset of each line,
    and the tables found on it, in extraction order. *)
Record page : Type := {
  lines : list (Q * string);
  find_tables : list table_obj
}.

(** [page.extract_tables()] *)
Definition extract_tables (p : page) : list table := map extract (find_tables p).

(** [page.extract_text()] *)
Definition extract_text (p : page) : string := join newline (map snd (lines p)).

(** [x < y] on offsets. *)
Definition Qltb (x y : Q) : bool := negb (Qle_bool y x).

(** The text of the lines of the page that start above [y]. *)
Definition text_above (p : page) (y : Q) : string :=
  join newline (map snd (filter (fun l => Qltb (fst l) y) (lines p))).

(** [page.crop((0, 0, page.width, y)).extract_text()].  The box of the page
    starts at the origin and a table found on the page lies within it, so
    the box asked for leaves the page neither below nor at the sides.
    [crop] refuses a box without area and a box that leaves the page: when
    [y] is not positive it raises [ValueError]. *)
Definition crop_text (p : page) (y : Q) : res string :=
  if Qle_bool y 0 then Raise ValueError else Ret (text_above p y).

(** A document.  The institute's name and code are what the extractor's two
    [re.search] calls give on the first page's text (or their defaults);
    the searches themselves are outside this development. *)
Record document : Type := {
  college_name : string;
  college_id : string;
  pages : list page
}.

(** What an extractor hands back: the rows of the data frame, or, when the
    outer handler caught [e], the error shown to the user (the frame
    returned is then empty). *)
Inductive outcome (R : Type) : Type :=
| DataFrame (rows : list R)
| Failed (e : exn).
Arguments DataFrame {R} rows.
Arguments Failed {R} e.

Definition frame_rows {R : Type} (o : outcome R) : list R :=
  match o with
  | DataFrame rows => rows
  | Failed _ => []
  end.

(** [try: with pdfplumber.open(..) as pdf: first = pdf.pages[0] ..; body
    except Exception: st.error(..); return pd.DataFrame()] *)
Definition guarded {S R : Type} (d : document) (body : res S) (finish : S -> list R)
  : outcome R :=
  match (_ <- getitem (pages d) 0 ;; body) with
  | Ret s => DataFrame (finish s)
  | Raise e => Failed e
  end.

(** [[str(cell).replace('\n', ' ') if cell else '' for cell in row]] *)
Definition clean_header (r : row) : list string :=
  map (fun c => if truthy c then replace newline " " (str_cell c) else "") r.

End Doc.

Export Doc.

(* ===================================================================== *)
(** ** student_ratio_tab.py *)
(* ===================================================================== *)

Module StudentRatio.

Record record : Type := {
  s_no : Z;
  rec_college_name : string;
  rec_college_id : string;
  program : string;
  total_students : Z;
  female_students : Z;
  female_ratio : num
}.

Record state : Type := {
  data : list record;
  next_s_no : Z;
  table_found : bool
}.

Definition initial : state :=
  {| data := []; next_s_no := 1; table_found := false |}.

Definition mark_found (st : state) : state :=
  {| data := data st; next_s_no := next_s_no st; table_found := true |}.

(** The header test of the 'Total Actual Student Strength' table. *)
Definition is_strength_header (header : list string) : bool :=
  mem "No. of Male Students" header
  && mem "No. of Female Students" header
  && mem "Total Students" header.

Definition accepts_program (program_name : string) : bool :=
  startswith program_name "UG [" || startswith program_name "PG [".

(** [round((female / total) * 100, 2) if total > 0 else 0] *)
Definition ratio_of (female_students total_students : Z) : res num :=
  if 0 <? total_students then
    q <- truediv female_students total_students ;;
    r <- round2 (q * 100)%float ;;
    Ret (PyFloat r)
  else Ret (PyInt 0).

(** The body of the inner [try] for one row: the record's three computed
    fields, or nothing when one of the two strings is empty. *)
Definition read_counts (female_col_idx total_col_idx : nat) (r : row)
  : res (option (Z * Z * num)) :=
  tc <- getitem r total_col_idx ;;
  ts <- as_str tc ;;
  let total_students_str := strip (replace "," "" ts) in
  fc <- getitem r female_col_idx ;;
  fs <- as_str fc ;;
  let female_students_str := strip (replace "," "" fs) in
  if negb (String.eqb total_students_str "") && negb (String.eqb female_students_str "")
  then
    total_students <- int_of_str total_students_str ;;
    female_students <- int_of_str female_students_str ;;
    ratio <- ratio_of female_students total_students ;;
    Ret (Some (total_students, female_students, ratio))
  else Ret None.

Definition emit (college_name college_id program_name : string)
    (v : Z * Z * num) (st : state) : state :=
  let '(total, female, ratio) := v in
  {| data := data st ++ [ {| s_no := next_s_no st;
                             rec_college_name := college_name;
                             rec_college_id := college_id;
                             program := program_name;
                             total_students := total;
                             female_students := female;
                             female_ratio := ratio |} ];
     next_s_no := next_s_no st + 1;
     table_found := table_found st |}.

(** One iteration of [for row in table[1:]]. *)
Definition row_step (college_name college_id : string)
    (female_col_idx total_col_idx : nat) (r : row) (st : state) : res state :=
  program_name_raw <- getitem r 0 ;;
  if negb (truthy program_name_raw)
     || String.eqb (strip (str_cell program_name_raw)) ""
  then Ret st
  else
    let program_name := strip (replace newline " " (str_cell program_name_raw)) in
    if accepts_program program_name then
      v <- try_except (read_counts female_col_idx total_col_idx r)
             [ValueError; TypeError; IndexError] (Ret None) ;;
      match v with
      | Some v => Ret (emit college_name college_id program_name v st)
      | None => Ret st
      end
    else Ret st.

Fixpoint rows_loop (college_name college_id : string)
    (female_col_idx total_col_idx : nat) (rows : list row) (st : state)
  : res state :=
  match rows with
  | [] => Ret st
  | r :: rest =>
      st' <- row_step college_name college_id female_col_idx total_col_idx r st ;;
      rows_loop college_name college_id female_col_idx total_col_idx rest st'
  end.

(** [for table in tables], with its [continue]s and its [break]. *)
Fixpoint tables_loop (college_name college_id : string) (tables : list table)
    (st : state) : res state :=
  match tables with
  | [] => Ret st
  | [] :: rest => tables_loop college_name college_id rest st
  | (first :: body) :: rest =>
      let header := clean_header first in
      if is_strength_header header then
        let st := mark_found st in
        match (f <- index "No. of Female Students" header 0 ;;
               t <- index "Total Students" header 0 ;;
               Ret (f, t)) with
        | Raise ValueError => tables_loop college_name college_id rest st
        | Raise e => Raise e
        | Ret (female_col_idx, total_col_idx) =>
            rows_loop college_name college_id female_col_idx total_col_idx body st
        end
      else tables_loop college_name college_id rest st
  end.

(** [for page in pdf.pages: if table_found: break ...] *)
Fixpoint pages_loop (college_name college_id : string) (ps : list page)
    (st : state) : res state :=
  match ps with
  | [] => Ret st
  | p :: rest =>
      if table_found st then Ret st
      else
        st' <- tables_loop college_name college_id (extract_tables p) st ;;
        pages_loop college_name college_id rest st'
  end.

Definition is_float (x : num) : bool :=
  match x with
  | PyFloat _ => true
  | PyInt _ => false
  end.

(** An integer as it stands in a column of floats. *)
Definition upcast (x : num) : num :=
  match x with
  | PyInt z => PyFloat (float_of_int z)
  | PyFloat f => PyFloat f
  end.

Definition with_ratio (r : record) (ratio : num) : record :=
  {| s_no := s_no r;
     rec_college_name := rec_college_name r;
     rec_college_id := rec_college_id r;
     program := program r;
     total_students := total_students r;
     female_students := female_students r;
     female_ratio := ratio |}.

(** [pd.DataFrame(data)], as far as the values of the records go: a ratio
    column in which every value is an integer stays a column of integers;
    a ratio column that holds a float is a column of floats, and the
    integer 0 of line 87 stands in it as 0.0. *)
Definition to_frame (data : list record) : list record :=
  if existsb (fun r => is_float (female_ratio r)) data
  then map (fun r => with_ratio r (upcast (female_ratio r))) data
  else data.

Definition extract_student_ratio_data (d : document) : outcome record :=
  guarded d (pages_loop (college_name d) (college_id d) (pages d) initial)
    (fun st => to_frame (data st)).

End StudentRatio.


(* ===================================================================== *)
(** ** The regular expressions of the sources *)
(* ===================================================================== *)

Module Pattern.

(** The longest run of digits at the start of [s]: what a greedy [\d+]
    takes (the run is followed by a literal that is not a digit, so giving
    digits back never helps). *)
Fixpoint take_digits (s : string) : string :=
  match s with
  | String c r => if is_digit c then String c (take_digits r) else EmptyString
  | EmptyString => EmptyString
  end.

Fixpoint drop (n : nat) (s : string) : string :=
  match n, s with
  | S k, String _ r => drop k r
  | _, _ => s
  end.

(** [re.match(r'\d{4}-\d{2}', s)] as a truth value. *)
Definition year_like (s : string) : bool :=
  match s with
  | String a (String b (String c (String d (String h (String e (String f _)))))) =>
      is_digit a && is_digit b && is_digit c && is_digit d
      && Ascii.eqb h "-" && is_digit e && is_digit f
  | _ => false
  end.

(** [UG \[\d+ Years? Program\(s\)\]|PG \[\d+ Years? Program\(s\)\]] matched
    at the start of [s]: the text matched, if any. *)
Definition match_label (s : string) : option string :=
  let opening :=
    if String.prefix "UG [" s then Some "UG ["
    else if String.prefix "PG [" s then Some "PG ["
    else None in
  match opening with
  | None => None
  | Some o =>
      let ds := take_digits (drop 4 s) in
      let tail := drop (String.length ds) (drop 4 s) in
      if String.eqb ds "" then None
      else if String.prefix " Years Program(s)]" tail
           then Some (o ++ ds ++ " Years Program(s)]")%string
      else if String.prefix " Year Program(s)]" tail
           then Some (o ++ ds ++ " Year Program(s)]")%string
      else None
  end.

Fixpoint findall_from (s : string) (skip : nat) : list string :=
  match s with
  | EmptyString => []
  | String _ r =>
      match skip with
      | S k => findall_from r k
      | O =>
          match match_label s with
          | Some m => m :: findall_from r (String.length m - 1)
          | None => findall_from r 0
          end
      end
  end.

(** [re.findall(label_pattern, s)]: the matches from left to right, each
    search resuming where the previous match ended. *)
Definition findall_labels (s : string) : list string := findall_from s 0.

(** [(UG|PG)<sep>(\d+)] matched at the start of [s], for the separator
    [sep] of the caller: the two groups. *)
Definition match_program (sep : string) (s : string) : option (string * string) :=
  let kind :=
    if String.prefix ("UG" ++ sep) s then Some "UG"
    else if String.prefix ("PG" ++ sep) s then Some "PG"
    else None in
  match kind with
  | None => None
  | Some k =>
      let ds := take_digits (drop (2 + String.length sep) s) in
      if String.eqb ds "" then None else Some (k, ds)
  end.

(** [re.search]: the leftmost position that matches. *)
Fixpoint search_program (sep : string) (s : string) : option (string * string) :=
  match match_program sep s with
  | Some g => Some g
  | None =>
      match s with
      | String _ r => search_program sep r
      | EmptyString => None
      end
  end.

End Pattern.

Export Pattern.

(* ===================================================================== *)
(** ** find_program_name_for_table *)
(* ===================================================================== *)

Module Resolver.

Definition unknown_program : string := "Unknown Program".

(** [matches[-1]] of a list known not to be empty. *)
Definition last_match (matches : list string) : string := last matches "".

(** The resolver once the page has given the text above the table. *)
Definition resolve (text_above_table : string) (table_y_position : Q)
    (previous_page_text : string) : string :=
  let above :=
    if negb (String.eqb text_above_table "")
    then findall_labels text_above_table else [] in
  match above with
  | _ :: _ => last_match above
  | [] =>
      let before :=
        if Qltb table_y_position 150 && negb (String.eqb previous_page_text "")
        then findall_labels previous_page_text else [] in
      match before with
      | _ :: _ => last_match before
      | [] => unknown_program
      end
  end.

(** The call raises what [page.crop] raises; none of the callers has a
    handler around it other than the outermost one. *)
Definition find_program_name_for_table (p : page) (table_obj : Doc.table_obj)
    (previous_page_text : string) : res string :=
  let table_y_position := bbox_top table_obj in
  text_above_table <- crop_text p table_y_position ;;
  Ret (resolve text_above_table table_y_position previous_page_text).

End Resolver.

Export Resolver.

(* ===================================================================== *)
(** ** placement_data_tab.py *)
(* ===================================================================== *)

Module Placement.

Record record : Type := {
  rec_college_name : string;
  rec_college_code : string;
  program_name : string;
  graduation_year : cell;
  graduated : Z;
  placed : Z;
  placement_pct : num;
  higher_studies : Z;
  higher_pct : num
}.

Definition required_cols : list string :=
  [ "No. of students graduating in minimum stipulated time";
    "No. of students placed";
    "No. of students selected for Higher Studies" ].

Definition is_placement_header (header_row : list string) : bool :=
  forallb (fun col => mem col header_row) required_cols.

(** [round((part / graduated) * 100, 2) if graduated > 0 else 0.0] *)
Definition pct_of (part graduated : Z) : res num :=
  if 0 <? graduated then
    q <- truediv part graduated ;;
    r <- round2 (q * 100)%float ;;
    Ret (PyFloat r)
  else Ret (PyFloat 0).

(** [int(row[col].replace(',', ''))] *)
Definition count_at (r : row) (col : nat) : res Z :=
  c <- getitem r col ;;
  s <- as_str c ;;
  int_of_str (replace "," "" s).

(** The program name as the extractor derives it from the resolved label. *)
Definition program_of_label (program_header : string) : option string :=
  let squeezed :=
    replace "YearsProgram(s)]" "" (replace "[" "-" (replace " " "" program_header)) in
  match search_program "-" squeezed with
  | Some (prog_type, prog_years) => Some (prog_type ++ "-" ++ prog_years)%string
  | None => None
  end.

(** The body of the [try] for one row. *)
Definition read_row (college_name college_code prog_name : string)
    (grad_year_col graduated_col placed_col higher_studies_col : nat) (r : row)
  : res record :=
  grad_year <- getitem r grad_year_col ;;
  graduated <- count_at r graduated_col ;;
  placed <- count_at r placed_col ;;
  higher_studies <- count_at r higher_studies_col ;;
  placement_pct <- pct_of placed graduated ;;
  higher_pct <- pct_of higher_studies graduated ;;
  Ret {| rec_college_name := college_name;
         rec_college_code := college_code;
         program_name := prog_name;
         graduation_year := grad_year;
         graduated := graduated;
         placed := placed;
         placement_pct := placement_pct;
         higher_studies := higher_studies;
         higher_pct := higher_pct |}.

(** One iteration of [for row in table_data[1:]]. *)
Definition row_step (college_name college_code prog_name : string)
    (cols : nat * nat * nat * nat) (r : row) (data : list record)
  : res (list record) :=
  let '(gy, g, p, h) := cols in
  try_except (rec <- read_row college_name college_code prog_name gy g p h r ;; Ret (data ++ [rec]))
    [ValueError; IndexError; TypeError] (Ret data).

Fixpoint rows_loop (college_name college_code prog_name : string)
    (cols : nat * nat * nat * nat) (rows : list row) (data : list record)
  : res (list record) :=
  match rows with
  | [] => Ret data
  | r :: rest =>
      data' <- row_step college_name college_code prog_name cols r data ;;
      rows_loop college_name college_code prog_name cols rest data'
  end.

Definition find_cols (header_row : list string) : res (nat * nat * nat * nat) :=
  grad_year_col <- index "Academic Year" header_row 1 ;;
  graduated_col <-
    index "No. of students graduating in minimum stipulated time" header_row 0 ;;
  placed_col <- index "No. of students placed" header_row 0 ;;
  higher_studies_col <-
    index "No. of students selected for Higher Studies" header_row 0 ;;
  Ret (grad_year_col, graduated_col, placed_col, higher_studies_col).

(** One iteration of [for table_obj in table_objects]. *)
Definition table_step (college_name college_code : string) (p : page)
    (previous_page_text : string) (table_obj : Doc.table_obj) (data : list record)
  : res (list record) :=
  match extract table_obj with
  | first :: ((_ :: _) as body) =>
      let header_row := clean_header first in
      if is_placement_header header_row then
        program_header <-
          find_program_name_for_table p table_obj previous_page_text ;;
        match program_of_label program_header with
        | None => Ret data
        | Some prog_name =>
            match find_cols header_row with
            | Raise ValueError => Ret data
            | Raise e => Raise e
            | Ret cols => rows_loop college_name college_code prog_name cols body data
            end
        end
      else Ret data
  | _ => Ret data
  end.

Fixpoint tables_loop (college_name college_code : string) (p : page)
    (previous_page_text : string) (table_objects : list Doc.table_obj)
    (data : list record) : res (list record) :=
  match table_objects with
  | [] => Ret data
  | t :: rest =>
      data' <- table_step college_name college_code p previous_page_text t data ;;
      tables_loop college_name college_code p previous_page_text rest data'
  end.

(** [for page in pdf.pages], carrying the text of the page before. *)
Fixpoint pages_loop (college_name college_code : string) (ps : list page)
    (previous_page_text : string) (data : list record) : res (list record) :=
  match ps with
  | [] => Ret data
  | p :: rest =>
      data' <- tables_loop college_name college_code p previous_page_text
                 (find_tables p) data ;;
      pages_loop college_name college_code rest (extract_text p) data'
  end.

(** [df.insert(0, 'SNo', range(1, 1 + len(df)))] *)
Definition number_rows {R : Type} (rows : list R) : list (Z * R) :=
  combine (map Z.of_nat (seq 1 (List.length rows))) rows.

Definition extract_placement_data (d : document) : outcome (Z * record) :=
  guarded d (pages_loop (college_name d) (college_id d) (pages d) "" []) number_rows.

End Placement.

(* ===================================================================== *)
(** ** expenditure_tab.py *)
(* ===================================================================== *)

Module Expenditure.

(** *** Slices and dictionaries *)

(** [s[-k:]] *)
Definition take_last (k : nat) (s : string) : string :=
  substring (String.length s - k) k s.

(** [s[:-k]], [k] positive. *)
Definition drop_last (k : nat) (s : string) : string :=
  substring 0 (String.length s - k) s.

(** [set(a) | set(b)] as the list of its elements, each once. *)
Definition union_keys (a b : list string) : list string :=
  nodup string_dec (a ++ b).

(** *** format_indian_currency *)

(** The [while len(rest) > 2] loop. *)
Equations? pairs_loop (rest : string) (parts : list string) : string * list string
  by wf (String.length rest) lt :=
  pairs_loop rest parts with le_lt_dec (String.length rest) 2 := {
    | left _ => (rest, parts)
    | right _ => pairs_loop (drop_last 2 rest) (parts ++ [take_last 2 rest]) }.
Proof.
  unfold drop_last.
  assert (H : forall (t : string) (n : nat), (String.length (substring 0 n t) <= n)%nat).
  { induction t as [| c t IH]; intros [| n]; simpl; try lia.
    specialize (IH n). lia. }
  specialize (H rest (String.length rest - 2)%nat). lia.
Qed.

(** [int(number)] *)
Definition int_of_num (number : num) : res Z :=
  match number with
  | PyInt z => Ret z
  | PyFloat f => int_of_float f
  end.

Definition rupee : string := "₹ ".

Definition format_indian_currency (number : num) : res string :=
  n <- int_of_num number ;;
  let s := str_of_int n in
  if (String.length s <=? 3)%nat then Ret (rupee ++ s)%string
  else
    let last3 := take_last 3 s in
    let '(rest, parts) := pairs_loop (drop_last 3 s) [] in
    let parts := if negb (String.eqb rest "") then parts ++ [rest] else parts in
    let formatted := (join "," (rev parts) ++ "," ++ last3)%string in
    Ret (rupee ++ formatted)%string.

(** *** extract_expenditure_data *)

(** The value of the 'S.No' column: a number, or the empty string of the
    'Average' row. *)
Inductive sno : Type :=
| SNo (i : Z)
| SNoBlank.

Record out_row : Type := {
  s_no : sno;
  row_college_name : string;
  row_college_id : string;
  academic_year : string;
  capital_expenditure : string;
  operational_expenditure : string;
  total_expenditure : string
}.

Definition capital_keys : list string :=
  ["Library"; "New Equipment"; "Engineering Workshops"; "creation of Capital Assets"].

Definition operational_keys : list string :=
  ["Salaries"; "Maintenance of Academic Infrastructure"; "Seminars"].

Record state : Type := {
  capital_exp : dict;
  operational_exp : dict
}.

Definition initial : state := {| capital_exp := []; operational_exp := [] |}.

(** [row and row[0]] *)
Definition has_title (r : row) : bool :=
  match r with
  | c :: _ => truthy c
  | [] => false
  end.

Definition title_of (r : row) : string := str_cell (hd None r).

(** [" ".join([str(row[0]) for row in table if row and row[0]])] *)
Definition first_col_text (t : table) : string :=
  join " " (map title_of (filter has_title t)).

(** The first row that holds a year-like cell, cleaned; [[]] when there is
    none. *)
Definition find_header (t : table) : list string :=
  match find (fun r => existsb (fun c => year_like (str_cell c)) r) t with
  | Some r => clean_header r
  | None => []
  end.

(** The amount read in one cell:
    [int(re.sub(r'[^0-9]', '', str(cell).split('(')[0].strip()))]. *)
Definition amount_of_cell (c : cell) : res Z :=
  let val_str := strip (split_head "(" (str_cell c)) in
  int_of_str (keep_digits val_str).

(** One iteration of [for year in years]; [target] is the dictionary of the
    table's kind. *)
Definition year_step (header : list string) (r : row) (year : string)
    (target : dict) : res dict :=
  try_except
    (year_col_idx <- index year header 0 ;;
     if (List.length r <=? year_col_idx)%nat
        || negb (truthy (nth year_col_idx r None))
     then Ret target
     else
       value <- amount_of_cell (nth year_col_idx r None) ;;
       Ret (dict_set target year (dict_get target year 0 + value)))
    [ValueError; IndexError] (Ret target).

Fixpoint years_loop (header : list string) (r : row) (years : list string)
    (target : dict) : res dict :=
  match years with
  | [] => Ret target
  | year :: rest =>
      target' <- year_step header r year target ;;
      years_loop header r rest target'
  end.

(** [any(key.lower() in row_title.lower() for key in keys_to_check)] *)
Definition title_matches (keys_to_check : list string) (row_title : string) : bool :=
  existsb (fun key => contains (lower key) (lower row_title)) keys_to_check.

(** One iteration of [for row in table] for a table of the given kind. *)
Definition row_step (is_capital_table : bool) (header years : list string)
    (r : row) (st : state) : res state :=
  if negb (has_title r) then Ret st
  else
    let row_title := replace newline " " (title_of r) in
    if is_capital_table then
      if title_matches capital_keys row_title then
        d <- years_loop header r years (capital_exp st) ;;
        Ret {| capital_exp := d; operational_exp := operational_exp st |}
      else Ret st
    else
      if title_matches operational_keys row_title then
        d <- years_loop header r years (operational_exp st) ;;
        Ret {| capital_exp := capital_exp st; operational_exp := d |}
      else Ret st.

Fixpoint rows_loop (is_capital_table : bool) (header years : list string)
    (rows : list row) (st : state) : res state :=
  match rows with
  | [] => Ret st
  | r :: rest =>
      st' <- row_step is_capital_table header years r st ;;
      rows_loop is_capital_table header years rest st'
  end.

(** One iteration of [for table in tables]. *)
Definition table_step (t : table) (st : state) : res state :=
  if (List.length t <? 2)%nat then Ret st
  else
    let text := first_col_text t in
    let is_capital_table := contains "Capital Expenditure" text in
    let is_operational_table := contains "Operational Expenditure" text in
    if negb (is_capital_table || is_operational_table) then Ret st
    else
      let header := find_header t in
      match header with
      | [] => Ret st
      | _ :: _ =>
          let years := filter year_like header in
          match years with
          | [] => Ret st
          | _ :: _ => rows_loop is_capital_table header years t st
          end
      end.

Fixpoint tables_loop (tables : list table) (st : state) : res state :=
  match tables with
  | [] => Ret st
  | t :: rest => st' <- table_step t st ;; tables_loop rest st'
  end.

Fixpoint pages_loop (ps : list page) (st : state) : res state :=
  match ps with
  | [] => Ret st
  | p :: rest => st' <- tables_loop (extract_tables p) st ;; pages_loop rest st'
  end.

Section Combine.

(** [np.mean] of a non-empty list of integers: the array library's
    binary64 mean.  Its summation order is the library's business; the
    extractor is modelled for any such function. *)
Variable np_mean : list Z -> float.

(** [a + b] on numbers. *)
Definition num_add (a b : num) : num :=
  match a, b with
  | PyInt x, PyInt y => PyInt (x + y)
  | PyInt x, PyFloat g => PyFloat (float_of_int x + g)
  | PyFloat f, PyInt y => PyFloat (f + float_of_int y)
  | PyFloat f, PyFloat g => PyFloat (f + g)
  end.

(** [np.mean(list(d.values())) if d else 0] *)
Definition average (d : dict) : num :=
  match d with
  | [] => PyInt 0
  | _ :: _ => PyFloat (np_mean (values d))
  end.

Definition year_row (d : document) (st : state) (idx : Z) (year : string)
  : res out_row :=
  let cap := dict_get (capital_exp st) year 0 in
  let op := dict_get (operational_exp st) year 0 in
  c <- format_indian_currency (PyInt cap) ;;
  o <- format_indian_currency (PyInt op) ;;
  t <- format_indian_currency (PyInt (cap + op)) ;;
  Ret {| s_no := SNo idx;
         row_college_name := college_name d;
         row_college_id := college_id d;
         academic_year := year;
         capital_expenditure := c;
         operational_expenditure := o;
         total_expenditure := t |}.

(** [for idx, year in enumerate(all_years, 1)] *)
Fixpoint year_rows (d : document) (st : state) (idx : Z) (years : list string)
  : res (list out_row) :=
  match years with
  | [] => Ret []
  | year :: rest =>
      r <- year_row d st idx year ;;
      rs <- year_rows d st (idx + 1) rest ;;
      Ret (r :: rs)
  end.

Definition average_row (st : state) : res out_row :=
  let avg_cap := average (capital_exp st) in
  let avg_op := average (operational_exp st) in
  let avg_total := num_add avg_cap avg_op in
  c <- format_indian_currency avg_cap ;;
  o <- format_indian_currency avg_op ;;
  t <- format_indian_currency avg_total ;;
  Ret {| s_no := SNoBlank;
         row_college_name := "";
         row_college_id := "";
         academic_year := "**Average**";
         capital_expenditure := c;
         operational_expenditure := o;
         total_expenditure := t |}.

Definition all_years (st : state) : list string :=
  sorted_desc (union_keys (keys (capital_exp st)) (keys (operational_exp st))).

(** The part after the page loop. *)
Definition combine_rows (d : document) (st : state) : res (list out_row) :=
  match all_years st with
  | [] => Ret []
  | (_ :: _) as ys =>
      rows <- year_rows d st 1 ys ;;
      avg <- average_row st ;;
      Ret (rows ++ [avg])
  end.

Definition extract_expenditure_data (d : document) : outcome out_row :=
  guarded d (st <- pages_loop (pages d) initial ;; combine_rows d st) (fun rows => rows).

End Combine.

End Expenditure.

(* ===================================================================== *)
(** ** median_salary_tab.py: the post-pass over the assembled records *)
(* ===================================================================== *)

Module MedianSalary.

(** One entry of [all_salary_data]. *)
Record record : Type := {
  rec_college_name : string;
  rec_college_code : string;
  program_name : string;
  academic_year : cell;
  median_salary : Z
}.

(** One row of the frame returned. *)
Record out_row : Type := {
  s_no : Z;
  row_college_name : string;
  row_college_code : string;
  row_program_name : string;
  row_academic_year : cell;
  row_median_salary : string;
  row_average_median_salary : string
}.

(** *** Number formatting: [f"{x:,.0f}"] and [f"{x:,.2f}"] *)

Definition string_rev (s : string) : string :=
  string_of_list_ascii (rev (list_ascii_of_string s)).

Fixpoint commas_rev (s : string) (count : nat) : string :=
  match s with
  | EmptyString => EmptyString
  | String c r =>
      match count with
      | 3%nat => String "," (String c (commas_rev r 1))
      | _ => String c (commas_rev r (S count))
      end
  end.

(** Thousands separators in groups of three. *)
Definition group3 (digits : string) : string :=
  string_rev (commas_rev (string_rev digits) 0).

Definition two_digits (n : Z) : string :=
  if n <? 10 then ("0" ++ str_of_int n)%string else str_of_int n.

(** [format(x, ',.0f')] when [places] is [false], [format(x, ',.2f')] when it
    is [true]: the decimal nearest to the exact value of [x]. *)
Definition format_comma_f (places : bool) (x : float) : string :=
  let sign (s : bool) := if s then "-" else "" in
  let render (s : bool) (n : Z) :=
    if places
    then (sign s ++ group3 (str_of_int (n / 100)) ++ "." ++ two_digits (n mod 100))%string
    else (sign s ++ group3 (str_of_int n))%string in
  match Prim2SF x with
  | S754_nan => "nan"
  | S754_infinity s => (sign s ++ "inf")%string
  | S754_zero s => render s 0
  | S754_finite s m e =>
      render s (nearest_int ((if places then 100 else 1) * Z.pos m) e)
  end.

Definition rupee : string := "₹".

(** [f"₹{x:,.0f}"] on an integer of the salary column. *)
Definition format_salary (x : Z) : string :=
  (rupee ++ format_comma_f false (float_of_int x))%string.

(** [pd.notna(x)] on a number of the average column. *)
Definition notna (x : float) : bool :=
  match Prim2SF x with
  | S754_nan => false
  | _ => true
  end.

(** [f"₹{x:,.2f}" if pd.notna(x) else ""] *)
Definition format_average (x : float) : string :=
  if notna x then (rupee ++ format_comma_f true x)%string else "".

(** *** The ordering of [sort_values] *)

(** Descending on the year, a missing year last. *)
Definition year_before (a b : cell) : bool :=
  match a, b with
  | Some x, Some y => String.leb y x
  | Some _, None => true
  | None, Some _ => false
  | None, None => true
  end.

(** [a] does not come after [b]: program ascending, then year descending. *)
Definition row_le {A : Type} (a b : record * A) : bool :=
  match String.compare (program_name (fst a)) (program_name (fst b)) with
  | Lt => true
  | Gt => false
  | Eq => year_before (academic_year (fst a)) (academic_year (fst b))
  end.

(** [df.sort_values(by=['ProgramName', 'Academic Year'],
    ascending=[True, False])]: a stable sort. *)
Definition sort_values {A : Type} (l : list (record * A)) : list (record * A) :=
  sort_by row_le l.

Section PostPass.

(** The group mean of the data-frame library ([transform('mean')]), a
    binary64 number; the post-pass is modelled for any such function. *)
Variable group_mean : list Z -> float.

(** The salaries of the rows of one program. *)
Definition group_salaries (data : list record) (prog : string) : list Z :=
  map median_salary (filter (fun r => String.eqb (program_name r) prog) data).

(** [df.groupby('ProgramName')['Median Salary'].transform('mean')] *)
Definition with_average (data : list record) : list (record * float) :=
  map (fun r => (r, group_mean (group_salaries data (program_name r)))) data.

(** [mask = df.duplicated(subset='ProgramName', keep='first');
    df.loc[mask, 'Average Median Salary'] = np.nan] *)
Fixpoint blank_duplicates (seen : list string) (l : list (record * float))
  : list (record * float) :=
  match l with
  | [] => []
  | (r, avg) :: rest =>
      (r, if mem (program_name r) seen then nan else avg)
        :: blank_duplicates (program_name r :: seen) rest
  end.

Definition render_row (i : Z) (x : record * float) : out_row :=
  {| s_no := i;
     row_college_name := rec_college_name (fst x);
     row_college_code := rec_college_code (fst x);
     row_program_name := program_name (fst x);
     row_academic_year := academic_year (fst x);
     row_median_salary := format_salary (median_salary (fst x));
     row_average_median_salary := format_average (snd x) |}.

Fixpoint render_rows (i : Z) (l : list (record * float)) : list out_row :=
  match l with
  | [] => []
  | x :: rest => render_row i x :: render_rows (i + 1) rest
  end.

(** Lines 95 to 121 of [extract_median_salary_data]. *)
Definition post_pass (all_salary_data : list record) : list out_row :=
  render_rows 1 (blank_duplicates [] (sort_values (with_average all_salary_data))).

End PostPass.

End MedianSalary.

(* ===================================================================== *)
(** ** phd_data_tab.py *)
(* ===================================================================== *)

Module PhdData.

Record state : Type := {
  full_time_grads : dict;
  part_time_grads : dict;
  years : list string
}.

Definition initial : state :=
  {| full_time_grads := []; part_time_grads := []; years := [] |}.

Record out_row : Type := {
  s_no : Z;
  row_college_name : string;
  row_college_code : string;
  row_program_name : string;
  per_year : dict;
  total : Z
}.

(** [" ".join([" ".join(map(str, row)) for row in table])] *)
Definition table_text (t : table) : string :=
  join " " (map (fun r => join " " (map str_cell r)) t).

(** The header search: the years of the first row that holds a year-like
    cell; the years found so far stay when there is no such row. *)
Definition find_years (t : table) (years_so_far : list string) : list string :=
  match find (fun r => existsb (fun c => year_like (str_cell c)) r) t with
  | Some r => filter year_like (map (fun c => replace newline " " (str_cell c)) r)
  | None => years_so_far
  end.

(** [try: d[year] = int(row[i+1]) except (ValueError, IndexError,
    TypeError): d[year] = 0], for [i, year] in [enumerate(years)]. *)
Fixpoint read_years (r : row) (i : nat) (ys : list string) (d : dict) : res dict :=
  match ys with
  | [] => Ret d
  | year :: rest =>
      d' <- try_except
              (c <- getitem r (i + 1) ;; v <- int_of_cell c ;; Ret (dict_set d year v))
              [ValueError; IndexError; TypeError]
              (Ret (dict_set d year 0)) ;;
      read_years r (S i) rest d'
  end.

(** One iteration of [for row in table]. *)
Definition row_step (r : row) (st : state) : res state :=
  c <- getitem r 0 ;;
  let row_title := strip (str_cell c) in
  if contains "Full Time" row_title then
    d <- read_years r 0 (years st) (full_time_grads st) ;;
    Ret {| full_time_grads := d; part_time_grads := part_time_grads st;
           years := years st |}
  else if contains "Part Time" row_title then
    d <- read_years r 0 (years st) (part_time_grads st) ;;
    Ret {| full_time_grads := full_time_grads st; part_time_grads := d;
           years := years st |}
  else Ret st.

Fixpoint rows_loop (rows : list row) (st : state) : res state :=
  match rows with
  | [] => Ret st
  | r :: rest => st' <- row_step r st ;; rows_loop rest st'
  end.

(** [for table in tables], left by [break] after the first table that is
    read. *)
Fixpoint tables_loop (tables : list table) (st : state) : res state :=
  match tables with
  | [] => Ret st
  | t :: rest =>
      if (List.length t <? 2)%nat then tables_loop rest st
      else if negb (contains "No. of Ph.D students graduated" (table_text t))
      then tables_loop rest st
      else
        let st1 := {| full_time_grads := full_time_grads st;
                      part_time_grads := part_time_grads st;
                      years := find_years t (years st) |} in
        match years st1 with
        | [] => tables_loop rest st1
        | _ :: _ => rows_loop t st1
        end
  end.

Fixpoint pages_loop (ps : list page) (st : state) : res state :=
  match ps with
  | [] => Ret st
  | p :: rest => st' <- tables_loop (extract_tables p) st ;; pages_loop rest st'
  end.

(** [row = {...}; for year in sorted_years: row[year] = value(year)] *)
Definition fill_years (sorted_years : list string) (value : string -> Z) : dict :=
  fold_left (fun d year => dict_set d year (value year)) sorted_years [].

(** [sum(row[year] for year in sorted_years)] *)
Definition sum_years (sorted_years : list string) (d : dict) : Z :=
  fold_left Z.add (map (fun year => dict_get d year 0) sorted_years) 0.

Definition build_rows (d : document) (st : state) : list out_row :=
  match years st with
  | [] => []
  | _ :: _ =>
      let sorted_years := sorted_desc (years st) in
      let ft := fill_years sorted_years (fun y => dict_get (full_time_grads st) y 0) in
      let pt := fill_years sorted_years (fun y => dict_get (part_time_grads st) y 0) in
      let tot := fill_years sorted_years (fun y => dict_get ft y 0 + dict_get pt y 0) in
      let mk (i : Z) (name : string) (values : dict) :=
        {| s_no := i;
           row_college_name := college_name d;
           row_college_code := college_id d;
           row_program_name := name;
           per_year := values;
           total := sum_years sorted_years values |} in
      [ mk 1 "Ph.D. Graduated - Full Time" ft;
        mk 2 "Ph.D. Graduated - Part Time" pt;
        mk 3 "Ph.D. Graduated - Total" tot ]
  end.

Definition extract_phd_graduated_data (d : document) : outcome out_row :=
  guarded d (pages_loop (pages d) initial) (build_rows d).

End PhdData.

(* ===================================================================== *)
(** ** extract_college_info *)
(* ===================================================================== *)

(** The same function stands in placement_data_tab.py,
    median_salary_tab.py, university_exam_tab.py, phd_data_tab.py and
    app.py.  Its two regular expressions are written as the matchers they
    denote; [\s] is taken on its ASCII range, as [str.strip] is. *)
Module CollegeInfo.

Definition not_found : string := "Not Found".

(** [\s*\[] matched at the start of [s], as a truth value: the greedy
    [\s*] takes the whole run of spaces, and giving a space back never
    helps, since a space is not a bracket. *)
Definition closes (s : string) : bool :=
  match lstrip s with
  | String "[" _ => true
  | _ => false
  end.

(** [(.*?)\s*\[] matched at the start of [s]: the group, the shortest run
    of characters other than a line break after which [\s*\[] matches. *)
Fixpoint lazy_group (s : string) : option string :=
  if closes s then Some EmptyString
  else
    match s with
    | String c r =>
        if Ascii.eqb c (ascii_of_nat 10) then None
        else option_map (String c) (lazy_group r)
    | EmptyString => None
    end.

Definition name_literal : string := "Institute Name:".

(** [Institute Name:\s*(.*?)\s*\[] matched at the start of [s]: group 1.
    The first [\s*] takes the whole run of spaces after the literal; a
    shorter run matches only where the whole run does. *)
Definition match_name (s : string) : option string :=
  if String.prefix name_literal s
  then lazy_group (lstrip (drop (String.length name_literal) s))
  else None.

(** [re.search]: the leftmost position that matches. *)
Fixpoint search_name (s : string) : option string :=
  match match_name s with
  | Some g => Some g
  | None =>
      match s with
      | String _ r => search_name r
      | EmptyString => None
      end
  end.

(** The longest run of characters other than a closing bracket at the
    start of [s]: what a greedy [[^\]]*] takes. *)
Fixpoint take_until_close (s : string) : string :=
  match s with
  | String c r => if Ascii.eqb c "]" then EmptyString else String c (take_until_close r)
  | EmptyString => EmptyString
  end.

(** [\[(IR-[^\]]+)\]] matched at the start of [s]: group 1. *)
Definition match_code (s : string) : option string :=
  if String.prefix "[IR-" s then
    let body := take_until_close (drop 4 s) in
    if String.eqb body "" then None
    else if String.prefix "]" (drop (String.length body) (drop 4 s))
         then Some ("IR-" ++ body)%string
    else None
  else None.

Fixpoint search_code (s : string) : option string :=
  match match_code s with
  | Some g => Some g
  | None =>
      match s with
      | String _ r => search_code r
      | EmptyString => None
      end
  end.

Definition extract_college_info (text : string) : string * string :=
  let college_name :=
    match search_name text with
    | Some g => strip g
    | None => not_found
    end in
  let college_code :=
    match search_code text with
    | Some g => strip g
    | None => not_found
    end in
  (college_name, college_code).

End CollegeInfo.

(* ===================================================================== *)
(** ** university_exam_tab.py *)
(* ===================================================================== *)

Module UniversityExam.

Record record : Type := {
  rec_college_name : string;
  rec_college_code : string;
  program_name : string;
  admit_year : cell;
  graduation_year : cell;
  total_admitted : Z;
  graduated : Z;
  percentage : num
}.

Definition required_cols : list string :=
  [ "No. of first year students admitted in the year";
    "No. of students graduating in minimum stipulated time" ].

Definition is_exam_header (header_row : list string) : bool :=
  forallb (fun col => mem col header_row) required_cols.

Definition lateral_entry_label : string :=
  "No. of students admitted through Lateral entry".

(** [re.search(r"(UG|PG) \[(\d+)", program_header)], then
    [f"{prog_type}-{prog_years}"]. *)
Definition program_of_label (program_header : string) : option string :=
  match search_program " [" program_header with
  | Some (prog_type, prog_years) => Some (prog_type ++ "-" ++ prog_years)%string
  | None => None
  end.

(** [s.isdigit()], on the ASCII digits. *)
Definition isdigit (s : string) : bool :=
  negb (String.eqb s "") && all_digits s.

(** [round((graduated / total_admitted) * 100, 2) if total_admitted > 0
    else 0.0] *)
Definition percentage_of (graduated total_admitted : Z) : res num :=
  if 0 <? total_admitted then
    q <- truediv graduated total_admitted ;;
    r <- round2 (q * 100)%float ;;
    Ret (PyFloat r)
  else Ret (PyFloat 0).

(** The column indices of a table.  The source's [-1] for a missing
    lateral-entry column is [None] here. *)
Record columns : Type := {
  admit_year_col : nat;
  admitted_col : nat;
  grad_year_col : nat;
  graduated_col : nat;
  lateral_entry_col : option nat
}.

Definition find_cols (header_row : list string) : res columns :=
  admit_year_col <- index "Academic Year" header_row 0 ;;
  admitted_col <-
    index "No. of first year students admitted in the year" header_row 0 ;;
  grad_year_col <- index "Academic Year" header_row (admit_year_col + 1) ;;
  graduated_col <-
    index "No. of students graduating in minimum stipulated time" header_row 0 ;;
  lateral_entry_col <-
    (if mem lateral_entry_label header_row
     then i <- index lateral_entry_label header_row 0 ;; Ret (Some i)
     else Ret None) ;;
  Ret {| admit_year_col := admit_year_col;
         admitted_col := admitted_col;
         grad_year_col := grad_year_col;
         graduated_col := graduated_col;
         lateral_entry_col := lateral_entry_col |}.

(** Lines 101 to 103: the lateral entries counted for the row. *)
Definition lateral_of (cols : columns) (r : row) : res Z :=
  match lateral_entry_col cols with
  | None => Ret 0
  | Some col =>
      c <- getitem r col ;;
      if truthy c && isdigit (strip (str_cell c))
      then Placement.count_at r col
      else Ret 0
  end.

(** The body of the [try] for one row. *)
Definition read_row (college_name college_code prog_name : string)
    (cols : columns) (r : row) : res record :=
  admit_year <- getitem r (admit_year_col cols) ;;
  grad_year <- getitem r (grad_year_col cols) ;;
  admitted <- Placement.count_at r (admitted_col cols) ;;
  graduated <- Placement.count_at r (graduated_col cols) ;;
  lateral_admitted <- lateral_of cols r ;;
  let total_admitted := admitted + lateral_admitted in
  percentage <- percentage_of graduated total_admitted ;;
  Ret {| rec_college_name := college_name;
         rec_college_code := college_code;
         program_name := prog_name;
         admit_year := admit_year;
         graduation_year := grad_year;
         total_admitted := total_admitted;
         graduated := graduated;
         percentage := percentage |}.

(** One iteration of [for row in table_data[1:]]. *)
Definition row_step (college_name college_code prog_name : string)
    (cols : columns) (r : row) (data : list record) : res (list record) :=
  try_except (rec <- read_row college_name college_code prog_name cols r ;;
              Ret (data ++ [rec]))
    [ValueError; IndexError; TypeError] (Ret data).

Fixpoint rows_loop (college_name college_code prog_name : string)
    (cols : columns) (rows : list row) (data : list record)
  : res (list record) :=
  match rows with
  | [] => Ret data
  | r :: rest =>
      data' <- row_step college_name college_code prog_name cols r data ;;
      rows_loop college_name college_code prog_name cols rest data'
  end.

(** One iteration of [for table_obj in table_objects]. *)
Definition table_step (college_name college_code : string) (p : page)
    (previous_page_text : string) (table_obj : Doc.table_obj) (data : list record)
  : res (list record) :=
  match extract table_obj with
  | first :: ((_ :: _) as body) =>
      let header_row := clean_header first in
      if is_exam_header header_row then
        program_header <-
          find_program_name_for_table p table_obj previous_page_text ;;
        match program_of_label program_header with
        | None => Ret data
        | Some prog_name =>
            match find_cols header_row with
            | Raise ValueError => Ret data
            | Raise e => Raise e
            | Ret cols => rows_loop college_name college_code prog_name cols body data
            end
        end
      else Ret data
  | _ => Ret data
  end.

Fixpoint tables_loop (college_name college_code : string) (p : page)
    (previous_page_text : string) (table_objects : list Doc.table_obj)
    (data : list record) : res (list record) :=
  match table_objects with
  | [] => Ret data
  | t :: rest =>
      data' <- table_step college_name college_code p previous_page_text t data ;;
      tables_loop college_name college_code p previous_page_text rest data'
  end.

(** [for page in pdf.pages], carrying the text of the page before. *)
Fixpoint pages_loop (college_name college_code : string) (ps : list page)
    (previous_page_text : string) (data : list record) : res (list record) :=
  match ps with
  | [] => Ret data
  | p :: rest =>
      data' <- tables_loop college_name college_code p previous_page_text
                 (find_tables p) data ;;
      pages_loop college_name college_code rest (extract_text p) data'
  end.

Definition extract_university_exam_data (d : document) : outcome (Z * record) :=
  guarded d (pages_loop (college_name d) (college_id d) (pages d) "" [])
    Placement.number_rows.

End UniversityExam.

(* ===================================================================== *)
(** ** median_salary_tab.py: the scan of the tables, and the whole *)
(* ===================================================================== *)

Module MedianSalaryScan.
Import MedianSalary.

(** The longest run of digits and commas at the start of [s]. *)
Fixpoint take_amount (s : string) : string :=
  match s with
  | String c r =>
      if is_digit c || Ascii.eqb c "," then String c (take_amount r) else EmptyString
  | EmptyString => EmptyString
  end.

(** [(\d[\d,]+)] matched at the start of [s]: the group. *)
Definition match_amount (s : string) : option string :=
  match s with
  | String c r =>
      if is_digit c then
        match take_amount r with
        | EmptyString => None
        | run => Some (String c run)
        end
      else None
  | EmptyString => None
  end.

(** [re.search(r'(\d[\d,]+)', s)] *)
Fixpoint search_amount (s : string) : option string :=
  match match_amount s with
  | Some g => Some g
  | None =>
      match s with
      | String _ r => search_amount r
      | EmptyString => None
      end
  end.

(** [any("Median salary of placed graduates" in col for col in header_row)] *)
Definition is_salary_header (header_row : list string) : bool :=
  existsb (contains "Median salary of placed graduates") header_row.

(** [next(i for i, col in enumerate(header_row) if sub in col)]; [None]
    stands for [StopIteration]. *)
Fixpoint first_containing (sub : string) (l : list string) (i : nat) : option nat :=
  match l with
  | [] => None
  | col :: r => if contains sub col then Some i else first_containing sub r (S i)
  end.

(** [re.search(r"(UG|PG) \[(\d+)", program_header)], then
    [f"{prog_type}-{prog_years}"]. *)
Definition program_of_label (program_header : string) : option string :=
  match search_program " [" program_header with
  | Some (prog_type, prog_years) => Some (prog_type ++ "-" ++ prog_years)%string
  | None => None
  end.

(** The body of the [try] for one row: the record, or nothing when the
    salary cell holds no amount. *)
Definition read_row (college_name college_code prog_name : string)
    (grad_year_col salary_col : nat) (r : row) : res (option record) :=
  grad_year <- getitem r grad_year_col ;;
  c <- getitem r salary_col ;;
  match search_amount (str_cell c) with
  | Some g =>
      salary <- int_of_str (replace "," "" g) ;;
      Ret (Some {| rec_college_name := college_name;
                   rec_college_code := college_code;
                   program_name := prog_name;
                   academic_year := grad_year;
                   median_salary := salary |})
  | None => Ret None
  end.

(** One iteration of [for row in table_data[1:]]. *)
Definition row_step (college_name college_code prog_name : string)
    (grad_year_col salary_col : nat) (r : row) (data : list record)
  : res (list record) :=
  try_except
    (v <- read_row college_name college_code prog_name grad_year_col salary_col r ;;
     match v with
     | Some rec => Ret (data ++ [rec])
     | None => Ret data
     end)
    [ValueError; IndexError; TypeError] (Ret data).

Fixpoint rows_loop (college_name college_code prog_name : string)
    (grad_year_col salary_col : nat) (rows : list row) (data : list record)
  : res (list record) :=
  match rows with
  | [] => Ret data
  | r :: rest =>
      data' <- row_step college_name college_code prog_name
                 grad_year_col salary_col r data ;;
      rows_loop college_name college_code prog_name grad_year_col salary_col
        rest data'
  end.

(** One iteration of [for table_obj in table_objects]. *)
Definition table_step (college_name college_code : string) (p : page)
    (previous_page_text : string) (table_obj : Doc.table_obj) (data : list record)
  : res (list record) :=
  match extract table_obj with
  | first :: ((_ :: _) as body) =>
      let header_row := clean_header first in
      if is_salary_header header_row then
        program_header <-
          find_program_name_for_table p table_obj previous_page_text ;;
        match program_of_label program_header with
        | None => Ret data
        | Some prog_name =>
            match index "Academic Year" header_row 1 with
            | Raise ValueError => Ret data
            | Raise e => Raise e
            | Ret grad_year_col =>
                match first_containing "Median salary" header_row 0 with
                | None => Ret data
                | Some salary_col =>
                    rows_loop college_name college_code prog_name
                      grad_year_col salary_col body data
                end
            end
        end
      else Ret data
  | _ => Ret data
  end.

Fixpoint tables_loop (college_name college_code : string) (p : page)
    (previous_page_text : string) (table_objects : list Doc.table_obj)
    (data : list record) : res (list record) :=
  match table_objects with
  | [] => Ret data
  | t :: rest =>
      data' <- table_step college_name college_code p previous_page_text t data ;;
      tables_loop college_name college_code p previous_page_text rest data'
  end.

(** [for page in pdf.pages], carrying the text of the page before. *)
Fixpoint pages_loop (college_name college_code : string) (ps : list page)
    (previous_page_text : string) (data : list record) : res (list record) :=
  match ps with
  | [] => Ret data
  | p :: rest =>
      data' <- tables_loop college_name college_code p previous_page_text
                 (find_tables p) data ;;
      pages_loop college_name college_code rest (extract_text p) data'
  end.

Section Whole.

Variable group_mean : list Z -> float.

Definition extract_median_salary_data (d : document) : outcome out_row :=
  guarded d (pages_loop (college_name d) (college_id d) (pages d) "" [])
    (post_pass group_mean).

End Whole.

End MedianSalaryScan.

(* ===================================================================== *)
(** ** app.py: extract_program_data *)
(* ===================================================================== *)

Module ProgramData.

(** One [ProgramLine]. *)
Record line : Type := {
  s_no : Z;
  line_college_name : string;
  line_college_code : string;
  line_program_name : string;
  sanctioned_intake_of : Z;
  total_students_of : Z
}.

Record state : Type := {
  sanctioned_intake : dict;
  total_students : dict
}.

Definition initial : state := {| sanctioned_intake := []; total_students := [] |}.

Definition set_intake (st : state) (prog : string) (v : Z) : state :=
  {| sanctioned_intake := dict_set (sanctioned_intake st) prog v;
     total_students := total_students st |}.

Definition set_total (st : state) (prog : string) (v : Z) : state :=
  {| sanctioned_intake := sanctioned_intake st;
     total_students := dict_set (total_students st) prog v |}.

Definition is_program (program_name : string) : bool :=
  negb (String.eqb program_name "")
  && (startswith program_name "UG [" || startswith program_name "PG [").

(** Lines 59 to 61 and 72 to 73: the value read from the cell, if the
    cleaned cell holds one.  [skip_dash] tells the first reading, which
    passes over a dash, from the second. *)
Definition read_value (skip_dash : bool) (r : row) (col : nat) : res (option Z) :=
  c <- getitem r col ;;
  s <- as_str c ;;
  let val := strip s in
  if negb (String.eqb val "")
     && negb (skip_dash && (String.eqb val "-" || String.eqb val ""))
  then v <- int_of_str (replace "," "" val) ;; Ret (Some v)
  else Ret None.

(** One iteration of either [for row in table[1:]]. *)
Definition row_step (skip_dash : bool) (set : state -> string -> Z -> state)
    (col : nat) (r : row) (st : state) : res state :=
  c <- getitem r 0 ;;
  let program_name := strip (replace newline " " (str_cell c)) in
  if is_program program_name then
    v <- try_except (read_value skip_dash r col) [ValueError; IndexError] (Ret None) ;;
    match v with
    | Some v => Ret (set st program_name v)
    | None => Ret st
    end
  else Ret st.

Fixpoint rows_loop (skip_dash : bool) (set : state -> string -> Z -> state)
    (col : nat) (rows : list row) (st : state) : res state :=
  match rows with
  | [] => Ret st
  | r :: rest =>
      st' <- row_step skip_dash set col r st ;;
      rows_loop skip_dash set col rest st'
  end.

(** The second [if] of the table loop: the strength table. *)
Definition totals_block (header : list string) (body : list row) (st : state)
  : res state :=
  if mem "Total Students" header && mem "No. of Male Students" header then
    match index "Total Students" header 0 with
    | Raise ValueError => Ret st
    | Raise e => Raise e
    | Ret total_students_col_idx =>
        rows_loop false set_total total_students_col_idx body st
    end
  else Ret st.

(** One iteration of [for table in tables].  A [ValueError] leaves either
    [try] only from [header.index], before anything is stored: the rows
    handle their own. *)
Definition table_step (t : table) (st : state) : res state :=
  match t with
  | (h0 :: _) as first :: body =>
      let header := clean_header first in
      if contains "Academic Year" (if truthy h0 then replace newline " " (str_cell h0) else "")
         && mem "2022-23" header
      then
        match index "2022-23" header 0 with
        | Raise ValueError => Ret st
        | Raise e => Raise e
        | Ret year_col_idx =>
            st' <- rows_loop true set_intake year_col_idx body st ;;
            totals_block header body st'
        end
      else totals_block header body st
  | _ => Ret st
  end.

Fixpoint tables_loop (tables : list table) (st : state) : res state :=
  match tables with
  | [] => Ret st
  | t :: rest => st' <- table_step t st ;; tables_loop rest st'
  end.

Fixpoint pages_loop (ps : list page) (st : state) : res state :=
  match ps with
  | [] => Ret st
  | p :: rest => st' <- tables_loop (extract_tables p) st ;; pages_loop rest st'
  end.

(** The elements of [l], each once. *)
Fixpoint distinct (l : list string) : list string :=
  match l with
  | [] => []
  | x :: r => if mem x r then distinct r else x :: distinct r
  end.

(** [sorted(list(set(a.keys()) | set(b.keys())))]: the order in which a set
    is listed does not show after sorting. *)
Definition all_programs (st : state) : list string :=
  sort_by String.leb (distinct (keys (sanctioned_intake st) ++ keys (total_students st))).

(** Lines 78 to 84. *)
Fixpoint lines_loop (college_name college_code : string) (st : state)
    (programs : list string) (s_no : Z) : list line :=
  match programs with
  | [] => []
  | prog :: rest =>
      let intake := dict_get (sanctioned_intake st) prog 0 in
      let students := dict_get (total_students st) prog 0 in
      if (0 <? intake) || (0 <? students)
      then {| s_no := s_no;
              line_college_name := college_name;
              line_college_code := college_code;
              line_program_name := prog;
              sanctioned_intake_of := intake;
              total_students_of := students |}
           :: lines_loop college_name college_code st rest (s_no + 1)
      else lines_loop college_name college_code st rest s_no
  end.

Definition extract_program_data (d : document) : outcome line :=
  guarded d (pages_loop (pages d) initial)
    (fun st => lines_loop (college_name d) (college_id d) st (all_programs st) 1).

End ProgramData.

(* ===================================================================== *)
(** ** full_report_tab.py *)
(* ===================================================================== *)

Module Report.

(** *** The sheet name *)

(** The characters of the class at line 138: backslash, slash, star,
    question mark, colon, double quote, angle brackets and bar. *)
Definition forbidden (c : ascii) : bool :=
  existsb (Ascii.eqb c)
    [ascii_of_nat 92; "/"; "*"; "?"; ":"; ascii_of_nat 34; "<"; ">"; "|"]%char.

(** [re.sub] of that class by the empty text. *)
Fixpoint remove_forbidden (s : string) : string :=
  match s with
  | String c r => if forbidden c then remove_forbidden r else String c (remove_forbidden r)
  | EmptyString => EmptyString
  end.

(** A byte that continues a character of more than one byte. *)
Definition is_continuation (c : ascii) : bool :=
  let n := nat_of_ascii c in ((128 <=? n) && (n <? 192))%nat.

(** [len(s)]: the number of characters, not of bytes. *)
Fixpoint char_count (s : string) : nat :=
  match s with
  | String c r => if is_continuation c then char_count r else S (char_count r)
  | EmptyString => O
  end.

(** [s[:n]]: the first [n] characters, each with all its bytes. *)
Fixpoint take_chars (n : nat) (s : string) : string :=
  match s with
  | EmptyString => EmptyString
  | String c r =>
      if is_continuation c then String c (take_chars n r)
      else
        match n with
        | O => EmptyString
        | S k => String c (take_chars k r)
        end
  end.

(** Line 138, and line 93 of college_specific_tab.py. *)
Definition safe_sheet_name (sheet_name : string) : string :=
  take_chars 31 (remove_forbidden sheet_name).

(** The key of a report, line 119: [f"{college_name} | {college_code}"]. *)
Definition report_key (college_name college_code : string) : string :=
  (college_name ++ " | " ++ college_code)%string.

(** *** The two-column report *)

Definition ignore_cols : list string :=
  [ "SNo"; "S.No"; "CollegeName"; "CollegeCode"; "ProgramName"; "Program";
    "Academic Year"; "Financial Year"; "GraduationYear" ].

Section Reformat.

(** A cell of a frame is any object; the report needs of it only whether
    it is missing ([pd.notna]) and its text in an f-string. *)
Variable value : Type.
Variable notna : value -> bool.
Variable text_of : value -> string.

(** A row as [iterrows] yields it: the cells by column label, in column
    order, the labels distinct. *)
Definition series : Type := list (string * value).

(** [row[col]] for a label known to the row. *)
Fixpoint lookup (row : series) (col : string) : option value :=
  match row with
  | [] => None
  | (k, v) :: r => if String.eqb k col then Some v else lookup r col
  end.

(** [if col in row and pd.notna(row[col]): context += f" ({lead}{row[col]})"] *)
Definition context_part (row : series) (col lead : string) : string :=
  match lookup row col with
  | Some v => if notna v then (" (" ++ lead ++ text_of v ++ ")")%string else ""
  | None => ""
  end.

Definition context_of (row : series) : string :=
  (context_part row "ProgramName" ""
   ++ context_part row "Program" ""
   ++ context_part row "Academic Year" ""
   ++ context_part row "Financial Year" ""
   ++ context_part row "GraduationYear" "Graduating ")%string.

(** Lines 40 to 43 for one row. *)
Definition row_parameters (row : series) : list (string * value) :=
  let context := context_of row in
  flat_map (fun kv =>
              if mem (fst kv) ignore_cols then []
              else [(strip (fst kv ++ context), snd kv)]) row.

(** A frame is the list of its rows; one without rows or without columns
    is empty, and gives the empty report either way. *)
Definition reformat_data_for_full_report (df : list series) : list (string * value) :=
  flat_map row_parameters df.

(** [drop_duplicates(subset='Parameter', keep='first')] *)
Fixpoint drop_duplicates (seen : list string) (l : list (string * value))
  : list (string * value) :=
  match l with
  | [] => []
  | (p, v) :: r =>
      if mem p seen then drop_duplicates seen r
      else (p, v) :: drop_duplicates (p :: seen) r
  end.

(** Lines 98 to 118 for the frames the extractors return for one file:
    the report, or nothing when no frame gives a report row. *)
Definition compile_report (frames : list (list series)) : option (list (string * value)) :=
  let report_data :=
    filter (fun report_df => negb (Nat.eqb (List.length report_df) 0))
      (map reformat_data_for_full_report frames) in
  match report_data with
  | [] => None
  | _ :: _ => Some (drop_duplicates [] (List.concat report_data))
  end.

End Reformat.

End Report.

(* ===================================================================== *)
(** ** Notions and sample inputs used in the statements *)
(* ===================================================================== *)

Module Samples.

(** A document of one page that holds one table. *)
Definition single_table (name code : string) (t : table) : document :=
  {| college_name := name;
     college_id := code;
     pages := [ {| lines := []; find_tables := [ {| bbox_top := 0%Q; extract := t |} ] |} ] |}.

(** The table of the end-to-end scenario, as the specification words it. *)
Definition scenario_table : table :=
  [ [Some "Program"; Some "Total Students"; Some "No. of Female Students"];
    [Some "UG [4 Years]"; Some "1000"; Some "450"] ].

Definition strength_header : row :=
  [Some "Program"; Some "No. of Male Students"; Some "No. of Female Students";
   Some "Total Students"].

(** The same table with the male column the header test asks for. *)
Definition strength_table : table :=
  [ strength_header; [Some "UG [4 Years]"; Some "550"; Some "450"; Some "1000"] ].

(** A strength table whose only row has no students at all. *)
Definition empty_program_table : table :=
  [ strength_header; [Some "PG [2 Years]"; Some "0"; Some "0"; Some "0"] ].

(** A strength table whose first row has a dash for the female count. *)
Definition dash_row : row := [Some "UG [4 Years]"; Some "550"; Some "-"; Some "1000"].

Definition dash_table : table :=
  [ strength_header; dash_row; [Some "PG [2 Years]"; Some "30"; Some "20"; Some "50"] ].

(** A table of another kind. *)
Definition other_table : table :=
  [ [Some "Financial Year"; Some "2022-23"]; [Some "Library"; Some "1000"] ].

End Samples.

Module PySpec.

(** Every character of [s] passes the test [p]. *)
Fixpoint forall_chars (p : ascii -> bool) (s : string) : bool :=
  match s with
  | String c r => p c && forall_chars p r
  | EmptyString => true
  end.

Definition digit_or_comma (c : ascii) : bool := is_digit c || Ascii.eqb c ",".

(** The byte is below 128: a character of ASCII, not a part of a longer
    UTF-8 sequence. *)
Definition is_ascii (c : ascii) : bool :=
  match c with
  | Ascii _ _ _ _ _ _ _ high => negb high
  end.

(** One of the four separators 28 to 31 (file, group, record, unit), which
    [str.strip] counts as white space and [int] does not. *)
Definition is_separator (c : ascii) : bool :=
  let n := nat_of_ascii c in ((28 <=? n) && (n <=? 31))%nat.

(** No character of the text is one of the four separators. *)
Definition no_separator (s : string) : bool :=
  forall_chars (fun c => negb (is_separator c)) s.

(** The text is plain ASCII.  On such text Python's [str.strip], [int],
    [\d] and [\s] are the functions of [Py]; on other text they also take
    the spaces and the decimal digits of the other scripts. *)
Definition ascii_text (s : string) : bool := forall_chars is_ascii s.

(** The value of the digits of [d] read after [acc]. *)
Fixpoint uint_val (acc : Z) (d : Decimal.uint) : Z :=
  match d with
  | Decimal.Nil => acc
  | Decimal.D0 l => uint_val (10 * acc + 0) l
  | Decimal.D1 l => uint_val (10 * acc + 1) l
  | Decimal.D2 l => uint_val (10 * acc + 2) l
  | Decimal.D3 l => uint_val (10 * acc + 3) l
  | Decimal.D4 l => uint_val (10 * acc + 4) l
  | Decimal.D5 l => uint_val (10 * acc + 5) l
  | Decimal.D6 l => uint_val (10 * acc + 6) l
  | Decimal.D7 l => uint_val (10 * acc + 7) l
  | Decimal.D8 l => uint_val (10 * acc + 8) l
  | Decimal.D9 l => uint_val (10 * acc + 9) l
  end.

End PySpec.

Module StudentRatioSpec.
Import StudentRatio.

(** The header test as a property of the table: an empty table is passed
    over before its header is read. *)
Definition recognised (t : table) : bool :=
  match t with
  | [] => false
  | first :: _ => is_strength_header (clean_header first)
  end.

(** What lines 79 to 84 make of the text of one count cell: the integer, or
    nothing when the cleaned text is empty or [int] rejects it. *)
Definition normalize_count (s : string) : option Z :=
  let cleaned := strip (replace "," "" s) in
  if String.eqb cleaned "" then None
  else
    match int_of_str cleaned with
    | Ret z => Some z
    | Raise _ => None
    end.

End StudentRatioSpec.

Module ExpenditureSpec.
Import Expenditure.

(** The groups written one after the other, without separators. *)
Definition cat (groups : list string) : string :=
  fold_right String.append "" groups.

(** The Indian pattern: a number of at most three digits stands alone;
    otherwise the last group has three digits, the groups before it two,
    and the leading group one or two. *)
Inductive indian_groups : list string -> Prop :=
| groups_short (g : string) :
    (1 <= String.length g <= 3)%nat -> indian_groups [g]
| groups_long (leading : string) (middle : list string) (last3 : string) :
    (1 <= String.length leading <= 2)%nat ->
    Forall (fun g => String.length g = 2%nat) middle ->
    String.length last3 = 3%nat ->
    indian_groups (leading :: middle ++ [last3]).

(** The text [format_indian_currency] puts after the currency sign. *)
Definition grouped (n : Z) : string :=
  match format_indian_currency (PyInt n) with
  | Ret s => drop (String.length rupee) s
  | Raise _ => ""
  end.

(** Every key of the dictionary is a period key. *)
Definition year_keys (d : dict) : Prop :=
  Forall (fun k => year_like k = true) (keys d).

Definition state_keys (st : state) : Prop :=
  year_keys (capital_exp st) /\ year_keys (operational_exp st).

(** The row of one year: the document's identity, a serial number, and the
    two amounts found under that year (0 for a kind without that year) and
    their sum, formatted. *)
Definition merged_row (d : document) (st : state) (r : out_row) : Prop :=
  let cap := dict_get (capital_exp st) (academic_year r) 0 in
  let op := dict_get (operational_exp st) (academic_year r) 0 in
  row_college_name r = college_name d
  /\ row_college_id r = college_id d
  /\ (exists i, s_no r = SNo i)
  /\ format_indian_currency (PyInt cap) = Ret (capital_expenditure r)
  /\ format_indian_currency (PyInt op) = Ret (operational_expenditure r)
  /\ format_indian_currency (PyInt (cap + op)) = Ret (total_expenditure r).

(** The synthetic row: no serial number, no identity, the label
    '**Average**' in the place of the period key. *)
Definition synthetic_row (r : out_row) : Prop :=
  s_no r = SNoBlank
  /\ row_college_name r = ""
  /\ row_college_id r = ""
  /\ academic_year r = "**Average**".

(** The year a period key starts with, as a number. *)
Definition start_year (s : string) : Z :=
  match s with
  | String a (String b (String c (String d _))) =>
      1000 * digit_val a + 100 * digit_val b + 10 * digit_val c + digit_val d
  | _ => 0
  end.

(** [np.mean] where the sum of the values is below 2^53: every order of
    summation gives the same binary64 result. *)
Definition mean_of_small (l : list Z) : float :=
  PrimFloat.div (float_of_int (fold_right Z.add 0 l))
                (float_of_int (Z.of_nat (List.length l))).

(** Two tables of the two kinds, and the document that holds them. *)
Definition capital_table : table :=
  [ [Some "Capital Expenditure"; None; None];
    [Some "Financial Year"; Some "2022-23"; Some "2021-22"];
    [Some "Library"; Some "1000 (Rupees One Thousand)"; Some "2,000"];
    [Some "New Equipment for Laboratories"; Some "500"; Some "-"] ].

Definition operational_table : table :=
  [ [Some "Operational Expenditure"; None; None];
    [Some "Financial Year"; Some "2022-23"; Some "2020-21"];
    [Some "Salaries (Teaching and Non Teaching staff)"; Some "70000"; Some "12345"] ].

Definition two_tables : document :=
  {| college_name := "A";
     college_id := "B";
     pages := [ {| lines := [];
                   find_tables := [ {| bbox_top := 100%Q; extract := capital_table |};
                                    {| bbox_top := 300%Q; extract := operational_table |} ] |} ] |}.

(** [text.replace('₹ ', '').replace(',', '')] *)
Definition unformat (text : string) : string :=
  replace "," "" (replace rupee "" text).

End ExpenditureSpec.

Module PlacementSpec.

(** What [int(cell.replace(',', ''))] makes of the text of one count cell:
    the integer, or nothing when [int] rejects the text. *)
Definition normalize_count (s : string) : option Z :=
  match int_of_str (replace "," "" s) with
  | Ret z => Some z
  | Raise _ => None
  end.

(** A placement table of one row, whose count of placed students is a
    dash, under its program heading. *)
Definition placement_header : row :=
  [ Some "Academic Year"; Some "No. of first year students intake in the year";
    Some "Academic Year"; Some "No. of students graduating in minimum stipulated time";
    Some "No. of students placed"; Some "No. of students selected for Higher Studies" ].

Definition dash_placement_row : row :=
  [ Some "2017-18"; Some "120"; Some "2020-21"; Some "100"; Some "-"; Some "25" ].

End PlacementSpec.

Module ResolverSpec.



(** Every line of the page is plain ASCII. *)
Definition ascii_page (p : page) : bool :=
  forallb (fun l => PySpec.ascii_text (snd l)) (lines p).

(** No character of [s] is a line break. *)
Definition no_break (s : string) : bool :=
  PySpec.forall_chars (fun c => negb (Ascii.eqb c (ascii_of_nat 10))) s.


(** A table placed at offset 100, between the two lines. *)
Definition table_at_100 : table_obj := {| bbox_top := 100%Q; extract := [] |}.

(** A table that starts at the top edge of the page. *)
Definition table_at_top : table_obj := {| bbox_top := 0%Q; extract := [] |}.


End ResolverSpec.

Module MedianSalarySpec.
Import MedianSalary.

(** The order of [sort_values] on the records themselves. *)
Definition record_le (a b : record) : bool := row_le (a, tt) (b, tt).

(** The records in the order of the frame returned. *)
Definition sorted_records (data : list record) : list record :=
  sort_by record_le data.

(** A row of the same program stands among the first [i] records. *)
Definition seen_before (sorted : list record) (i : nat) (r : record) : Prop :=
  exists (j : nat) (r' : record),
    (j < i)%nat /\ nth_error sorted j = Some r'
    /\ program_name r' = program_name r.

Definition sample (prog : string) (year : cell) (salary : Z) : record :=
  {| rec_college_name := "A"; rec_college_code := "B";
     program_name := prog; academic_year := year; median_salary := salary |}.

Definition sample_data : list record :=
  [ sample "UG-4" (Some "2020-21") 500000;
    sample "PG-2" (Some "2021-22") 700000;
    sample "UG-4" (Some "2021-22") 600000 ].

End MedianSalarySpec.

Module PhdSpec.
Import PhdData.

(** The sum of the per-year values of a row. *)
Definition row_sum (r : out_row) : Z := fold_right Z.add 0 (values (per_year r)).

Definition title_row : row :=
  [Some "No. of Ph.D students graduated (including Integrated Ph.D)"; None; None].

(** A table whose header names three years. *)
Definition graduated_table : table :=
  [ [Some "No. of Ph.D students graduated (including Integrated Ph.D)"; None; None; None];
    [Some ""; Some "2021-22"; Some "2020-21"; Some "2019-20"];
    [Some "Full Time"; Some "10"; Some "12"; Some "8"];
    [Some "Part Time"; Some "1"; Some "2"; Some "3"] ].

(** A table whose header names the same year twice. *)
Definition repeated_year_table : table :=
  [ title_row;
    [Some ""; Some "2021-22"; Some "2021-22"];
    [Some "Full Time"; Some "3"; Some "4"];
    [Some "Part Time"; Some "1"; Some "2"] ].

End PhdSpec.

(* ===================================================================== *)
(** ** Further notions used in the statements *)
(* ===================================================================== *)

Module StudentRatioMore.
Import StudentRatio.

(** The serial numbers 1, 2, ..., n. *)
Definition serial_numbers (n : nat) : list Z := map Z.of_nat (seq 1 n).

(** The row passes the two tests on its first cell: it holds text that is
    not blank, and the cleaned text starts as a UG or PG program does. *)
Definition accepted_row (r : row) : bool :=
  match r with
  | Some s :: _ =>
      negb (String.eqb s "") && negb (String.eqb (strip s) "")
      && accepts_program (strip (replace newline " " s))
  | _ => false
  end.

(** A record as the extractor builds it for the given institute: a UG or
    PG program, and the ratio that line 87 gives for its two counts. *)
Definition well_formed (name code : string) (r : record) : Prop :=
  rec_college_name r = name
  /\ rec_college_id r = code
  /\ accepts_program (program r) = true
  /\ ratio_of (female_students r) (total_students r) = Ret (female_ratio r).

(** What holds of the scan's state after every step: the next serial
    number is one more than the number of records, the records are
    numbered from 1 in order, and each one is well formed. *)
Definition scan_invariant (name code : string) (st : state) : Prop :=
  next_s_no st = 1 + Z.of_nat (List.length (data st))
  /\ map s_no (data st) = serial_numbers (List.length (data st))
  /\ Forall (well_formed name code) (data st).

(** The row has [None] where the total is read, or text there and [None]
    where the female count is read. *)
Definition missing_count (female_col_idx total_col_idx : nat) (r : row) : Prop :=
  nth_error r total_col_idx = Some None
  \/ ((exists s, nth_error r total_col_idx = Some (Some s))
      /\ nth_error r female_col_idx = Some None).

(** A strength table with two program rows, then a table of the same kind
    that is never read. *)
Definition two_programs : table :=
  [ Samples.strength_header;
    [Some "UG [4 Years]"; Some "550"; Some "450"; Some "1,000"];
    [Some "PG [2 Years]"; Some "30"; Some "20"; Some "50"] ].

(** A strength table with a program that has students and one that has
    none. *)
Definition mixed_table : table :=
  [ Samples.strength_header;
    [Some "UG [4 Years]"; Some "550"; Some "450"; Some "1000"];
    [Some "PG [2 Years]"; Some "0"; Some "0"; Some "0"] ].

End StudentRatioMore.

Module LabelSpec.

(** The program heading of a report: the kind, the number of years, and
    the word Years or Year. *)
Definition label (kind years : string) (plural : bool) : string :=
  (kind ++ " [" ++ years
   ++ (if plural then " Years Program(s)]" else " Year Program(s)]"))%string.

Definition is_kind (kind : string) : Prop := kind = "UG" \/ kind = "PG".

(** One or more digits. *)
Definition digits (s : string) : Prop := s <> "" /\ all_digits s = true.

(** A program name as the extractors write it: UG-4, PG-2, ... *)
Definition program_code (s : string) : Prop :=
  exists kind years, is_kind kind /\ digits years /\ s = (kind ++ "-" ++ years)%string.

(** A page with a heading above the place of its table. *)
Definition heading_page : page :=
  {| lines := [ (60%Q, "PG [2 Years Program(s)]: Placement & higher studies") ];
     find_tables := [] |}.

End LabelSpec.

Module PlacementMore.
Import Placement LabelSpec.

(** A record as the extractor builds it for the given institute: a
    program name of the form UG-n or PG-n, and the two percentages that
    lines 86 and 87 give for the record's own counts. *)
Definition well_formed (name code : string) (r : record) : Prop :=
  rec_college_name r = name
  /\ rec_college_code r = code
  /\ program_code (program_name r)
  /\ pct_of (placed r) (graduated r) = Ret (placement_pct r)
  /\ pct_of (higher_studies r) (graduated r) = Ret (higher_pct r).

(** The header of a placement table in which the lateral entries have a
    year column of their own. *)
Definition lateral_header : list string :=
  [ "Academic Year"; "No. of first year students intake in the year";
    "No. of first year students admitted in the year";
    "Academic Year"; "No. of students admitted through Lateral entry";
    "Academic Year"; "No. of students graduating in minimum stipulated time";
    "No. of students placed"; "Median salary of placed graduates(Amount in Rs.)";
    "No. of students selected for Higher Studies" ].

(** A page that holds a placement table of two rows under its heading;
    the second row has no graduates. *)
Definition placement_page : page :=
  {| lines := [ (60%Q, "UG [4 Years Program(s)]: Placement & higher studies") ];
     find_tables :=
       [ {| bbox_top := 100%Q;
            extract := [ PlacementSpec.placement_header;
                         [ Some "2017-18"; Some "120"; Some "2020-21"; Some "100";
                           Some "80"; Some "15" ];
                         [ Some "2018-19"; Some "120"; Some "2021-22"; Some "0";
                           Some "0"; Some "0" ] ] |} ] |}.

Definition placement_document : document :=
  {| college_name := "A"; college_id := "B"; pages := [placement_page] |}.

End PlacementMore.

Module ExamMore.
Import UniversityExam LabelSpec.

Definition well_formed (name code : string) (r : record) : Prop :=
  rec_college_name r = name
  /\ rec_college_code r = code
  /\ program_code (program_name r)
  /\ percentage_of (graduated r) (total_admitted r) = Ret (percentage r).

Definition exam_header : row :=
  [ Some "Academic Year"; Some "No. of first year students intake in the year";
    Some "No. of first year students admitted in the year";
    Some "Academic Year"; Some "No. of students admitted through Lateral entry";
    Some "Academic Year"; Some "No. of students graduating in minimum stipulated time" ].

(** The columns of [exam_header]. *)
Definition exam_columns : columns :=
  {| admit_year_col := 0; admitted_col := 2; grad_year_col := 3;
     graduated_col := 6; lateral_entry_col := Some 4%nat |}.

(** A row whose lateral entries are written with a separator. *)
Definition separated_row : row :=
  [ Some "2017-18"; Some "1,300"; Some "1,234"; Some "2018-19"; Some "1,234";
    Some "2020-21"; Some "1,100" ].

(** A page that holds an examination table of two rows under its heading. *)
Definition exam_page : page :=
  {| lines := [ (60%Q, "UG [4 Years Program(s)]: Placement & higher studies") ];
     find_tables :=
       [ {| bbox_top := 100%Q;
            extract := [ exam_header;
                         [ Some "2017-18"; Some "120"; Some "110"; Some "2018-19";
                           Some "10"; Some "2020-21"; Some "90" ];
                         separated_row ] |} ] |}.

Definition exam_document : document :=
  {| college_name := "A"; college_id := "B"; pages := [exam_page] |}.

End ExamMore.

Module MedianScanMore.
Import MedianSalary MedianSalaryScan PySpec.

(** A digit followed by one or more digits or commas: what the salary
    pattern matches. *)
Definition amount_text (g : string) : Prop :=
  exists c run,
    g = String c run /\ is_digit c = true /\ run <> ""
    /\ forall_chars digit_or_comma run = true.

(** The number that the digits of [s] write after [acc], whatever stands
    between them. *)
Fixpoint number_from (acc : Z) (s : string) : Z :=
  match s with
  | String c r =>
      if is_digit c then number_from (10 * acc + digit_val c) r
      else number_from acc r
  | EmptyString => acc
  end.


(** A record as the scan builds it for the given institute. *)
Definition well_formed (name code : string) (r : record) : Prop :=
  rec_college_name r = name
  /\ rec_college_code r = code
  /\ LabelSpec.program_code (program_name r)
  /\ 0 <= median_salary r.

(** A page that holds a salary table of two rows under its heading. *)
Definition salary_page : page :=
  {| lines := [ (60%Q, "PG [2 Years Program(s)]: Placement & higher studies") ];
     find_tables :=
       [ {| bbox_top := 100%Q;
            extract := [ [ Some "Academic Year"; Some "Academic Year";
                           Some "Median salary of placed graduates(Amount in Rs.)" ];
                         [ Some "2019-20"; Some "2020-21";
                           Some "6,50,000 (Six Lakh Fifty Thousand)" ];
                         [ Some "2020-21"; Some "2021-22"; Some "700000" ] ] |} ] |}.

Definition salary_document : document :=
  {| college_name := "A"; college_id := "B"; pages := [salary_page] |}.


End MedianScanMore.

Module ProgramDataMore.
Import ProgramData.

(** Every key of the two dictionaries names a UG or PG program. *)
Definition program_keys (st : state) : Prop :=
  Forall (fun k => is_program k = true) (keys (sanctioned_intake st))
  /\ Forall (fun k => is_program k = true) (keys (total_students st)).

(** An intake table and a strength table; the second program has no
    students and no intake. *)
Definition intake_table : table :=
  [ [Some "Academic Year"; Some "2022-23"; Some "2021-22"];
    [Some "UG [4 Years Program(s)]"; Some "1,200"; Some "1,100"];
    [Some "PG [2 Year Program(s)]"; Some "-"; Some "60"] ].

Definition strength_table : table :=
  [ Samples.strength_header;
    [Some "UG [4 Years Program(s)]"; Some "600"; Some "500"; Some "1,100"];
    [Some "PG [2 Year Program(s)]"; Some "0"; Some "0"; Some "0"];
    [Some "PG [3 Year Program(s)]"; Some "10"; Some "5"; Some "15"] ].

Definition program_document : document :=
  {| college_name := "A"; college_id := "B";
     pages := [ {| lines := [];
                   find_tables := [ {| bbox_top := 100%Q; extract := intake_table |};
                                    {| bbox_top := 300%Q; extract := strength_table |} ] |} ] |}.

End ProgramDataMore.

Module ReportMore.
Import Report PySpec.

(** No character of [s] is one of the forbidden ones. *)
Definition clean (s : string) : bool :=
  forall_chars (fun c => negb (forbidden c)) s.

(** The text goes on in the middle of a character. *)
Definition continues (s : string) : bool :=
  match s with
  | String c _ => is_continuation c
  | EmptyString => false
  end.

End ReportMore.

Module CollegeInfoMore.
Import CollegeInfo PySpec.

(** No character of [s] is [c]. *)
Definition without (c : ascii) (s : string) : bool :=
  forall_chars (fun x => negb (Ascii.eqb x c)) s.

Definition all_space (s : string) : bool := forall_chars is_space s.

(** The first line of a report as the institute's page writes it. *)
Definition first_line (name code rest : string) : string :=
  (name_literal ++ name ++ "[" ++ code ++ "]" ++ rest)%string.

End CollegeInfoMore.

Module ScanSpec.

(** No page of the document holds a table. *)
Definition without_tables (d : document) : Prop :=
  Forall (fun p => find_tables p = []) (pages d).

(** Every row of every table of the document has one cell or more. *)
Definition rows_have_cells (d : document) : Prop :=
  Forall (fun p => Forall (fun t => Forall (fun r : row => r <> []) t)
                     (extract_tables p)) (pages d).


(** No value of the dictionary is negative. *)
Definition not_negative (d : dict) : Prop := forall k, 0 <= dict_get d k 0.

Definition state_not_negative (st : Expenditure.state) : Prop :=
  not_negative (Expenditure.capital_exp st)
  /\ not_negative (Expenditure.operational_exp st).

(** A document of two pages of text. *)
Definition text_only : document :=
  {| college_name := "A"; college_id := "B";
     pages := [ {| lines := [(60%Q, "Institute Name: A [IR-B]")]; find_tables := [] |};
                {| lines := [(60%Q, "UG [4 Years Program(s)]")]; find_tables := [] |} ] |}.


End ScanSpec.

(* ===================================================================== *)
(** ** Facts about the Python built-ins *)
(* ===================================================================== *)

Module PyFacts.
Import PySpec.

Local Open Scope nat_scope.

Lemma append_nil_r (s : string) : (s ++ "")%string = s.
Proof. induction s as [| c s IH]; simpl; [reflexivity | now rewrite IH]. Qed.

Lemma append_assoc (a b c : string) :
  ((a ++ b) ++ c)%string = (a ++ (b ++ c))%string.
Proof. induction a as [| x a IH]; simpl; [reflexivity | now rewrite IH]. Qed.

Lemma length_append (a b : string) :
  String.length (a ++ b) = String.length a + String.length b.
Proof. induction a as [| x a IH]; simpl; [reflexivity | now rewrite IH]. Qed.

Lemma prefix_empty (s : string) : String.prefix "" s = true.
Proof. destruct s; reflexivity. Qed.

(** *** Slices *)

Lemma substring_all (s : string) (m : nat) :
  String.length s <= m -> substring 0 m s = s.
Proof.
  revert m. induction s as [| c s IH]; intros [| m] H; simpl in *;
    try reflexivity; try lia.
  rewrite IH by lia. reflexivity.
Qed.

Lemma substring_split (s : string) (n : nat) :
  (substring 0 n s ++ substring n (String.length s - n) s)%string = s.
Proof.
  revert n. induction s as [| c s IH]; intros [| n]; simpl; try reflexivity.
  - rewrite substring_all by lia. reflexivity.
  - rewrite IH. reflexivity.
Qed.

Lemma length_substring_0 (s : string) (n : nat) :
  String.length (substring 0 n s) = Nat.min n (String.length s).
Proof.
  revert n. induction s as [| c s IH]; intros [| n]; simpl; try reflexivity.
  now rewrite IH.
Qed.

Lemma length_substring_tail (s : string) (n : nat) :
  String.length (substring n (String.length s - n) s) = String.length s - n.
Proof.
  revert n. induction s as [| c s IH]; intros [| n]; simpl; try reflexivity.
  - rewrite substring_all by lia. reflexivity.
  - apply IH.
Qed.

(** *** Character classes *)

Lemma digit_not_space (c : ascii) : is_digit c = true -> is_space c = false.
Proof.
  unfold is_digit, is_space. intros H.
  apply andb_prop in H. destruct H as [H1 H2].
  apply Nat.leb_le in H1. apply Nat.leb_le in H2.
  apply orb_false_iff. split; apply andb_false_iff.
  - right. apply Nat.leb_gt. lia.
  - right. apply Nat.leb_gt. lia.
Qed.

Lemma all_digits_append (a b : string) :
  all_digits (a ++ b) = all_digits a && all_digits b.
Proof.
  induction a as [| c a IH]; simpl; [reflexivity |].
  rewrite IH. now rewrite andb_assoc.
Qed.

(** *** [strip] *)

Lemma lstrip_digits (s : string) : all_digits s = true -> lstrip s = s.
Proof.
  destruct s as [| c s]; simpl; [reflexivity |].
  intros H. apply andb_prop in H. destruct H as [Hc _].
  now rewrite (digit_not_space _ Hc).
Qed.

Lemma rstrip_digits (s : string) : all_digits s = true -> rstrip s = s.
Proof.
  induction s as [| c s IH]; simpl; [reflexivity |].
  intros H. apply andb_prop in H. destruct H as [Hc Hs].
  rewrite (IH Hs). destruct s; [| reflexivity].
  now rewrite (digit_not_space _ Hc).
Qed.

Lemma strip_digits (s : string) : all_digits s = true -> strip s = s.
Proof.
  intros H. unfold strip. rewrite (lstrip_digits _ H). apply rstrip_digits, H.
Qed.

Lemma digit_not_int_space (c : ascii) : is_digit c = true -> is_int_space c = false.
Proof.
  unfold is_digit, is_int_space. intros H.
  apply andb_prop in H. destruct H as [H1 H2].
  apply Nat.leb_le in H1. apply Nat.leb_le in H2.
  apply orb_false_iff. split.
  - apply andb_false_iff. right. apply Nat.leb_gt. lia.
  - apply Nat.eqb_neq. lia.
Qed.

Lemma int_lstrip_digits (s : string) : all_digits s = true -> int_lstrip s = s.
Proof.
  destruct s as [| c s]; simpl; [reflexivity |].
  intros H. apply andb_prop in H. destruct H as [Hc _].
  now rewrite (digit_not_int_space _ Hc).
Qed.

Lemma int_rstrip_digits (s : string) : all_digits s = true -> int_rstrip s = s.
Proof.
  induction s as [| c s IH]; simpl; [reflexivity |].
  intros H. apply andb_prop in H. destruct H as [Hc Hs].
  rewrite (IH Hs). destruct s; [| reflexivity].
  now rewrite (digit_not_int_space _ Hc).
Qed.

(** [int] reads a text of digits as it stands. *)
Lemma int_strip_digits (s : string) :
  all_digits s = true -> int_rstrip (int_lstrip s) = s.
Proof.
  intros H. rewrite (int_lstrip_digits _ H). apply int_rstrip_digits, H.
Qed.

(** *** Filters: removing commas, keeping digits *)

Lemma remove_commas_cons (c : ascii) (s : string) :
  replace "," "" (String c s)
  = if Ascii.eqb c "," then replace "," "" s else String c (replace "," "" s).
Proof.
  unfold replace. cbn [replace_from String.prefix String.length Nat.sub].
  destruct (ascii_dec "," c) as [<- | Hne].
  - cbn. now destruct s.
  - assert (Hc : Ascii.eqb c "," = false)
      by (apply Ascii.eqb_neq; intros ->; now apply Hne).
    rewrite Hc. reflexivity.
Qed.

Lemma remove_commas_append (a b : string) :
  replace "," "" (a ++ b) = (replace "," "" a ++ replace "," "" b)%string.
Proof.
  induction a as [| c a IH]; [reflexivity |].
  change (String c a ++ b)%string with (String c (a ++ b)%string).
  rewrite !remove_commas_cons, IH.
  destruct (Ascii.eqb c ","); reflexivity.
Qed.

Lemma digit_not_comma (c : ascii) : is_digit c = true -> Ascii.eqb c "," = false.
Proof.
  intros H. apply Ascii.eqb_neq. intros ->. discriminate H.
Qed.

Lemma remove_commas_digits (s : string) :
  all_digits s = true -> replace "," "" s = s.
Proof.
  induction s as [| c s IH]; [reflexivity |].
  simpl. intros H. apply andb_prop in H. destruct H as [Hc Hs].
  rewrite remove_commas_cons, (digit_not_comma _ Hc), (IH Hs). reflexivity.
Qed.

Lemma keep_digits_append (a b : string) :
  keep_digits (a ++ b) = (keep_digits a ++ keep_digits b)%string.
Proof.
  induction a as [| c a IH]; simpl; [reflexivity |].
  rewrite IH. destruct (is_digit c); reflexivity.
Qed.

Lemma keep_digits_digits (s : string) : all_digits s = true -> keep_digits s = s.
Proof.
  induction s as [| c s IH]; simpl; [reflexivity |].
  intros H. apply andb_prop in H. destruct H as [Hc Hs].
  now rewrite Hc, (IH Hs).
Qed.

Lemma keep_digits_lstrip (s : string) : keep_digits (lstrip s) = keep_digits s.
Proof.
  induction s as [| c s IH]; simpl; [reflexivity |].
  destruct (is_space c) eqn:Hsp; [| reflexivity].
  rewrite IH. destruct (is_digit c) eqn:Hd; [| reflexivity].
  now rewrite (digit_not_space _ Hd) in Hsp.
Qed.

Lemma keep_digits_cons (c : ascii) (s : string) :
  keep_digits (String c s)
  = if is_digit c then String c (keep_digits s) else keep_digits s.
Proof. reflexivity. Qed.

Lemma keep_digits_rstrip (s : string) : keep_digits (rstrip s) = keep_digits s.
Proof.
  induction s as [| c s IH]; [reflexivity |].
  cbn [rstrip]. destruct (rstrip s) as [| c' r'] eqn:Hr.
  - rewrite keep_digits_cons, <- IH.
    destruct (is_space c) eqn:Hsp; [| reflexivity].
    destruct (is_digit c) eqn:Hd; [| reflexivity].
    now rewrite (digit_not_space _ Hd) in Hsp.
  - rewrite (keep_digits_cons c (String c' r')), IH. reflexivity.
Qed.

Lemma keep_digits_strip (s : string) : keep_digits (strip s) = keep_digits s.
Proof.
  unfold strip. now rewrite keep_digits_rstrip, keep_digits_lstrip.
Qed.

(** *** [int] and [str] *)

Lemma int_of_str_raises (s : string) (e : exn) :
  int_of_str s = Raise e -> e = ValueError.
Proof.
  unfold int_of_str. destruct (int_signed (int_rstrip (int_lstrip s)));
    [discriminate |].
  now intros [= <-].
Qed.

Local Open Scope Z_scope.

Lemma all_digits_string_of_uint (d : Decimal.uint) :
  all_digits (NilEmpty.string_of_uint d) = true.
Proof. induction d; simpl; auto. Qed.

Lemma int_digits_string_of_uint (d : Decimal.uint) (acc : Z) :
  int_digits acc true (NilEmpty.string_of_uint d) = Some (uint_val acc d).
Proof.
  revert acc. induction d; intros acc; simpl; try reflexivity; apply IHd.
Qed.

Lemma int_digits_string_of_uint_start (d : Decimal.uint) :
  d <> Decimal.Nil ->
  int_digits 0 false (NilEmpty.string_of_uint d) = Some (uint_val 0 d).
Proof.
  destruct d; intros H; try contradiction; simpl;
    apply int_digits_string_of_uint.
Qed.

Lemma uint_val_of_uint_acc (d : Decimal.uint) (acc : positive) :
  Z.pos (Pos.of_uint_acc d acc) = uint_val (Z.pos acc) d.
Proof.
  revert acc. induction d; intros acc; cbn [Pos.of_uint_acc uint_val];
    try reflexivity; rewrite IHd; f_equal; lia.
Qed.

Lemma uint_val_of_uint (d : Decimal.uint) :
  Z.of_N (Pos.of_uint d) = uint_val 0 d.
Proof.
  induction d; cbn [Pos.of_uint uint_val Z.of_N];
    try reflexivity; try assumption; apply uint_val_of_uint_acc.
Qed.

Lemma uint_val_to_uint (p : positive) : uint_val 0 (Pos.to_uint p) = Z.pos p.
Proof.
  rewrite <- uint_val_of_uint, DecimalPos.Unsigned.of_to. reflexivity.
Qed.

Lemma str_of_int_pos (p : positive) :
  str_of_int (Z.pos p) = NilEmpty.string_of_uint (Pos.to_uint p).
Proof.
  unfold str_of_int. cbn [Z.to_int NilZero.string_of_int NilZero.string_of_uint].
  pose proof (DecimalPos.Unsigned.to_uint_nonnil p) as H.
  destruct (Pos.to_uint p); try reflexivity. contradiction.
Qed.

(** [str] of a natural number is a non-empty string of digits. *)
Lemma all_digits_str_of_int (n : Z) : 0 <= n -> all_digits (str_of_int n) = true.
Proof.
  destruct n as [| p | p]; intros H; [reflexivity | | lia].
  rewrite str_of_int_pos. apply all_digits_string_of_uint.
Qed.

Lemma str_of_int_not_empty (n : Z) : str_of_int n <> "".
Proof.
  destruct n as [| p | p]; [discriminate | |].
  - rewrite str_of_int_pos.
    pose proof (DecimalPos.Unsigned.to_uint_nonnil p) as H.
    destruct (Pos.to_uint p); try discriminate. contradiction.
  - unfold str_of_int. cbn. discriminate.
Qed.

(** [int(str(n)) == n] on the natural numbers. *)
Lemma int_of_str_of_int (n : Z) : 0 <= n -> int_of_str (str_of_int n) = Ret n.
Proof.
  intros H. unfold int_of_str.
  rewrite (int_strip_digits _ (all_digits_str_of_int _ H)).
  destruct n as [| p | p]; [reflexivity | | lia].
  rewrite str_of_int_pos.
  pose proof (DecimalPos.Unsigned.to_uint_nonnil p) as Hnil.
  assert (Hs : int_signed (NilEmpty.string_of_uint (Pos.to_uint p))
               = int_digits 0 false (NilEmpty.string_of_uint (Pos.to_uint p))).
  { destruct (Pos.to_uint p); reflexivity. }
  rewrite Hs, (int_digits_string_of_uint_start _ Hnil), uint_val_to_uint.
  reflexivity.
Qed.

End PyFacts.

(* ===================================================================== *)
(** ** Facts about sorting and the order on strings *)
(* ===================================================================== *)

Module SortFacts.

Section SortBy.

Variable A : Type.
Variable le : A -> A -> bool.

Lemma insert_by_perm (x : A) (l : list A) :
  Permutation (insert_by le x l) (x :: l).
Proof.
  induction l as [| y r IH]; cbn [insert_by]; [apply Permutation_refl |].
  destruct (le x y); [apply Permutation_refl |].
  apply perm_trans with (y :: x :: r); [now apply perm_skip | apply perm_swap].
Qed.

Lemma sort_by_perm (l : list A) : Permutation (sort_by le l) l.
Proof.
  induction l as [| x l IH]; cbn [sort_by fold_right]; [apply perm_nil |].
  apply perm_trans with (x :: sort_by le l);
    [apply insert_by_perm | now apply perm_skip].
Qed.

Hypothesis le_total : forall a b, le a b = true \/ le b a = true.
Hypothesis le_trans : forall a b c, le a b = true -> le b c = true -> le a c = true.

Lemma insert_by_sorted (x : A) (l : list A) :
  StronglySorted (fun a b => le a b = true) l ->
  StronglySorted (fun a b => le a b = true) (insert_by le x l).
Proof.
  induction 1 as [| y r Hr IH Hy]; cbn [insert_by].
  - constructor; constructor.
  - destruct (le x y) eqn:E.
    + constructor; [now constructor |].
      constructor; [exact E |].
      revert Hy. apply Forall_impl. intros b Hb. now apply le_trans with y.
    + constructor; [exact IH |].
      assert (Hyx : le y x = true) by (destruct (le_total x y); congruence).
      apply Forall_forall. intros b Hb.
      apply (Permutation_in _ (insert_by_perm x r)) in Hb.
      destruct Hb as [<- | Hb]; [exact Hyx |].
      revert b Hb. now apply Forall_forall.
Qed.

Lemma sort_by_sorted (l : list A) :
  StronglySorted (fun a b => le a b = true) (sort_by le l).
Proof.
  induction l as [| x l IH]; cbn [sort_by fold_right]; [constructor |].
  now apply insert_by_sorted.
Qed.

End SortBy.

Lemma insert_by_map {A B : Type} (f : A -> B) (leA : A -> A -> bool)
    (leB : B -> B -> bool) (x : A) (l : list A) :
  (forall a b, leB (f a) (f b) = leA a b) ->
  map f (insert_by leA x l) = insert_by leB (f x) (map f l).
Proof.
  intros H. induction l as [| y r IH]; cbn [insert_by map]; [reflexivity |].
  rewrite H. destruct (leA x y); cbn [map]; [reflexivity | now rewrite IH].
Qed.

(** Sorting by a key that a map preserves commutes with the map. *)
Lemma sort_by_map {A B : Type} (f : A -> B) (leA : A -> A -> bool)
    (leB : B -> B -> bool) (l : list A) :
  (forall a b, leB (f a) (f b) = leA a b) ->
  map f (sort_by leA l) = sort_by leB (map f l).
Proof.
  intros H. induction l as [| x l IH]; cbn [sort_by fold_right map]; [reflexivity |].
  fold (sort_by leA l). fold (sort_by leB (map f l)).
  rewrite (insert_by_map f leA leB _ _ H), IH. reflexivity.
Qed.

(** *** The order on strings *)

Lemma compare_as_OT (a b : string) :
  String.compare a b = OrdersEx.String_as_OT.compare a b.
Proof.
  revert b. induction a as [| x a IH]; intros [| y b];
    cbn [String.compare OrdersEx.String_as_OT.compare]; reflexivity.
Qed.

Lemma compare_lt_trans (a b c : string) :
  String.compare a b = Lt -> String.compare b c = Lt -> String.compare a c = Lt.
Proof.
  rewrite !compare_as_OT.
  apply (@StrictOrder_Transitive _ _ OrdersEx.String_as_OT.lt_strorder).
Qed.

Lemma compare_refl (a : string) : String.compare a a = Eq.
Proof.
  destruct (String.compare a a) eqn:E; [reflexivity | |];
    exfalso; rewrite compare_as_OT in E;
    [| rewrite <- compare_as_OT, String.compare_antisym, compare_as_OT in E;
       destruct (OrdersEx.String_as_OT.compare a a) eqn:E'; try discriminate E];
    now apply (@StrictOrder_Irreflexive _ _ OrdersEx.String_as_OT.lt_strorder a).
Qed.

Lemma leb_refl (a : string) : String.leb a a = true.
Proof. unfold String.leb. now rewrite compare_refl. Qed.

Lemma leb_false_lt (a b : string) :
  String.leb a b = false -> String.compare b a = Lt.
Proof.
  unfold String.leb. rewrite (String.compare_antisym b a).
  destruct (String.compare a b); try discriminate. reflexivity.
Qed.

Lemma leb_trans (a b c : string) :
  String.leb a b = true -> String.leb b c = true -> String.leb a c = true.
Proof.
  unfold String.leb.
  destruct (String.compare a b) eqn:Eab; try discriminate;
  destruct (String.compare b c) eqn:Ebc; try discriminate; intros _ _.
  - apply String.compare_eq_iff in Eab. subst b. now rewrite Ebc.
  - apply String.compare_eq_iff in Eab. subst b. now rewrite Ebc.
  - apply String.compare_eq_iff in Ebc. subst c. now rewrite Eab.
  - now rewrite (compare_lt_trans _ _ _ Eab Ebc).
Qed.

Lemma leb_neq_ltb (a b : string) :
  String.leb a b = true -> a <> b -> String.ltb a b = true.
Proof.
  unfold String.leb, String.ltb. intros H Hne.
  destruct (String.compare a b) eqn:E; try discriminate; [| reflexivity].
  now apply String.compare_eq_iff in E.
Qed.

(** [sorted(l, reverse=True)] holds the elements of [l], from the greatest
    to the least. *)
Lemma sorted_desc_perm (l : list string) : Permutation (sorted_desc l) l.
Proof. apply sort_by_perm. Qed.

Lemma sorted_desc_sorted (l : list string) :
  StronglySorted (fun a b => String.leb b a = true) (sorted_desc l).
Proof.
  apply (sort_by_sorted _ (fun a b => String.leb b a)).
  - intros a b. destruct (String.leb_total a b); auto.
  - intros a b c Hab Hbc. now apply leb_trans with b.
Qed.

Lemma strongly_sorted_strict (l : list string) :
  NoDup l ->
  StronglySorted (fun a b => String.leb b a = true) l ->
  StronglySorted (fun a b => String.ltb b a = true) l.
Proof.
  intros Hnd Hs. induction Hs as [| x l Hl IH Hx]; [constructor |].
  inversion Hnd as [| ? ? Hnotin Hnd']; subst.
  constructor; [now apply IH |].
  apply Forall_forall. intros b Hb.
  apply leb_neq_ltb.
  - revert b Hb. now apply Forall_forall.
  - intros ->. contradiction.
Qed.

End SortFacts.

(* ===================================================================== *)
(** ** Properties of student_ratio_tab.py *)
(* ===================================================================== *)

Module StudentRatioFacts.
Import StudentRatio StudentRatioSpec Samples PyFacts.

Lemma ratio_of_positive (female total : Z) :
  0 < total ->
  ratio_of female total =
    (q <- truediv female total ;; r <- round2 (q * 100)%float ;; Ret (PyFloat r)).
Proof.
  intros H. unfold ratio_of.
  destruct (Z.ltb_spec 0 total) as [_ | Hle]; [reflexivity | lia].
Qed.

Lemma ratio_of_not_positive (female total : Z) :
  total <= 0 -> ratio_of female total = Ret (PyInt 0).
Proof.
  intros H. unfold ratio_of.
  destruct (Z.ltb_spec 0 total) as [Hlt | _]; [lia | reflexivity].
Qed.

Example ratio_of_50_200 : ratio_of 50 200 = Ret (PyFloat 25).
Proof. vm_compute. reflexivity. Qed.

(** C1, on the code: for a total that is not positive the student-ratio
    extractor computes the integer [0], not the float [0.0], and raises
    nothing; on a strength table whose only row reads 0, 0, 0 the record
    returned holds that integer in its ratio field. *)
Theorem C1_zero_total_ratio_is_the_integer_zero :
  (forall female total : Z, total <= 0 -> ratio_of female total = Ret (PyInt 0))
  /\ PyInt 0 <> PyFloat 0
  /\ exists r,
       extract_student_ratio_data (single_table "A" "B" empty_program_table)
         = DataFrame [r]
       /\ total_students r = 0
       /\ female_ratio r = PyInt 0.
Proof.
  split; [exact ratio_of_not_positive |].
  split; [discriminate |].
  eexists. split; [vm_compute; reflexivity |].
  split; reflexivity.
Qed.

Lemma C1_witness :
  (0 <= 0)
  /\ ratio_of 0 0 = Ret (PyInt 0)
  /\ Placement.pct_of 0 0 = Ret (PyFloat 0).
Proof.
  destruct C1_zero_total_ratio_is_the_integer_zero as [Hzero _].
  split; [lia |]. split; [apply Hzero; lia | reflexivity].
Defined.

(** C2, as stated, fails: the three-column header of the scenario has no
    'No. of Male Students' cell, the table is not recognised and no record
    is produced. *)
Lemma C2_scenario_header_is_not_recognised :
  ~ (exists r,
       frame_rows (extract_student_ratio_data (single_table "A" "B" scenario_table))
         = [r]
       /\ female_ratio r = PyFloat 45).
Proof.
  intros [r [H _]]. vm_compute in H. discriminate H.
Qed.

(** C2, amended: with the header that also names the male column, the row
    UG [4 Years], 1000 students, 450 of them female, gives exactly one
    record, whose ratio is 45.0; without that column the extraction returns
    an empty frame and shows no error. *)
Theorem C2_strength_table_gives_one_record_45 (name code : string) :
  extract_student_ratio_data (single_table name code strength_table)
    = DataFrame [ {| s_no := 1;
                     rec_college_name := name;
                     rec_college_id := code;
                     program := "UG [4 Years]";
                     total_students := 1000;
                     female_students := 450;
                     female_ratio := PyFloat 45 |} ]
  /\ extract_student_ratio_data (single_table name code scenario_table)
    = DataFrame [].
Proof.
  split; vm_compute; reflexivity.
Qed.

(** *** Tables of other kinds *)

Lemma tables_loop_skip (name code : string) (t : table) (rest : list table)
    (st : state) :
  recognised t = false ->
  tables_loop name code (t :: rest) st = tables_loop name code rest st.
Proof.
  intros H. destruct t as [| first body]; cbn [tables_loop]; [reflexivity |].
  cbn [recognised] in H. rewrite H. reflexivity.
Qed.

Lemma tables_loop_remove (name code : string) (ts1 : list table) (t : table)
    (ts2 : list table) (st : state) :
  recognised t = false ->
  tables_loop name code (ts1 ++ t :: ts2) st = tables_loop name code (ts1 ++ ts2) st.
Proof.
  intros H. revert st.
  induction ts1 as [| u ts1 IH]; intros st.
  - apply tables_loop_skip, H.
  - cbn [app tables_loop].
    destruct u as [| first body]; [apply IH |].
    destruct (is_strength_header (clean_header first)); [| apply IH].
    destruct (f <- index "No. of Female Students" (clean_header first) 0 ;;
              t0 <- index "Total Students" (clean_header first) 0 ;; Ret (f, t0))
      as [[fc tc] | []]; try reflexivity.
    apply IH.
Qed.

Lemma pages_loop_remove (name code : string) (ps1 : list page)
    (ls : list (Q * string)) (tos1 : list table_obj) (t : table_obj)
    (tos2 : list table_obj) (ps2 : list page) (st : state) :
  recognised (extract t) = false ->
  pages_loop name code
    (ps1 ++ {| lines := ls; find_tables := tos1 ++ t :: tos2 |} :: ps2) st
  = pages_loop name code
    (ps1 ++ {| lines := ls; find_tables := tos1 ++ tos2 |} :: ps2) st.
Proof.
  intros H. revert st.
  induction ps1 as [| p ps1 IH]; intros st; cbn [app pages_loop].
  - destruct (table_found st); [reflexivity |].
    unfold extract_tables. cbn [find_tables].
    rewrite !map_app. cbn [map].
    rewrite (tables_loop_remove _ _ _ _ _ _ H). reflexivity.
  - destruct (table_found st); [reflexivity |].
    destruct (tables_loop name code (extract_tables p) st) as [st' | e];
      cbn [bind]; [apply IH | reflexivity].
Qed.

(** C5: a table whose header does not pass the header test contributes
    nothing, neither a record nor an error: the extraction gives what it
    gives on the document without that table. *)
Theorem C5_unrecognised_table_is_ignored (name code : string)
    (ps1 : list page) (ls : list (Q * string)) (tos1 : list table_obj)
    (t : table_obj) (tos2 : list table_obj) (ps2 : list page) :
  recognised (extract t) = false ->
  extract_student_ratio_data
    {| college_name := name; college_id := code;
       pages := ps1 ++ {| lines := ls; find_tables := tos1 ++ t :: tos2 |} :: ps2 |}
  = extract_student_ratio_data
    {| college_name := name; college_id := code;
       pages := ps1 ++ {| lines := ls; find_tables := tos1 ++ tos2 |} :: ps2 |}.
Proof.
  intros H. unfold extract_student_ratio_data, guarded.
  cbn [pages college_name college_id].
  rewrite (pages_loop_remove _ _ _ _ _ _ _ _ _ H).
  destruct ps1; reflexivity.
Qed.

Lemma C5_witness :
  recognised other_table = false
  /\ extract_student_ratio_data
       {| college_name := "A"; college_id := "B";
          pages := [] ++ {| lines := [];
                            find_tables :=
                              [] ++ {| bbox_top := 0%Q; extract := other_table |}
                                 :: [ {| bbox_top := 300%Q; extract := strength_table |} ] |}
                         :: [] |}
     = extract_student_ratio_data
       {| college_name := "A"; college_id := "B";
          pages := [] ++ {| lines := [];
                            find_tables :=
                              [] ++ [ {| bbox_top := 300%Q; extract := strength_table |} ] |}
                         :: [] |}.
Proof.
  split; [reflexivity |].
  apply (C5_unrecognised_table_is_ignored "A" "B" [] []
           [] {| bbox_top := 0%Q; extract := other_table |}
           [ {| bbox_top := 300%Q; extract := strength_table |} ] []).
  reflexivity.
Defined.

(** A document that holds only tables of other kinds gives an empty frame
    and no error. *)
Lemma tables_loop_none_recognised (name code : string) (ts : list table)
    (st : state) :
  forallb (fun t => negb (recognised t)) ts = true ->
  tables_loop name code ts st = Ret st.
Proof.
  induction ts as [| t ts IH]; intros H; [reflexivity |].
  cbn [forallb] in H. apply andb_prop in H. destruct H as [Ht Hts].
  rewrite tables_loop_skip by (now destruct (recognised t)).
  apply IH, Hts.
Qed.

Lemma pages_loop_none_recognised (name code : string) (ps : list page) :
  forallb (fun p => forallb (fun t => negb (recognised t)) (extract_tables p)) ps
    = true ->
  pages_loop name code ps initial = Ret initial.
Proof.
  induction ps as [| p ps IH]; intros H; [reflexivity |].
  cbn [forallb] in H. apply andb_prop in H. destruct H as [Hp Hps].
  cbn [pages_loop initial table_found].
  change {| data := []; next_s_no := 1; table_found := false |} with initial.
  rewrite (tables_loop_none_recognised _ _ _ _ Hp). cbn [bind].
  apply IH, Hps.
Qed.

Lemma only_other_tables_give_an_empty_frame (d : document) :
  pages d <> [] ->
  forallb (fun p => forallb (fun t => negb (recognised t)) (extract_tables p))
    (pages d) = true ->
  extract_student_ratio_data d = DataFrame [].
Proof.
  intros Hne H. unfold extract_student_ratio_data, guarded.
  rewrite (pages_loop_none_recognised _ _ _ H).
  destruct (pages d); [contradiction | reflexivity].
Qed.

(** *** Cells that fail normalization *)

Example normalize_count_example : normalize_count "1,23,456" = Some 123456.
Proof. reflexivity. Qed.

Example normalize_count_empty : normalize_count "" = None.
Proof. reflexivity. Qed.

Example normalize_count_dash : normalize_count "-" = None.
Proof. reflexivity. Qed.

Example normalize_count_text : normalize_count "n/a" = None.
Proof. reflexivity. Qed.

Lemma truediv_raises (a b : Z) (e : exn) :
  b <> 0 -> truediv a b = Raise e -> e = OverflowError.
Proof.
  intros Hb. unfold truediv.
  destruct (Z.eqb_spec b 0) as [-> | _]; [contradiction |].
  destruct (is_infinite _); [now intros [= <-] | discriminate].
Qed.

Lemma round2_raises (x : float) (e : exn) :
  round2 x = Raise e -> e = OverflowError.
Proof.
  unfold round2. destruct (Prim2SF x); try discriminate.
  destruct (is_infinite _); [now intros [= <-] | discriminate].
Qed.

Lemma ratio_of_raises (female total : Z) (e : exn) :
  ratio_of female total = Raise e -> e = OverflowError.
Proof.
  unfold ratio_of. destruct (Z.ltb_spec 0 total) as [Hpos | _]; [| discriminate].
  destruct (truediv female total) as [q | e'] eqn:Hq; cbn [bind].
  - destruct (round2 (q * 100)%float) as [r | e''] eqn:Hr; cbn [bind];
      [discriminate |].
    intros [= <-]. now apply round2_raises in Hr.
  - intros [= <-]. apply truediv_raises in Hq; [exact Hq | lia].
Qed.

(** The inner [try] of a row whose two count cells hold text, in terms of
    what each cell normalizes to. *)
Lemma read_counts_by_cell (female_col_idx total_col_idx : nat) (r : row)
    (s_total s_female : string) :
  nth_error r total_col_idx = Some (Some s_total) ->
  nth_error r female_col_idx = Some (Some s_female) ->
  try_except (read_counts female_col_idx total_col_idx r)
    [ValueError; TypeError; IndexError] (Ret None)
  = match normalize_count s_total, normalize_count s_female with
    | Some total, Some female =>
        ratio <- ratio_of female total ;; Ret (Some (total, female, ratio))
    | _, _ => Ret None
    end.
Proof.
  intros Ht Hf. unfold read_counts, getitem, normalize_count.
  rewrite Ht, Hf. cbn [bind as_str].
  destruct (String.eqb (strip (replace "," "" s_total)) "") eqn:Et;
    cbn [negb andb]; [reflexivity |].
  destruct (String.eqb (strip (replace "," "" s_female)) "") eqn:Ef;
    cbn [negb andb].
  { destruct (int_of_str (strip (replace "," "" s_total))); reflexivity. }
  destruct (int_of_str (strip (replace "," "" s_total))) as [total | e] eqn:It;
    cbn [bind].
  2:{ apply int_of_str_raises in It. subst e. reflexivity. }
  destruct (int_of_str (strip (replace "," "" s_female))) as [female | e] eqn:If;
    cbn [bind].
  2:{ apply int_of_str_raises in If. subst e. reflexivity. }
  destruct (ratio_of female total) as [ratio | e] eqn:Hr; cbn [bind];
    [reflexivity |].
  apply ratio_of_raises in Hr. subst e. reflexivity.
Qed.

(** A row with a count cell that fails normalization leaves the state as
    it was: no record, no error. *)
Lemma row_step_failed_count (name code : string) (female_col_idx total_col_idx : nat)
    (r : row) (st : state) (s_total s_female : string) :
  nth_error r total_col_idx = Some (Some s_total) ->
  nth_error r female_col_idx = Some (Some s_female) ->
  normalize_count s_total = None \/ normalize_count s_female = None ->
  row_step name code female_col_idx total_col_idx r st = Ret st.
Proof.
  intros Ht Hf Hfail. unfold row_step.
  destruct r as [| c r']; [now destruct total_col_idx |].
  cbn [getitem nth_error bind].
  destruct (negb (truthy c) || String.eqb (strip (str_cell c)) ""); [reflexivity |].
  destruct (accepts_program _); [| reflexivity].
  rewrite (read_counts_by_cell _ _ _ _ _ Ht Hf).
  destruct Hfail as [-> | ->]; [reflexivity |].
  destruct (normalize_count s_total); reflexivity.
Qed.

Lemma rows_loop_app (name code : string) (fc tc : nat) (rows1 rows2 : list row)
    (st : state) :
  rows_loop name code fc tc (rows1 ++ rows2) st
  = (st' <- rows_loop name code fc tc rows1 st ;;
     rows_loop name code fc tc rows2 st').
Proof.
  revert st. induction rows1 as [| r rows1 IH]; intros st; [reflexivity |].
  cbn [app rows_loop].
  destruct (row_step name code fc tc r st) as [st' | e]; cbn [bind];
    [apply IH | reflexivity].
Qed.

Lemma rows_loop_failed_count (name code : string) (fc tc : nat)
    (rows1 : list row) (r : row) (rows2 : list row) (st : state)
    (s_total s_female : string) :
  nth_error r tc = Some (Some s_total) ->
  nth_error r fc = Some (Some s_female) ->
  normalize_count s_total = None \/ normalize_count s_female = None ->
  rows_loop name code fc tc (rows1 ++ r :: rows2) st
  = rows_loop name code fc tc (rows1 ++ rows2) st.
Proof.
  intros Ht Hf Hfail. rewrite !rows_loop_app.
  destruct (rows_loop name code fc tc rows1 st) as [st' | e]; cbn [bind];
    [| reflexivity].
  cbn [rows_loop]. rewrite (row_step_failed_count _ _ _ _ _ _ _ _ Ht Hf Hfail).
  reflexivity.
Qed.

End StudentRatioFacts.

(* ===================================================================== *)
(** ** Properties of find_program_name_for_table and of
       placement_data_tab.py *)
(* ===================================================================== *)

Module ResolverFacts.
Import Resolver ResolverSpec.

Lemma Qltb_lt (x y : Q) : Qltb x y = true <-> (x < y)%Q.
Proof.
  unfold Qltb. rewrite negb_true_iff. split.
  - intros H. apply Qnot_le_lt. intros Hle.
    apply Qle_bool_iff in Hle. congruence.
  - intros H. destruct (Qle_bool y x) eqn:E; [| reflexivity].
    apply Qle_bool_iff in E. exfalso. now apply (Qlt_not_le x y).
Qed.

Lemma Qltb_ge (x y : Q) : Qltb x y = false <-> (y <= x)%Q.
Proof.
  unfold Qltb. rewrite negb_false_iff. apply Qle_bool_iff.
Qed.

Lemma findall_labels_empty : findall_labels "" = [].
Proof. reflexivity. Qed.

(** *** Labels do not run over a line break *)

Local Abbreviation break := (ascii_of_nat 10).

Lemma prefix_before_break (p a b : string) :
  no_break p = true ->
  String.prefix p (a ++ String break b) = String.prefix p a.
Proof.
  revert a. induction p as [| c p IH]; intros a Hp.
  - now rewrite !PyFacts.prefix_empty.
  - cbn [no_break PySpec.forall_chars] in Hp. apply andb_prop in Hp.
    destruct Hp as [Hc Hp]. apply negb_true_iff, Ascii.eqb_neq in Hc.
    destruct a as [| x a]; cbn [String.append String.prefix].
    + destruct (ascii_dec c break); [contradiction | reflexivity].
    + destruct (ascii_dec c x); [now apply IH | reflexivity].
Qed.

Lemma take_digits_before_break (a b : string) :
  take_digits (a ++ String break b) = take_digits a.
Proof.
  induction a as [| c a IH]; [reflexivity |].
  cbn [String.append take_digits]. now rewrite IH.
Qed.

Lemma drop_append (n : nat) (a b : string) :
  (n <= String.length a)%nat -> drop n (a ++ b) = (drop n a ++ b)%string.
Proof.
  revert a. induction n as [| n IH]; intros a H; [now destruct a |].
  destruct a as [| c a]; cbn in H; [lia |].
  cbn [String.append drop]. apply IH. lia.
Qed.

Lemma length_drop (n : nat) (a : string) :
  String.length (drop n a) = (String.length a - n)%nat.
Proof.
  revert a. induction n as [| n IH]; intros a; [destruct a; cbn; lia |].
  destruct a as [| c a]; [reflexivity |]. cbn [drop String.length]. now rewrite IH.
Qed.

Lemma length_take_digits (a : string) :
  (String.length (take_digits a) <= String.length a)%nat.
Proof.
  induction a as [| c a IH]; cbn; [lia |].
  destruct (is_digit c); cbn; lia.
Qed.

Lemma prefix_length (p a : string) :
  String.prefix p a = true -> (String.length p <= String.length a)%nat.
Proof.
  revert a. induction p as [| c p IH]; intros a H; [cbn; lia |].
  destruct a as [| x a]; [discriminate |]. cbn [String.prefix] in H.
  destruct (ascii_dec c x); [| discriminate].
  cbn [String.length]. apply IH in H. lia.
Qed.

(** The opening of a label, when the text has one. *)
Lemma opening_length (a : string) :
  String.prefix "UG [" a || String.prefix "PG [" a = true ->
  (4 <= String.length a)%nat.
Proof.
  intros H. apply orb_prop in H.
  destruct H as [H | H]; apply prefix_length in H; exact H.
Qed.

Lemma match_label_before_break (a b : string) :
  match_label (a ++ String break b) = match_label a.
Proof.
  unfold match_label.
  rewrite !(prefix_before_break _ a b) by reflexivity.
  destruct (String.prefix "UG [" a || String.prefix "PG [" a) eqn:Ho.
  2:{ apply orb_false_iff in Ho. destruct Ho as [-> ->]. reflexivity. }
  pose proof (opening_length a Ho) as Hlen.
  rewrite (drop_append 4 a _ Hlen), take_digits_before_break.
  rewrite drop_append by apply length_take_digits.
  rewrite !(prefix_before_break _ (drop _ (drop 4 a)) b) by reflexivity.
  reflexivity.
Qed.

Lemma match_label_length (a m : string) :
  match_label a = Some m -> (1 <= String.length m <= String.length a)%nat.
Proof.
  unfold match_label.
  destruct (String.prefix "UG [" a || String.prefix "PG [" a) eqn:Ho.
  2:{ apply orb_false_iff in Ho. destruct Ho as [-> ->]. discriminate. }
  pose proof (opening_length a Ho) as Hlen.
  pose proof (length_drop 4 a) as Hd4.
  set (ds := take_digits (drop 4 a)) in *.
  pose proof (length_drop (String.length ds) (drop 4 a)) as Hdd.
  pose proof (length_take_digits (drop 4 a)) as Hds. fold ds in Hds.
  assert (Hcase : forall o : string,
             String.length o = 4%nat ->
             (if String.eqb ds "" then None
              else if String.prefix " Years Program(s)]"
                        (drop (String.length ds) (drop 4 a))
                   then Some (o ++ ds ++ " Years Program(s)]")%string
              else if String.prefix " Year Program(s)]"
                        (drop (String.length ds) (drop 4 a))
                   then Some (o ++ ds ++ " Year Program(s)]")%string
              else None) = Some m ->
             (1 <= String.length m <= String.length a)%nat).
  { intros o Hlo. destruct (String.eqb ds ""); [discriminate |].
    destruct (String.prefix " Years Program(s)]" _) eqn:P1.
    - intros [= <-]. apply prefix_length in P1.
      rewrite !PyFacts.length_append, Hlo. cbn [String.length] in *. lia.
    - destruct (String.prefix " Year Program(s)]" _) eqn:P2; [| discriminate].
      intros [= <-]. apply prefix_length in P2.
      rewrite !PyFacts.length_append, Hlo. cbn [String.length] in *. lia. }
  destruct (String.prefix "UG [" a); [now apply Hcase |].
  destruct (String.prefix "PG [" a); [now apply Hcase | discriminate].
Qed.

Lemma findall_from_before_break (a b : string) :
  forall skip : nat,
    (skip <= String.length a)%nat ->
    findall_from (a ++ String break b) skip
    = findall_from a skip ++ findall_from b 0.
Proof.
  induction a as [| c a IH]; intros skip Hskip.
  - cbn in Hskip. replace skip with 0%nat by lia. reflexivity.
  - change (String c a ++ String break b)%string
      with (String c (a ++ String break b)).
    cbn [findall_from]. destruct skip as [| k].
    + change (String c (a ++ String break b))
        with (String c a ++ String break b)%string.
      rewrite match_label_before_break.
      destruct (match_label (String c a)) as [m |] eqn:Hm.
      * apply match_label_length in Hm. cbn [String.length] in Hm.
        rewrite IH by lia. reflexivity.
      * apply IH. lia.
    + apply IH. cbn [String.length] in Hskip. lia.
Qed.




(** The three outcomes of the resolver, by the labels found in the text
    above the table and in the text of the page before. *)
Lemma resolve_cases (text_above_table : string) (y : Q) (previous_page_text : string) :
  let above := findall_labels text_above_table in
  let before := findall_labels previous_page_text in
  (above <> [] -> resolve text_above_table y previous_page_text = last above "")
  /\ (above = [] -> (y < 150)%Q -> before <> [] ->
      resolve text_above_table y previous_page_text = last before "")
  /\ (above = [] -> ((150 <= y)%Q \/ before = []) ->
      resolve text_above_table y previous_page_text = unknown_program).
Proof.
  intros above before. unfold resolve.
  assert (Ha : (if negb (String.eqb text_above_table "")
                then findall_labels text_above_table else []) = above).
  { destruct (String.eqb_spec text_above_table "") as [-> | _]; reflexivity. }
  rewrite Ha.
  assert (Hb : forall b, (if b && negb (String.eqb previous_page_text "")
                          then findall_labels previous_page_text else [])
                         = if b then before else []).
  { intros [|]; [| reflexivity]. cbn [andb].
    destruct (String.eqb_spec previous_page_text "") as [-> | _]; reflexivity. }
  rewrite Hb. clear Ha Hb.
  split; [| split].
  - intros Hne. destruct above; [contradiction | reflexivity].
  - intros -> Hy Hne. apply Qltb_lt in Hy. rewrite Hy.
    destruct before; [contradiction | reflexivity].
  - intros -> [Hy | Hnone].
    + apply Qltb_ge in Hy. rewrite Hy. reflexivity.
    + rewrite Hnone. destruct (Qltb y 150); reflexivity.
Qed.

(** The call returns exactly when the table starts below the top edge of
    the page. *)
Lemma find_program_name_returns (p : page) (table_obj : Doc.table_obj)
    (previous_page_text : string) :
  (0 < bbox_top table_obj)%Q ->
  find_program_name_for_table p table_obj previous_page_text
  = Ret (resolve (text_above p (bbox_top table_obj)) (bbox_top table_obj)
           previous_page_text).
Proof.
  intros Hy. unfold find_program_name_for_table, crop_text.
  destruct (Qle_bool (bbox_top table_obj) 0) eqn:E; [| reflexivity].
  apply Qle_bool_iff in E. exfalso. exact (Qlt_not_le _ _ Hy E).
Qed.

Lemma find_program_name_raises (p : page) (table_obj : Doc.table_obj)
    (previous_page_text : string) :
  (bbox_top table_obj <= 0)%Q ->
  find_program_name_for_table p table_obj previous_page_text = Raise ValueError.
Proof.
  intros Hy. unfold find_program_name_for_table, crop_text.
  apply Qle_bool_iff in Hy. now rewrite Hy.
Qed.




End ResolverFacts.

Module PlacementFacts.
Import Placement PlacementSpec PyFacts.

Lemma pct_of_not_positive (part graduated : Z) :
  graduated <= 0 -> pct_of part graduated = Ret (PyFloat 0).
Proof.
  intros H. unfold pct_of.
  destruct (Z.ltb_spec 0 graduated) as [Hlt | _]; [lia | reflexivity].
Qed.

Lemma count_at_text (r : row) (col : nat) (s : string) :
  nth_error r col = Some (Some s) ->
  count_at r col = int_of_str (replace "," "" s).
Proof.
  intros H. unfold count_at, getitem. rewrite H. reflexivity.
Qed.

Lemma count_at_failed (r : row) (col : nat) (s : string) :
  nth_error r col = Some (Some s) ->
  normalize_count s = None ->
  count_at r col = Raise ValueError.
Proof.
  intros H Hn. rewrite (count_at_text _ _ _ H).
  unfold normalize_count in Hn.
  destruct (int_of_str (replace "," "" s)) as [z | e] eqn:E; [discriminate |].
  apply int_of_str_raises in E. now subst e.
Qed.

Lemma count_at_raises (r : row) (col : nat) (s : string) (e : exn) :
  nth_error r col = Some (Some s) ->
  count_at r col = Raise e -> e = ValueError.
Proof.
  intros H. rewrite (count_at_text _ _ _ H). apply int_of_str_raises.
Qed.

(** A row whose three count cells hold text, one of which fails
    normalization, leaves the records as they were: no record, no error. *)
Lemma placement_row_step_failed_count (name code prog : string) (gy g p h : nat) (r : row)
    (data : list record) (sg sp sh : string) :
  nth_error r g = Some (Some sg) ->
  nth_error r p = Some (Some sp) ->
  nth_error r h = Some (Some sh) ->
  normalize_count sg = None \/ normalize_count sp = None
    \/ normalize_count sh = None ->
  row_step name code prog (gy, g, p, h) r data = Ret data.
Proof.
  intros Hg Hp Hh Hfail. unfold row_step, read_row.
  destruct (getitem r gy) as [grad_year | e] eqn:Egy; cbn [bind].
  2:{ unfold getitem in Egy. destruct (nth_error r gy); [discriminate |].
      injection Egy as <-. reflexivity. }
  destruct (count_at r g) as [vg | e] eqn:Eg; cbn [bind].
  2:{ apply (count_at_raises _ _ _ _ Hg) in Eg. subst e. reflexivity. }
  destruct (count_at r p) as [vp | e] eqn:Ep; cbn [bind].
  2:{ apply (count_at_raises _ _ _ _ Hp) in Ep. subst e. reflexivity. }
  destruct (count_at r h) as [vh | e] eqn:Eh; cbn [bind].
  2:{ apply (count_at_raises _ _ _ _ Hh) in Eh. subst e. reflexivity. }
  exfalso. destruct Hfail as [F | [F | F]].
  - rewrite (count_at_failed _ _ _ Hg F) in Eg. discriminate.
  - rewrite (count_at_failed _ _ _ Hp F) in Ep. discriminate.
  - rewrite (count_at_failed _ _ _ Hh F) in Eh. discriminate.
Qed.

Lemma placement_rows_loop_app (name code prog : string) (cols : nat * nat * nat * nat)
    (rows1 rows2 : list row) (data : list record) :
  rows_loop name code prog cols (rows1 ++ rows2) data
  = (data' <- rows_loop name code prog cols rows1 data ;;
     rows_loop name code prog cols rows2 data').
Proof.
  revert data. induction rows1 as [| r rows1 IH]; intros data; [reflexivity |].
  cbn [app rows_loop].
  destruct (row_step name code prog cols r data) as [data' | e]; cbn [bind];
    [apply IH | reflexivity].
Qed.

(** A table whose header lacks one of the required columns adds nothing. *)
Lemma placement_other_table_is_skipped (name code : string) (p : page)
    (previous_page_text : string) (t : table_obj) (data : list record) :
  (forall first rest, extract t = first :: rest ->
                      is_placement_header (clean_header first) = false) ->
  table_step name code p previous_page_text t data = Ret data.
Proof.
  intros H. unfold table_step.
  destruct (extract t) as [| first [| second rest]] eqn:E; try reflexivity.
  now rewrite (H first (second :: rest) eq_refl).
Qed.

(** C8, as stated, fails: the row of the strength table whose female count
    is a dash is not emitted with that field left out; it is dropped, and
    only the row after it gives a record. *)
Lemma C8_row_with_a_dash_is_dropped :
  StudentRatio.extract_student_ratio_data
    (Samples.single_table "A" "B" Samples.dash_table)
  = DataFrame [ {| StudentRatio.s_no := 1;
                   StudentRatio.rec_college_name := "A";
                   StudentRatio.rec_college_id := "B";
                   StudentRatio.program := "PG [2 Years]";
                   StudentRatio.total_students := 50;
                   StudentRatio.female_students := 20;
                   StudentRatio.female_ratio := PyFloat 40 |} ]
  /\ ~ (exists r,
          In r (frame_rows (StudentRatio.extract_student_ratio_data
                              (Samples.single_table "A" "B" Samples.dash_table)))
          /\ StudentRatio.program r = "UG [4 Years]").
Proof.
  assert (E : StudentRatio.extract_student_ratio_data
                (Samples.single_table "A" "B" Samples.dash_table)
              = DataFrame [ {| StudentRatio.s_no := 1;
                               StudentRatio.rec_college_name := "A";
                               StudentRatio.rec_college_id := "B";
                               StudentRatio.program := "PG [2 Years]";
                               StudentRatio.total_students := 50;
                               StudentRatio.female_students := 20;
                               StudentRatio.female_ratio := PyFloat 40 |} ])
    by (vm_compute; reflexivity).
  split; [exact E |].
  rewrite E. cbn [frame_rows In]. intros [r [[<- | []] Hprog]].
  discriminate Hprog.
Qed.

(** C8, amended: in the student-ratio and in the placement extractor, a row
    whose count cells all hold text, one of them plain ASCII text that
    fails normalization (empty, a dash, not a number), is skipped: the rows
    loop gives what it gives on the table without that row, so no record is
    emitted for it, nothing is raised and the other rows are read as
    before. *)
Theorem C8_failed_count_skips_the_row :
  (forall (name code : string) (fc tc : nat) (rows1 : list row) (r : row)
          (rows2 : list row) (st : StudentRatio.state) (s_total s_female : string),
      nth_error r tc = Some (Some s_total) ->
      nth_error r fc = Some (Some s_female) ->
      (PySpec.ascii_text s_total = true
       /\ StudentRatioSpec.normalize_count s_total = None)
      \/ (PySpec.ascii_text s_female = true
          /\ StudentRatioSpec.normalize_count s_female = None) ->
      StudentRatio.rows_loop name code fc tc (rows1 ++ r :: rows2) st
      = StudentRatio.rows_loop name code fc tc (rows1 ++ rows2) st)
  /\ (forall (name code prog : string) (gy g p h : nat) (rows1 : list row)
             (r : row) (rows2 : list row) (data : list record) (sg sp sh : string),
      nth_error r g = Some (Some sg) ->
      nth_error r p = Some (Some sp) ->
      nth_error r h = Some (Some sh) ->
      (PySpec.ascii_text sg = true /\ normalize_count sg = None)
      \/ (PySpec.ascii_text sp = true /\ normalize_count sp = None)
      \/ (PySpec.ascii_text sh = true /\ normalize_count sh = None) ->
      rows_loop name code prog (gy, g, p, h) (rows1 ++ r :: rows2) data
      = rows_loop name code prog (gy, g, p, h) (rows1 ++ rows2) data).
Proof.
  split.
  - intros name code fc tc rows1 r rows2 st s_total s_female Ht Hf Hfail.
    apply (StudentRatioFacts.rows_loop_failed_count
             _ _ _ _ _ _ _ _ s_total s_female Ht Hf).
    destruct Hfail as [[_ F] | [_ F]]; [now left | now right].
  - intros name code prog gy g p h rows1 r rows2 data sg sp sh Hg Hp Hh Hfail.
    assert (Hnone : normalize_count sg = None \/ normalize_count sp = None
                    \/ normalize_count sh = None).
    { destruct Hfail as [[_ F] | [[_ F] | [_ F]]]; auto. }
    rewrite !placement_rows_loop_app.
    destruct (rows_loop name code prog (gy, g, p, h) rows1 data) as [data' | e];
      cbn [bind]; [| reflexivity].
    cbn [rows_loop].
    rewrite (placement_row_step_failed_count _ _ _ _ _ _ _ _ _ _ _ _ Hg Hp Hh Hnone).
    reflexivity.
Qed.

Lemma C8_witness :
  (nth_error Samples.dash_row 3 = Some (Some "1000")
   /\ nth_error Samples.dash_row 2 = Some (Some "-")
   /\ PySpec.ascii_text "-" = true
   /\ StudentRatioSpec.normalize_count "-" = None
   /\ StudentRatio.rows_loop "A" "B" 2 3 ([] ++ Samples.dash_row :: []) StudentRatio.initial
      = StudentRatio.rows_loop "A" "B" 2 3 ([] ++ []) StudentRatio.initial)
  /\ (nth_error dash_placement_row 3 = Some (Some "100")
      /\ nth_error dash_placement_row 4 = Some (Some "-")
      /\ nth_error dash_placement_row 5 = Some (Some "25")
      /\ PySpec.ascii_text "-" = true
      /\ normalize_count "-" = None
      /\ rows_loop "A" "B" "UG-4" (2, 3, 4, 5)%nat ([] ++ dash_placement_row :: []) []
         = rows_loop "A" "B" "UG-4" (2, 3, 4, 5)%nat ([] ++ []) []).
Proof.
  destruct C8_failed_count_skips_the_row as [Hstudent Hplacement].
  split.
  - split; [reflexivity |]. split; [reflexivity |]. split; [reflexivity |].
    split; [vm_compute; reflexivity |].
    apply (Hstudent "A" "B" 2%nat 3%nat [] Samples.dash_row [] StudentRatio.initial
             "1000" "-"); [reflexivity | reflexivity |].
    right. split; [reflexivity | vm_compute; reflexivity].
  - split; [reflexivity |]. split; [reflexivity |]. split; [reflexivity |].
    split; [reflexivity |]. split; [vm_compute; reflexivity |].
    apply (Hplacement "A" "B" "UG-4" 2%nat 3%nat 4%nat 5%nat [] dash_placement_row []
             [] "100" "-" "25"); [reflexivity | reflexivity | reflexivity |].
    right; left. split; [reflexivity | vm_compute; reflexivity].
Defined.

End PlacementFacts.

(* ===================================================================== *)
(** ** Properties of expenditure_tab.py *)
(* ===================================================================== *)

Module ExpenditureFacts.
Import Expenditure ExpenditureSpec PySpec PyFacts StudentRatioSpec SortFacts.

Local Open Scope nat_scope.

(** *** Slices *)

Lemma drop_take_last (k : nat) (s : string) :
  k <= String.length s -> (drop_last k s ++ take_last k s)%string = s.
Proof.
  intros H. unfold drop_last, take_last.
  pose proof (substring_split s (String.length s - k)) as E.
  replace (String.length s - (String.length s - k)) with k in E by lia.
  exact E.
Qed.

Lemma length_take_last (k : nat) (s : string) :
  k <= String.length s -> String.length (take_last k s) = k.
Proof.
  intros H. unfold take_last.
  pose proof (length_substring_tail s (String.length s - k)) as E.
  replace (String.length s - (String.length s - k)) with k in E by lia.
  exact E.
Qed.

Lemma length_drop_last (k : nat) (s : string) :
  String.length (drop_last k s) = String.length s - k.
Proof. unfold drop_last. rewrite length_substring_0. lia. Qed.

(** *** The grouping loop *)

Lemma cat_app (a b : list string) : cat (a ++ b) = (cat a ++ cat b)%string.
Proof.
  induction a as [| x a IH]; simpl; [reflexivity |].
  now rewrite IH, append_assoc.
Qed.

(** What the loop leaves: a head of one or two characters and, behind the
    parts it was given, new parts of two characters each, which read from
    the last to the first spell the rest of the input. *)
Lemma pairs_loop_spec (rest : string) (parts : list string) :
  1 <= String.length rest ->
  exists (leading : string) (added : list string),
    pairs_loop rest parts = (leading, parts ++ added)
    /\ 1 <= String.length leading <= 2
    /\ Forall (fun g => String.length g = 2) added
    /\ (leading ++ cat (rev added))%string = rest.
Proof.
  funelim (pairs_loop rest parts); intros Hlen.
  - exists rest, []. rewrite app_nil_r. simpl. rewrite append_nil_r.
    repeat split; try lia. constructor.
  - match goal with
    | IH : _ -> exists _ _, _ |- _ =>
        destruct IH as [leading [added [Hloop [Hl [Hall Hcat]]]]];
          [rewrite length_drop_last; lia |]
    end.
    exists leading, (take_last 2 rest :: added).
    rewrite Hloop. rewrite <- app_assoc. simpl.
    repeat split; try lia.
    + constructor; [apply length_take_last; lia | exact Hall].
    + rewrite cat_app. simpl. rewrite append_nil_r.
      rewrite <- append_assoc, Hcat. apply drop_take_last. lia.
Qed.

Lemma join_snoc (sep : string) (l : list string) (x : string) :
  l <> [] -> join sep (l ++ [x]) = (join sep l ++ sep ++ x)%string.
Proof.
  induction l as [| a l IH]; intros H; [contradiction |].
  destruct l as [| b l].
  - reflexivity.
  - change (join sep ((a :: b :: l) ++ [x]))
      with (a ++ sep ++ join sep ((b :: l) ++ [x]))%string.
    rewrite IH by discriminate.
    change (join sep (a :: b :: l)) with (a ++ sep ++ join sep (b :: l))%string.
    now rewrite !append_assoc.
Qed.

Lemma Forall_rev {A : Type} (P : A -> Prop) (l : list A) :
  Forall P l -> Forall P (rev l).
Proof.
  intros H. apply Forall_forall. intros x Hx.
  apply in_rev in Hx. revert x Hx. now apply Forall_forall.
Qed.

(** The formatter on a natural number, by its groups. *)
Lemma format_groups (n : Z) :
  (0 <= n)%Z ->
  exists groups : list string,
    format_indian_currency (PyInt n) = Ret (rupee ++ join "," groups)%string
    /\ indian_groups groups
    /\ cat groups = str_of_int n.
Proof.
  intros Hn. unfold format_indian_currency. cbn [int_of_num bind].
  pose proof (str_of_int_not_empty n) as Hne.
  set (s := str_of_int n) in *.
  assert (Hpos : 1 <= String.length s) by (destruct s; [contradiction | simpl; lia]).
  destruct (Nat.leb_spec (String.length s) 3) as [Hle | Hgt].
  - exists [s]. split; [reflexivity |]. split.
    + constructor. lia.
    + simpl. apply append_nil_r.
  - destruct (pairs_loop_spec (drop_last 3 s) [])
      as [leading [added [Heq [Hl [Hall Hcat]]]]].
    { rewrite length_drop_last. lia. }
    rewrite Heq. cbn [app].
    assert (Hnz : negb (String.eqb leading "") = true).
    { destruct leading; [simpl in Hl; lia | reflexivity]. }
    cbv beta iota. rewrite Hnz.
    exists ((leading :: rev added) ++ [take_last 3 s]).
    rewrite rev_app_distr. cbn [rev app].
    split; [| split].
    + change (leading :: rev added ++ [take_last 3 s])
        with ((leading :: rev added) ++ [take_last 3 s]).
      rewrite (join_snoc "," (leading :: rev added)) by discriminate.
      reflexivity.
    + constructor; [exact Hl | now apply Forall_rev | apply length_take_last; lia].
    + change (cat (leading :: rev added ++ [take_last 3 s]))
        with (leading ++ cat (rev added ++ [take_last 3 s]))%string.
      rewrite cat_app. simpl. rewrite append_nil_r.
      rewrite <- append_assoc, Hcat. apply drop_take_last. lia.
Qed.

(** *** Texts of digits and commas *)

Lemma forall_chars_append (p : ascii -> bool) (a b : string) :
  forall_chars p (a ++ b) = forall_chars p a && forall_chars p b.
Proof.
  induction a as [| c a IH]; simpl; [reflexivity |].
  now rewrite IH, andb_assoc.
Qed.

Lemma forall_chars_weaken (p q : ascii -> bool) (s : string) :
  (forall c, p c = true -> q c = true) ->
  forall_chars p s = true -> forall_chars q s = true.
Proof.
  intros Hpq. induction s as [| c s IH]; simpl; [reflexivity |].
  intros H. apply andb_prop in H. destruct H as [Hc Hs].
  now rewrite (Hpq _ Hc), (IH Hs).
Qed.

Lemma all_digits_forall_chars (s : string) :
  all_digits s = forall_chars is_digit s.
Proof. induction s as [| c s IH]; simpl; [reflexivity | now rewrite IH]. Qed.

Lemma all_digits_cat (groups : list string) :
  all_digits (cat groups) = true -> Forall (fun g => all_digits g = true) groups.
Proof.
  induction groups as [| g groups IH]; simpl; intros H; constructor.
  - rewrite all_digits_append in H. now apply andb_prop in H.
  - apply IH. rewrite all_digits_append in H. now apply andb_prop in H.
Qed.

Lemma join_cons (sep a : string) (l : list string) :
  l <> [] -> join sep (a :: l) = (a ++ sep ++ join sep l)%string.
Proof. destruct l; [contradiction | reflexivity]. Qed.

Lemma digit_or_comma_join (groups : list string) :
  Forall (fun g => all_digits g = true) groups ->
  forall_chars digit_or_comma (join "," groups) = true.
Proof.
  induction 1 as [| g groups Hg Hall IH]; [reflexivity |].
  assert (Hg' : forall_chars digit_or_comma g = true).
  { rewrite all_digits_forall_chars in Hg.
    revert Hg. apply forall_chars_weaken.
    intros c Hc. unfold digit_or_comma. now rewrite Hc. }
  destruct groups as [| h groups]; [exact Hg' |].
  rewrite join_cons by discriminate.
  rewrite !forall_chars_append, Hg', IH. reflexivity.
Qed.

Lemma remove_commas_join (groups : list string) :
  Forall (fun g => all_digits g = true) groups ->
  replace "," "" (join "," groups) = cat groups.
Proof.
  induction 1 as [| g groups Hg Hall IH]; [reflexivity |].
  destruct groups as [| h groups].
  - simpl. rewrite append_nil_r. now apply remove_commas_digits.
  - rewrite join_cons by discriminate.
    rewrite !remove_commas_append, IH, (remove_commas_digits _ Hg).
    reflexivity.
Qed.

Lemma keep_digits_join (groups : list string) :
  Forall (fun g => all_digits g = true) groups ->
  keep_digits (join "," groups) = cat groups.
Proof.
  induction 1 as [| g groups Hg Hall IH]; [reflexivity |].
  destruct groups as [| h groups].
  - simpl. rewrite append_nil_r. now apply keep_digits_digits.
  - rewrite join_cons by discriminate.
    rewrite !keep_digits_append, IH, (keep_digits_digits _ Hg).
    reflexivity.
Qed.

(** The currency sign does not occur in a text of digits and commas. *)
Lemma replace_rupee_absent (s : string) :
  forall_chars digit_or_comma s = true -> replace_from rupee "" s 0 = s.
Proof.
  induction s as [| c s IH]; [reflexivity |].
  simpl forall_chars. intros H. apply andb_prop in H. destruct H as [Hc Hs].
  cbn [replace_from].
  assert (Hp : String.prefix rupee (String c s) = false).
  { unfold rupee. cbn [String.prefix].
    destruct (ascii_dec _ c) as [<- | _]; [discriminate Hc | reflexivity]. }
  rewrite Hp, (IH Hs). reflexivity.
Qed.

Lemma unformat_formatted (groups : list string) :
  Forall (fun g => all_digits g = true) groups ->
  unformat (rupee ++ join "," groups) = cat groups.
Proof.
  intros H. unfold unformat.
  assert (E : replace rupee "" (rupee ++ join "," groups) = join "," groups).
  { unfold replace, rupee. cbn [String.append replace_from String.prefix].
    cbn. rewrite prefix_empty.
    apply (replace_rupee_absent _ (digit_or_comma_join _ H)). }
  rewrite E. now apply remove_commas_join.
Qed.

(** C9: on a natural number [format_indian_currency] returns the rupee sign,
    a space and the decimal digits of the number in groups separated by
    commas, the groups following the Indian pattern; taking the sign and
    the commas away gives back [str(n)]. *)
Theorem C9_format_indian_currency_groups_and_round_trip (n : Z) :
  (0 <= n)%Z ->
  exists (groups : list string) (text : string),
    format_indian_currency (PyInt n) = Ret text
    /\ text = (rupee ++ join "," groups)%string
    /\ indian_groups groups
    /\ Forall (fun g => all_digits g = true) groups
    /\ cat groups = str_of_int n
    /\ unformat text = str_of_int n.
Proof.
  intros Hn.
  destruct (format_groups n Hn) as [groups [Hfmt [Hshape Hcat]]].
  assert (Hdig : Forall (fun g => all_digits g = true) groups).
  { apply all_digits_cat. rewrite Hcat. now apply all_digits_str_of_int. }
  exists groups, (rupee ++ join "," groups)%string.
  split; [exact Hfmt |]. split; [reflexivity |].
  split; [exact Hshape |]. split; [exact Hdig |]. split; [exact Hcat |].
  rewrite <- Hcat. now apply unformat_formatted.
Qed.

Lemma C9_witness :
  (0 <= 123456)%Z
  /\ exists (groups : list string) (text : string),
       format_indian_currency (PyInt 123456) = Ret text
       /\ text = (rupee ++ join "," groups)%string
       /\ indian_groups groups
       /\ Forall (fun g => all_digits g = true) groups
       /\ cat groups = str_of_int 123456
       /\ unformat text = str_of_int 123456.
Proof.
  split; [lia |].
  apply (C9_format_indian_currency_groups_and_round_trip 123456). lia.
Defined.

Example format_123456 : format_indian_currency (PyInt 123456) = Ret "₹ 1,23,456".
Proof. vm_compute. reflexivity. Qed.

Example format_12345678 :
  format_indian_currency (PyInt 12345678) = Ret "₹ 1,23,45,678".
Proof. vm_compute. reflexivity. Qed.

(** *** Normalization of cells *)

Lemma grouped_groups (n : Z) :
  (0 <= n)%Z ->
  exists groups : list string,
    grouped n = join "," groups
    /\ Forall (fun g => all_digits g = true) groups
    /\ cat groups = str_of_int n.
Proof.
  intros Hn. destruct (format_groups n Hn) as [groups [Hfmt [_ Hcat]]].
  exists groups. split; [| split].
  - unfold grouped. rewrite Hfmt. reflexivity.
  - apply all_digits_cat. rewrite Hcat. now apply all_digits_str_of_int.
  - exact Hcat.
Qed.

Lemma split_head_append (sep : ascii) (a b : string) :
  forall_chars (fun c => negb (Ascii.eqb c sep)) a = true ->
  split_head sep (a ++ String sep b) = a.
Proof.
  induction a as [| c a IH]; simpl.
  - intros _. now rewrite Ascii.eqb_refl.
  - intros H. apply andb_prop in H. destruct H as [Hc Ha].
    apply negb_true_iff in Hc. rewrite Hc, (IH Ha). reflexivity.
Qed.

Lemma digit_or_comma_not_paren (c : ascii) :
  digit_or_comma c = true -> negb (Ascii.eqb c "(") = true.
Proof.
  intros H. apply negb_true_iff, Ascii.eqb_neq. intros ->. discriminate H.
Qed.

(** A count cell that holds a number in Indian grouping normalizes to that
    number. *)
Lemma normalize_count_grouped (n : Z) :
  (0 <= n)%Z -> normalize_count (grouped n) = Some n.
Proof.
  intros Hn. destruct (grouped_groups n Hn) as [groups [Hg [Hdig Hcat]]].
  unfold normalize_count. rewrite Hg, (remove_commas_join _ Hdig), Hcat.
  rewrite (strip_digits _ (all_digits_str_of_int _ Hn)).
  destruct (String.eqb_spec (str_of_int n) "") as [E | _].
  - now apply str_of_int_not_empty in E.
  - now rewrite (int_of_str_of_int _ Hn).
Qed.

(** A currency cell that holds the sign, a number in Indian grouping and a
    note in parentheses normalizes to that number. *)
Lemma amount_of_annotated_cell (n : Z) (note : string) :
  (0 <= n)%Z ->
  amount_of_cell (Some ("₹" ++ grouped n ++ " (" ++ note ++ ")")%string) = Ret n.
Proof.
  intros Hn. destruct (grouped_groups n Hn) as [groups [Hg [Hdig Hcat]]].
  unfold amount_of_cell. cbn [str_cell].
  assert (E : ("₹" ++ grouped n ++ " (" ++ note ++ ")")%string
              = (("₹" ++ grouped n ++ " ") ++ String "(" (note ++ ")"))%string).
  { rewrite !append_assoc. reflexivity. }
  rewrite E. clear E.
  rewrite split_head_append.
  - rewrite keep_digits_strip, !keep_digits_append, Hg, (keep_digits_join _ Hdig), Hcat.
    cbn [keep_digits is_digit]. simpl. rewrite append_nil_r.
    now apply int_of_str_of_int.
  - rewrite !forall_chars_append. rewrite Hg.
    rewrite (forall_chars_weaken _ _ _ digit_or_comma_not_paren
               (digit_or_comma_join _ Hdig)).
    reflexivity.
Qed.

(** A cell under a year that is empty or a dash adds nothing to the
    dictionary and raises nothing. *)
Lemma year_step_absent (header : list string) (r : row) (year : string)
    (target : dict) (idx : nat) (s : string) :
  index year header 0 = Ret idx ->
  nth_error r idx = Some (Some s) ->
  s = "" \/ s = "-" ->
  year_step header r year target = Ret target.
Proof.
  intros Hidx Hcell Hs. unfold year_step. rewrite Hidx. cbn [bind].
  destruct (List.length r <=? idx) eqn:Hlen; cbn [orb]; [reflexivity |].
  replace (nth idx r None) with (Some s)
    by (symmetry; apply nth_error_nth; exact Hcell).
  destruct Hs as [-> | ->]; reflexivity.
Qed.

(** A count cell of digits and separators reads as its digits do, wherever
    the separators stand. *)
Lemma normalize_count_separators (s : string) (n : Z) :
  (0 <= n)%Z -> replace "," "" s = str_of_int n -> normalize_count s = Some n.
Proof.
  intros Hn Hs. unfold normalize_count. rewrite Hs.
  rewrite (strip_digits _ (all_digits_str_of_int _ Hn)).
  destruct (String.eqb_spec (str_of_int n) "") as [E | _].
  - now apply str_of_int_not_empty in E.
  - now rewrite (int_of_str_of_int _ Hn).
Qed.

(** A currency cell reads as the digits that stand before its first opening
    parenthesis. *)
Lemma amount_before_parenthesis (before note : string) (n : Z) :
  (0 <= n)%Z ->
  forall_chars (fun c => negb (Ascii.eqb c "(")) before = true ->
  keep_digits before = str_of_int n ->
  amount_of_cell (Some (before ++ String "(" note)%string) = Ret n.
Proof.
  intros Hn Hparen Hdigits. unfold amount_of_cell. cbn [str_cell].
  rewrite (split_head_append _ _ _ Hparen), keep_digits_strip, Hdigits.
  now apply int_of_str_of_int.
Qed.

(** The text of a number in Indian grouping, its separators taken away, is
    the decimal writing of the number. *)
Lemma grouped_without_separators (n : Z) :
  (0 <= n)%Z -> replace "," "" (grouped n) = str_of_int n.
Proof.
  intros Hn. destruct (grouped_groups n Hn) as [groups [Hg [Hdig Hcat]]].
  now rewrite Hg, (remove_commas_join _ Hdig), Hcat.
Qed.

(** The inner [try] of the student-ratio extractor on a row whose two
    count cells hold digits and separators. *)
Lemma read_counts_separators (female_col_idx total_col_idx : nat) (r : row)
    (s_total s_female : string) (total female : Z) :
  (0 <= total)%Z -> (0 <= female)%Z ->
  nth_error r total_col_idx = Some (Some s_total) ->
  nth_error r female_col_idx = Some (Some s_female) ->
  replace "," "" s_total = str_of_int total ->
  replace "," "" s_female = str_of_int female ->
  StudentRatio.read_counts female_col_idx total_col_idx r
  = (ratio <- StudentRatio.ratio_of female total ;;
     Ret (Some (total, female, ratio))).
Proof.
  intros Ht0 Hf0 Ht Hf Est Esf. unfold StudentRatio.read_counts, getitem.
  rewrite Ht, Hf. cbn [bind as_str]. rewrite Est, Esf.
  rewrite (strip_digits _ (all_digits_str_of_int _ Ht0)).
  rewrite (strip_digits _ (all_digits_str_of_int _ Hf0)).
  destruct (String.eqb_spec (str_of_int total) "") as [E | _];
    [now apply str_of_int_not_empty in E |].
  destruct (String.eqb_spec (str_of_int female) "") as [E | _];
    [now apply str_of_int_not_empty in E |].
  cbn [negb andb].
  rewrite (int_of_str_of_int _ Ht0), (int_of_str_of_int _ Hf0). reflexivity.
Qed.

(** A row with an empty count cell or a dash in one gives no counts: the
    inner [try] ends without a record and without an error. *)
Lemma read_counts_absent (female_col_idx total_col_idx : nat) (r : row)
    (s_total s_female : string) :
  nth_error r total_col_idx = Some (Some s_total) ->
  nth_error r female_col_idx = Some (Some s_female) ->
  s_total = "" \/ s_total = "-" \/ s_female = "" \/ s_female = "-" ->
  try_except (StudentRatio.read_counts female_col_idx total_col_idx r)
    [ValueError; TypeError; IndexError] (Ret None)
  = Ret None.
Proof.
  intros Ht Hf Hs. rewrite (StudentRatioFacts.read_counts_by_cell _ _ _ _ _ Ht Hf).
  destruct Hs as [-> | [-> | [-> | ->]]]; try reflexivity;
    destruct (normalize_count s_total); reflexivity.
Qed.

(** A currency cell under a year, with its sign, its number in Indian
    grouping and a note in parentheses, adds that number to what the
    dictionary holds under the year. *)
Lemma year_step_annotated (header : list string) (r : row) (year : string)
    (target : dict) (idx : nat) (n : Z) (note : string) :
  (0 <= n)%Z ->
  index year header 0 = Ret idx ->
  nth_error r idx = Some (Some ("₹" ++ grouped n ++ " (" ++ note ++ ")")%string) ->
  year_step header r year target
  = Ret (dict_set target year (dict_get target year 0 + n)).
Proof.
  intros Hn Hidx Hcell. unfold year_step. rewrite Hidx. cbn [bind].
  assert (Hlen : (List.length r <=? idx)%nat = false).
  { apply Nat.leb_gt. apply nth_error_Some. congruence. }
  rewrite Hlen. cbn [orb].
  replace (nth idx r None) with (Some ("₹" ++ grouped n ++ " (" ++ note ++ ")")%string)
    by (symmetry; apply nth_error_nth; exact Hcell).
  rewrite (amount_of_annotated_cell n note Hn). reflexivity.
Qed.

(** C3: in the student-ratio extractor a count cell written with thousands
    separators is read as its number ("1,23,456" as 123456; so is every
    natural number in Indian grouping, and every text whose digits, the
    commas taken away, are the decimal writing of the number), and a row
    with an empty count cell or a dash in one gives neither counts nor
    record nor error.  In the expenditure extractor a currency cell is read
    by taking the text before the first opening parenthesis and keeping its
    digits ("₹1,234 (approx)" gives 1234, and so every text whose digits
    before the first parenthesis are the decimal writing of the number);
    under a year such a cell adds its number to the year's amount, and an
    empty cell or a dash adds nothing. *)
Theorem C3_cell_normalization :
  StudentRatio.read_counts 2 3
    [Some "UG [4 Years]"; Some "61,728"; Some "61,728"; Some "1,23,456"]
  = Ret (Some (123456, 61728, PyFloat 50))%Z
  /\ (forall (fc tc : nat) (r : row) (s_total s_female : string) (total female : Z),
        (0 <= total)%Z -> (0 <= female)%Z ->
        nth_error r tc = Some (Some s_total) ->
        nth_error r fc = Some (Some s_female) ->
        replace "," "" s_total = str_of_int total ->
        replace "," "" s_female = str_of_int female ->
        StudentRatio.read_counts fc tc r
        = (ratio <- StudentRatio.ratio_of female total ;;
           Ret (Some (total, female, ratio))))
  /\ (forall (fc tc : nat) (r : row) (total female : Z),
        (0 <= total)%Z -> (0 <= female)%Z ->
        nth_error r tc = Some (Some (grouped total)) ->
        nth_error r fc = Some (Some (grouped female)) ->
        StudentRatio.read_counts fc tc r
        = (ratio <- StudentRatio.ratio_of female total ;;
           Ret (Some (total, female, ratio))))
  /\ (forall (name code : string) (fc tc : nat) (r : row) (st : StudentRatio.state)
             (s_total s_female : string),
        nth_error r tc = Some (Some s_total) ->
        nth_error r fc = Some (Some s_female) ->
        s_total = "" \/ s_total = "-" \/ s_female = "" \/ s_female = "-" ->
        try_except (StudentRatio.read_counts fc tc r)
          [ValueError; TypeError; IndexError] (Ret None) = Ret None
        /\ StudentRatio.row_step name code fc tc r st = Ret st)
  /\ amount_of_cell (Some "₹1,234 (approx)") = Ret 1234%Z
  /\ (forall (before note : string) (n : Z), (0 <= n)%Z ->
        forall_chars (fun c => negb (Ascii.eqb c "(")) before = true ->
        keep_digits before = str_of_int n ->
        amount_of_cell (Some (before ++ String "(" note)%string) = Ret n)
  /\ (forall (n : Z) (note : string), (0 <= n)%Z ->
        amount_of_cell (Some ("₹" ++ grouped n ++ " (" ++ note ++ ")")%string)
        = Ret n)
  /\ (forall (header : list string) (r : row) (year : string) (target : dict)
             (idx : nat) (n : Z) (note : string),
        (0 <= n)%Z ->
        index year header 0 = Ret idx ->
        nth_error r idx
        = Some (Some ("₹" ++ grouped n ++ " (" ++ note ++ ")")%string) ->
        year_step header r year target
        = Ret (dict_set target year (dict_get target year 0 + n)))
  /\ (forall (header : list string) (r : row) (year : string) (target : dict)
             (idx : nat) (s : string),
        index year header 0 = Ret idx ->
        nth_error r idx = Some (Some s) ->
        s = "" \/ s = "-" ->
        year_step header r year target = Ret target).
Proof.
  split; [vm_compute; reflexivity |].
  split; [exact read_counts_separators |].
  split.
  { intros fc tc r total female Ht0 Hf0 Ht Hf.
    apply (read_counts_separators fc tc r _ _ total female Ht0 Hf0 Ht Hf);
      now apply grouped_without_separators. }
  split.
  { intros name code fc tc r st s_total s_female Ht Hf Hs.
    split; [exact (read_counts_absent fc tc r s_total s_female Ht Hf Hs) |].
    apply (StudentRatioFacts.row_step_failed_count _ _ _ _ _ _ s_total s_female Ht Hf).
    destruct Hs as [-> | [-> | [-> | ->]]]; auto. }
  split; [vm_compute; reflexivity |].
  split; [exact amount_before_parenthesis |].
  split; [exact amount_of_annotated_cell |].
  split; [exact year_step_annotated | exact year_step_absent].
Qed.

Lemma C3_witness :
  (0 <= 123456)%Z
  /\ (0 <= 61728)%Z
  /\ grouped 123456 = "1,23,456"
  /\ nth_error [Some "UG [4 Years]"; Some "61,728"; Some "61,728"; Some "1,23,456"] 3
     = Some (Some (grouped 123456))
  /\ nth_error [Some "UG [4 Years]"; Some "61,728"; Some "61,728"; Some "1,23,456"] 2
     = Some (Some (grouped 61728))
  /\ StudentRatio.read_counts 2 3
       [Some "UG [4 Years]"; Some "61,728"; Some "61,728"; Some "1,23,456"]
     = Ret (Some (123456, 61728, PyFloat 50))%Z
  /\ StudentRatio.row_step "A" "B" 2 3
       [Some "UG [4 Years]"; Some "550"; Some "-"; Some "1,23,456"]
       StudentRatio.initial
     = Ret StudentRatio.initial
  /\ amount_of_cell (Some ("₹" ++ grouped 123456 ++ " (" ++ "approx" ++ ")")%string)
     = Ret 123456%Z
  /\ amount_of_cell (Some ("Rs. 123,456 " ++ String "(" "approx)")%string)
     = Ret 123456%Z
  /\ index "2021-22" ["Head"; "2021-22"] 0 = Ret 1%nat
  /\ year_step ["Head"; "2021-22"] [Some "Library"; Some "₹1,23,456 (approx)"]
       "2021-22" [("2021-22", 1000%Z)]
     = Ret [("2021-22", 124456%Z)]
  /\ year_step ["Head"; "2021-22"] [Some "Library"; Some "-"] "2021-22" [] = Ret [].
Proof.
  destruct C3_cell_normalization
    as (_ & _ & Hcount & Habsent_count & _ & Hbefore & Hamount & Hadds & Habsent).
  assert (Hn : (0 <= 123456)%Z) by lia.
  assert (Hf : (0 <= 61728)%Z) by lia.
  split; [exact Hn |]. split; [exact Hf |].
  split; [vm_compute; reflexivity |].
  split; [vm_compute; reflexivity |].
  split; [vm_compute; reflexivity |].
  split.
  { rewrite (Hcount 2%nat 3%nat _ 123456%Z 61728%Z Hn Hf);
      vm_compute; reflexivity. }
  split.
  { apply (Habsent_count "A" "B" 2%nat 3%nat _ StudentRatio.initial "1,23,456" "-");
      [reflexivity | reflexivity | right; right; right; reflexivity]. }
  split; [exact (Hamount 123456%Z "approx" Hn) |].
  split; [apply (Hbefore "Rs. 123,456 " "approx)" 123456%Z Hn);
          vm_compute; reflexivity |].
  split; [vm_compute; reflexivity |].
  split.
  { rewrite (Hadds ["Head"; "2021-22"] [Some "Library"; Some "₹1,23,456 (approx)"]
               "2021-22" [("2021-22", 1000%Z)] 1%nat 123456%Z "approx" Hn);
      vm_compute; reflexivity. }
  apply (Habsent ["Head"; "2021-22"] [Some "Library"; Some "-"] "2021-22" []
           1%nat "-"); [vm_compute; reflexivity | reflexivity | right; reflexivity].
Defined.

(** *** The dictionaries hold period keys only *)

Lemma keys_dict_set (d : dict) (k : string) (v : Z) (x : string) :
  In x (keys (dict_set d k v)) -> x = k \/ In x (keys d).
Proof.
  induction d as [| [k' v'] d IH]; cbn [dict_set keys map fst In].
  - intros [<- | []]. now left.
  - destruct (String.eqb_spec k' k) as [-> | _]; cbn [map fst In].
    + intros [<- | H]; [now left | right; now right].
    + intros [<- | H]; [right; now left |].
      destruct (IH H) as [-> | H']; [now left | right; now right].
Qed.

Lemma year_keys_dict_set (d : dict) (k : string) (v : Z) :
  year_like k = true -> year_keys d -> year_keys (dict_set d k v).
Proof.
  intros Hk Hd. apply Forall_forall. intros x Hx.
  destruct (keys_dict_set _ _ _ _ Hx) as [E | Hin]; [now rewrite E |].
  exact (proj1 (Forall_forall _ _) Hd x Hin).
Qed.

Lemma year_step_keys (header : list string) (r : row) (year : string)
    (target target' : dict) :
  year_like year = true -> year_keys target ->
  year_step header r year target = Ret target' -> year_keys target'.
Proof.
  intros Hy Ht. unfold year_step.
  destruct (index year header 0) as [idx | e]; cbn [bind try_except].
  2:{ destruct (existsb _ _); [now intros [= <-] | discriminate]. }
  destruct (_ || _); [now intros [= <-] |].
  destruct (amount_of_cell _) as [value | e]; cbn [bind try_except].
  - intros [= <-]. now apply year_keys_dict_set.
  - destruct (existsb _ _); [now intros [= <-] | discriminate].
Qed.

Lemma years_loop_keys (header : list string) (r : row) (years : list string)
    (target target' : dict) :
  Forall (fun y => year_like y = true) years -> year_keys target ->
  years_loop header r years target = Ret target' -> year_keys target'.
Proof.
  intros Hys. revert target. induction Hys as [| y ys Hy Hys IH]; intros target Ht.
  - now intros [= <-].
  - cbn [years_loop].
    destruct (year_step header r y target) as [t1 | e] eqn:E; cbn [bind];
      [| discriminate].
    apply IH. now apply (year_step_keys _ _ _ _ _ Hy Ht E).
Qed.

Lemma row_step_keys (is_capital : bool) (header years : list string) (r : row)
    (st st' : state) :
  Forall (fun y => year_like y = true) years -> state_keys st ->
  row_step is_capital header years r st = Ret st' -> state_keys st'.
Proof.
  intros Hys [Hc Ho]. unfold row_step.
  destruct (negb (has_title r)); [now intros [= <-] |].
  destruct is_capital.
  - destruct (title_matches _ _); [| now intros [= <-]].
    destruct (years_loop _ _ _ _) as [d | e] eqn:E; cbn [bind]; [| discriminate].
    intros [= <-]. split; [| exact Ho].
    now apply (years_loop_keys _ _ _ _ _ Hys Hc E).
  - destruct (title_matches _ _); [| now intros [= <-]].
    destruct (years_loop _ _ _ _) as [d | e] eqn:E; cbn [bind]; [| discriminate].
    intros [= <-]. split; [exact Hc |].
    now apply (years_loop_keys _ _ _ _ _ Hys Ho E).
Qed.

Lemma rows_loop_keys (is_capital : bool) (header years : list string)
    (rows : list row) (st st' : state) :
  Forall (fun y => year_like y = true) years -> state_keys st ->
  rows_loop is_capital header years rows st = Ret st' -> state_keys st'.
Proof.
  intros Hys. revert st. induction rows as [| r rows IH]; intros st Hst.
  - now intros [= <-].
  - cbn [rows_loop].
    destruct (row_step is_capital header years r st) as [s1 | e] eqn:E;
      cbn [bind]; [| discriminate].
    apply IH. now apply (row_step_keys _ _ _ _ _ _ Hys Hst E).
Qed.

Lemma filter_year_like (header : list string) :
  Forall (fun y => year_like y = true) (filter year_like header).
Proof. apply Forall_forall. intros y Hy. now apply filter_In in Hy. Qed.

Lemma table_step_keys (t : table) (st st' : state) :
  state_keys st -> table_step t st = Ret st' -> state_keys st'.
Proof.
  intros Hst. unfold table_step.
  destruct (List.length t <? 2); [now intros [= <-] |].
  destruct (negb _); [now intros [= <-] |].
  destruct (find_header t) as [| h header] eqn:Eh; [now intros [= <-] |].
  destruct (filter year_like (h :: header)) as [| y ys] eqn:Ey; [now intros [= <-] |].
  apply rows_loop_keys; [| exact Hst].
  rewrite <- Ey. apply filter_year_like.
Qed.

Lemma tables_loop_keys (tables : list table) (st st' : state) :
  state_keys st -> tables_loop tables st = Ret st' -> state_keys st'.
Proof.
  revert st. induction tables as [| t tables IH]; intros st Hst.
  - now intros [= <-].
  - cbn [tables_loop].
    destruct (table_step t st) as [s1 | e] eqn:E; cbn [bind]; [| discriminate].
    apply IH. now apply (table_step_keys _ _ _ Hst E).
Qed.

Lemma pages_loop_keys (ps : list page) (st st' : state) :
  state_keys st -> pages_loop ps st = Ret st' -> state_keys st'.
Proof.
  revert st. induction ps as [| p ps IH]; intros st Hst.
  - now intros [= <-].
  - cbn [pages_loop].
    destruct (tables_loop (extract_tables p) st) as [s1 | e] eqn:E; cbn [bind];
      [| discriminate].
    apply IH. now apply (tables_loop_keys _ _ _ Hst E).
Qed.

Lemma initial_keys : state_keys initial.
Proof. split; constructor. Qed.

(** A table that is of neither kind adds nothing. *)
Lemma expenditure_other_table_is_skipped (t : table) (st : state) :
  contains "Capital Expenditure" (first_col_text t) = false ->
  contains "Operational Expenditure" (first_col_text t) = false ->
  table_step t st = Ret st.
Proof.
  intros Hc Ho. unfold table_step. rewrite Hc, Ho.
  destruct (List.length t <? 2); reflexivity.
Qed.

(** *** The merged years *)

Lemma all_years_in (st : state) (y : string) :
  In y (all_years st)
  <-> In y (keys (capital_exp st)) \/ In y (keys (operational_exp st)).
Proof.
  unfold all_years, union_keys. split.
  - intros H. apply (Permutation_in _ (sorted_desc_perm _)) in H.
    apply nodup_In in H. now apply in_app_or in H.
  - intros H. apply (Permutation_in _ (Permutation_sym (sorted_desc_perm _))).
    apply nodup_In. now apply in_or_app.
Qed.

Lemma all_years_nodup (st : state) : NoDup (all_years st).
Proof.
  unfold all_years, union_keys.
  apply (Permutation_NoDup (Permutation_sym (sorted_desc_perm _))).
  apply NoDup_nodup.
Qed.

Lemma all_years_descending (st : state) :
  StronglySorted (fun a b => String.ltb b a = true) (all_years st).
Proof.
  apply strongly_sorted_strict; [apply all_years_nodup |].
  apply sorted_desc_sorted.
Qed.

Lemma all_years_year_like (st : state) :
  state_keys st -> Forall (fun y => year_like y = true) (all_years st).
Proof.
  intros [Hc Ho]. apply Forall_forall. intros y Hy.
  apply all_years_in in Hy. destruct Hy as [Hy | Hy];
    revert y Hy; now apply Forall_forall.
Qed.

(** *** The order of the keys is the order of the years *)

Lemma digit_val_bounds (c : ascii) :
  is_digit c = true ->
  digit_val c = (Z.of_N (N_of_ascii c) - 48)%Z
  /\ (48 <= Z.of_N (N_of_ascii c) <= 57)%Z.
Proof.
  unfold is_digit, digit_val, nat_of_ascii. intros H.
  apply andb_prop in H. destruct H as [H1 H2].
  apply Nat.leb_le in H1. apply Nat.leb_le in H2.
  rewrite N_nat_Z. split; lia.
Qed.

Lemma start_year_monotone (a b : string) :
  year_like a = true -> year_like b = true ->
  String.leb b a = true -> (start_year b <= start_year a)%Z.
Proof.
  destruct a as [| a1 [| a2 [| a3 [| a4 [| a5 [| a6 [| a7 ra]]]]]]]; try discriminate.
  destruct b as [| b1 [| b2 [| b3 [| b4 [| b5 [| b6 [| b7 rb]]]]]]]; try discriminate.
  cbn [year_like]. intros Ha Hb.
  do 6 (apply andb_prop in Ha; destruct Ha as [Ha ?]).
  do 6 (apply andb_prop in Hb; destruct Hb as [Hb ?]).
  repeat match goal with
         | H : is_digit ?c = true |- _ =>
             destruct (digit_val_bounds c H) as [? ?]; clear H
         end.
  unfold String.leb. cbn [String.compare start_year]. unfold Ascii.compare.
  destruct (N.compare_spec (N_of_ascii b1) (N_of_ascii a1)); try discriminate; try lia.
  destruct (N.compare_spec (N_of_ascii b2) (N_of_ascii a2)); try discriminate; try lia.
  destruct (N.compare_spec (N_of_ascii b3) (N_of_ascii a3)); try discriminate; try lia.
  destruct (N.compare_spec (N_of_ascii b4) (N_of_ascii a4)); try discriminate; try lia.
Qed.

Lemma strongly_sorted_weaken {A : Type} (P : A -> Prop) (R R' : A -> A -> Prop)
    (l : list A) :
  (forall a b, P a -> P b -> R a b -> R' a b) ->
  Forall P l -> StronglySorted R l -> StronglySorted R' l.
Proof.
  intros Himp HP Hs. induction Hs as [| x l Hl IH Hx]; [constructor |].
  inversion HP as [| ? ? Px Pl]; subst.
  constructor; [now apply IH |].
  apply Forall_forall. intros b Hb. apply Himp; [exact Px | |].
  - revert b Hb. now apply Forall_forall.
  - revert b Hb. now apply Forall_forall.
Qed.

Lemma all_years_reverse_chronological (st : state) :
  state_keys st ->
  StronglySorted (fun a b => (start_year b <= start_year a)%Z) (all_years st).
Proof.
  intros Hst.
  apply (strongly_sorted_weaken (fun y => year_like y = true)
           (fun a b => String.leb b a = true)).
  - intros a b Ha Hb. now apply start_year_monotone.
  - now apply all_years_year_like.
  - apply sorted_desc_sorted.
Qed.

(** *** The rows *)

Lemma format_int_returns (z : Z) :
  exists text, format_indian_currency (PyInt z) = Ret text.
Proof.
  unfold format_indian_currency. cbn [int_of_num bind].
  destruct (String.length (str_of_int z) <=? 3); [eexists; reflexivity |].
  destruct (pairs_loop _ _) as [rest parts]. eexists. reflexivity.
Qed.

Lemma year_rows_spec (d : document) (st : state) (years : list string) :
  forall (idx : Z) (rows : list out_row),
    year_rows d st idx years = Ret rows ->
    map academic_year rows = years /\ Forall (merged_row d st) rows.
Proof.
  induction years as [| year years IH]; intros idx rows; cbn [year_rows].
  - intros [= <-]. split; [reflexivity | constructor].
  - unfold year_row.
    destruct (format_int_returns (dict_get (capital_exp st) year 0)) as [c Hc].
    destruct (format_int_returns (dict_get (operational_exp st) year 0)) as [o Ho].
    destruct (format_int_returns (dict_get (capital_exp st) year 0
                                  + dict_get (operational_exp st) year 0)%Z)
      as [t Ht].
    rewrite Hc, Ho, Ht. cbn [bind].
    destruct (year_rows d st (idx + 1) years) as [rs | e] eqn:E; cbn [bind];
      [| discriminate].
    intros [= <-]. destruct (IH _ _ E) as [Hmap Hall].
    split; [cbn [map academic_year]; now rewrite Hmap |].
    constructor; [| exact Hall].
    unfold merged_row. cbn. repeat split; try assumption. now exists idx.
Qed.

Lemma average_row_synthetic (np_mean : list Z -> float) (st : state) (avg : out_row) :
  average_row np_mean st = Ret avg -> synthetic_row avg.
Proof.
  unfold average_row.
  destruct (format_indian_currency (average np_mean (capital_exp st)));
    cbn [bind]; [| discriminate].
  destruct (format_indian_currency (average np_mean (operational_exp st)));
    cbn [bind]; [| discriminate].
  destruct (format_indian_currency _); cbn [bind]; [| discriminate].
  intros [= <-]. now repeat split.
Qed.

(** C6: when the expenditure extractor returns rows, they are the rows of
    the years followed by one synthetic row.  There is one row for each
    year that is a key of the capital or of the operational dictionary, no
    year twice; a row carries the capital and the operational amount found
    under its year and their sum; the years stand in descending order, the
    later year first; every year is a period key, and the synthetic row,
    the last one, has the label '**Average**' in its place, no serial
    number and a blank identity. *)
Theorem C6_years_merged_sorted_then_average (np_mean : list Z -> float)
    (d : document) (rows : list out_row) :
  extract_expenditure_data np_mean d = DataFrame rows ->
  rows <> [] ->
  exists (st : state) (period_rows : list out_row) (avg : out_row),
    pages_loop (pages d) initial = Ret st
    /\ rows = period_rows ++ [avg]
    /\ NoDup (map academic_year period_rows)
    /\ (forall y, In y (map academic_year period_rows)
                  <-> In y (keys (capital_exp st)) \/ In y (keys (operational_exp st)))
    /\ Forall (merged_row d st) period_rows
    /\ StronglySorted (fun a b => String.ltb b a = true)
         (map academic_year period_rows)
    /\ StronglySorted (fun a b => (start_year b <= start_year a)%Z)
         (map academic_year period_rows)
    /\ Forall (fun r => year_like (academic_year r) = true
                        /\ academic_year r <> "**Average**") period_rows
    /\ synthetic_row avg
    /\ year_like (academic_year avg) = false.
Proof.
  intros Hex Hne. unfold extract_expenditure_data, guarded in Hex.
  destruct (getitem (pages d) 0) as [p0 | e0]; cbn [bind] in Hex; [| discriminate].
  destruct (pages_loop (pages d) initial) as [st | e] eqn:Hst; cbn [bind] in Hex;
    [| discriminate].
  pose proof (pages_loop_keys _ _ _ initial_keys Hst) as Hkeys.
  unfold combine_rows in Hex.
  remember (all_years st) as ays eqn:Hays.
  destruct ays as [| y ys]; cbv beta iota zeta in Hex.
  { exfalso. apply Hne. congruence. }
  destruct (year_rows d st 1 (y :: ys)) as [rs | e] eqn:Hrows; cbn [bind] in Hex;
    [| discriminate].
  destruct (average_row np_mean st) as [avg | e] eqn:Havg; cbn [bind] in Hex;
    [| discriminate].
  assert (Erows : rows = rs ++ [avg]) by congruence. subst rows. clear Hex.
  destruct (year_rows_spec _ _ _ _ _ Hrows) as [Hmap Hmerged].
  rewrite Hays in Hmap.
  pose proof (average_row_synthetic _ _ _ Havg) as Hsyn.
  exists st, rs, avg. rewrite Hmap.
  split; [reflexivity |]. split; [reflexivity |].
  split; [apply all_years_nodup |]. split; [apply all_years_in |].
  split; [exact Hmerged |].
  split; [apply all_years_descending |].
  split; [now apply all_years_reverse_chronological |].
  split; [| split; [exact Hsyn |]].
  - apply Forall_forall. intros r Hr.
    assert (Hy : year_like (academic_year r) = true).
    { apply (in_map academic_year) in Hr. rewrite Hmap in Hr.
      exact (proj1 (Forall_forall _ _) (all_years_year_like st Hkeys) _ Hr). }
    split; [exact Hy |]. intros E. rewrite E in Hy. discriminate Hy.
  - destruct Hsyn as [_ [_ [_ ->]]]. reflexivity.
Qed.

Lemma C6_witness :
  exists rows,
    extract_expenditure_data mean_of_small two_tables = DataFrame rows
    /\ rows <> []
    /\ map academic_year rows = ["2022-23"; "2021-22"; "2020-21"; "**Average**"]
    /\ exists (st : state) (period_rows : list out_row) (avg : out_row),
         pages_loop (pages two_tables) initial = Ret st
         /\ rows = period_rows ++ [avg]
         /\ NoDup (map academic_year period_rows)
         /\ (forall y, In y (map academic_year period_rows)
                       <-> In y (keys (capital_exp st))
                           \/ In y (keys (operational_exp st)))
         /\ Forall (merged_row two_tables st) period_rows
         /\ StronglySorted (fun a b => String.ltb b a = true)
              (map academic_year period_rows)
         /\ StronglySorted (fun a b => (start_year b <= start_year a)%Z)
              (map academic_year period_rows)
         /\ Forall (fun r => year_like (academic_year r) = true
                             /\ academic_year r <> "**Average**") period_rows
         /\ synthetic_row avg
         /\ year_like (academic_year avg) = false.
Proof.
  eexists.
  split; [vm_compute; reflexivity |].
  split; [discriminate |].
  split; [vm_compute; reflexivity |].
  eapply (C6_years_merged_sorted_then_average mean_of_small two_tables).
  - vm_compute. reflexivity.
  - discriminate.
Defined.

End ExpenditureFacts.

(* ===================================================================== *)
(** ** Properties of the post-pass of median_salary_tab.py *)
(* ===================================================================== *)

Module MedianSalaryFacts.
Import MedianSalary MedianSalarySpec SortFacts.

(** *** The order of the rows *)

Lemma year_before_total (a b : cell) :
  year_before a b = true \/ year_before b a = true.
Proof.
  destruct a as [x |], b as [y |]; cbn; auto.
  destruct (String.leb_total x y); auto.
Qed.

Lemma year_before_trans (a b c : cell) :
  year_before a b = true -> year_before b c = true -> year_before a c = true.
Proof.
  destruct a as [x |], b as [y |], c as [z |]; cbn; try discriminate; auto.
  intros Hyx Hzy. now apply leb_trans with y.
Qed.

Lemma row_le_total {A : Type} (a b : record * A) :
  row_le a b = true \/ row_le b a = true.
Proof.
  unfold row_le.
  rewrite (String.compare_antisym (program_name (fst a)) (program_name (fst b))).
  destruct (String.compare (program_name (fst b)) (program_name (fst a))); cbn; auto.
  apply year_before_total.
Qed.

Lemma row_le_trans {A : Type} (a b c : record * A) :
  row_le a b = true -> row_le b c = true -> row_le a c = true.
Proof.
  unfold row_le.
  destruct (String.compare (program_name (fst a)) (program_name (fst b))) eqn:Eab;
    try discriminate;
  destruct (String.compare (program_name (fst b)) (program_name (fst c))) eqn:Ebc;
    try discriminate.
  - apply String.compare_eq_iff in Eab. rewrite Eab, Ebc.
    apply year_before_trans.
  - apply String.compare_eq_iff in Eab. rewrite Eab, Ebc. auto.
  - apply String.compare_eq_iff in Ebc. rewrite <- Ebc, Eab. auto.
  - rewrite (compare_lt_trans _ _ _ Eab Ebc). auto.
Qed.

Lemma sort_values_perm {A : Type} (l : list (record * A)) :
  Permutation (sort_values l) l.
Proof. apply sort_by_perm. Qed.

Lemma sort_values_sorted {A : Type} (l : list (record * A)) :
  StronglySorted (fun a b => row_le a b = true) (sort_values l).
Proof.
  apply sort_by_sorted; [apply row_le_total | apply row_le_trans].
Qed.

Lemma strongly_sorted_map {A B : Type} (f : A -> B) (R : B -> B -> Prop)
    (l : list A) :
  StronglySorted (fun a b => R (f a) (f b)) l -> StronglySorted R (map f l).
Proof.
  induction 1 as [| x l Hl IH Hx]; cbn [map]; constructor; [exact IH |].
  apply Forall_forall. intros b Hb. apply in_map_iff in Hb.
  destruct Hb as [a [<- Ha]]. exact (proj1 (Forall_forall _ _) Hx a Ha).
Qed.

(** *** The three passes, row by row *)

Section Rows.

Variable group_mean : list Z -> float.

Lemma blank_duplicates_nth (l : list (record * float)) :
  forall (seen : list string) (i : nat) (x : record * float),
    nth_error (blank_duplicates seen l) i = Some x ->
    exists (r : record) (avg : float),
      nth_error l i = Some (r, avg)
      /\ fst x = r
      /\ snd x = if mem (program_name r) seen
                    || existsb (fun y => String.eqb (program_name r)
                                           (program_name (fst y))) (firstn i l)
                 then nan else avg.
Proof.
  induction l as [| [r0 avg0] l IH]; intros seen i x; cbn [blank_duplicates].
  - destruct i; discriminate.
  - destruct i as [| i]; cbn [nth_error firstn existsb].
    + intros [= <-]. exists r0, avg0. cbn [fst snd].
      rewrite orb_false_r. now repeat split.
    + intros H. destruct (IH _ _ _ H) as [r [avg [Hn [Hf Hs]]]].
      exists r, avg. split; [exact Hn |]. split; [exact Hf |].
      rewrite Hs. unfold mem. cbn [existsb fst].
      destruct (String.eqb (program_name r) (program_name r0)),
               (existsb (String.eqb (program_name r)) seen),
               (existsb _ (firstn i l)); reflexivity.
Qed.

Lemma render_rows_nth (l : list (record * float)) :
  forall (k : Z) (i : nat) (o : out_row),
    nth_error (render_rows k l) i = Some o ->
    exists x, nth_error l i = Some x /\ o = render_row (k + Z.of_nat i) x.
Proof.
  induction l as [| x0 l IH]; intros k i o; cbn [render_rows].
  - destruct i; discriminate.
  - destruct i as [| i]; cbn [nth_error].
    + intros [= <-]. exists x0. split; [reflexivity |]. f_equal. lia.
    + intros H. destruct (IH _ _ _ H) as [x [Hn Ho]].
      exists x. split; [exact Hn |]. rewrite Ho. f_equal. lia.
Qed.

Lemma render_rows_length (l : list (record * float)) (k : Z) :
  List.length (render_rows k l) = List.length l.
Proof.
  revert k. induction l as [| x l IH]; intros k; cbn; [reflexivity |].
  now rewrite IH.
Qed.

Lemma blank_duplicates_length (l : list (record * float)) (seen : list string) :
  List.length (blank_duplicates seen l) = List.length l.
Proof.
  revert seen. induction l as [| [r a] l IH]; intros seen; cbn; [reflexivity |].
  now rewrite IH.
Qed.

Lemma existsb_firstn_seen (p : string) (l : list (record * float)) (i : nat) :
  existsb (fun y => String.eqb p (program_name (fst y))) (firstn i l) = true
  <-> exists (j : nat) (y : record * float),
        (j < i)%nat /\ nth_error l j = Some y /\ program_name (fst y) = p.
Proof.
  rewrite existsb_exists. split.
  - intros [y [Hin Heq]]. apply String.eqb_eq in Heq.
    apply In_nth_error in Hin. destruct Hin as [j Hj].
    assert (Hlt : (j < List.length (firstn i l))%nat)
      by (apply nth_error_Some; congruence).
    rewrite length_firstn in Hlt.
    exists j, y. split; [lia |]. split; [| now symmetry].
    rewrite nth_error_firstn in Hj.
    destruct (Nat.ltb_spec j i); [exact Hj | lia].
  - intros [j [y [Hlt [Hn Heq]]]]. exists y. split.
    + apply nth_error_In with j. rewrite nth_error_firstn.
      destruct (Nat.ltb_spec j i); [exact Hn | lia].
    + apply String.eqb_eq. now symmetry.
Qed.

(** The averages attached before the sort. *)
Lemma with_average_snd (data : list record) :
  Forall (fun x => snd x
                   = group_mean (group_salaries data (program_name (fst x))))
    (with_average group_mean data).
Proof.
  unfold with_average. apply Forall_forall. intros x Hx.
  apply in_map_iff in Hx. destruct Hx as [r [<- _]]. reflexivity.
Qed.

Lemma with_average_fst (data : list record) :
  map fst (with_average group_mean data) = data.
Proof.
  unfold with_average. rewrite map_map. cbn [fst]. apply map_id.
Qed.

Lemma sorted_with_average (data : list record) :
  map fst (sort_values (with_average group_mean data)) = sorted_records data.
Proof.
  unfold sort_values, sorted_records.
  rewrite (sort_by_map fst row_le record_le) by reflexivity.
  now rewrite with_average_fst.
Qed.

Lemma filter_permutation {A : Type} (f : A -> bool) (l l' : list A) :
  Permutation l l' -> Permutation (filter f l) (filter f l').
Proof.
  induction 1 as [| x l l' _ IH | x y l | l l' l'' _ IH1 _ IH2]; cbn [filter].
  - constructor.
  - destruct (f x); [now constructor | exact IH].
  - destruct (f x), (f y); try apply Permutation_refl. constructor.
  - now apply perm_trans with (filter f l').
Qed.

(** The salaries over which the mean of a program is taken are those of
    the rows of that program in the frame returned. *)
Lemma group_salaries_sorted (data : list record) (prog : string) :
  Permutation (group_salaries data prog)
    (map median_salary
       (filter (fun x => String.eqb (program_name x) prog) (sorted_records data))).
Proof.
  unfold group_salaries. apply Permutation_map, filter_permutation.
  apply Permutation_sym. apply sort_by_perm.
Qed.

Lemma group_salaries_own (data : list record) (r : record) :
  In r data -> In (median_salary r) (group_salaries data (program_name r)).
Proof.
  intros Hin. unfold group_salaries. apply in_map. apply filter_In.
  split; [exact Hin | apply String.eqb_refl].
Qed.

Lemma rupee_not_empty (s : string) : (rupee ++ s)%string <> "".
Proof. discriminate. Qed.

(** C7: the rows returned are the records sorted by program, then by year
    descending, each with its own year and salary.  The mean of a program
    is taken over the salaries of the rows of that program, the row's own
    among them.  A row before which no row of the same program stands
    carries that mean, written with the currency sign and two decimals
    (not blank, the mean being a number); a row that follows a row of its
    program has that field blank, and its salary as it was. *)
Theorem C7_average_on_first_row_of_each_group (data : list record) :
  Permutation (sorted_records data) data
  /\ StronglySorted (fun a b => record_le a b = true) (sorted_records data)
  /\ List.length (post_pass group_mean data) = List.length data
  /\ forall (i : nat) (o : out_row),
       nth_error (post_pass group_mean data) i = Some o ->
       exists r : record,
         nth_error (sorted_records data) i = Some r
         /\ s_no o = 1 + Z.of_nat i
         /\ row_program_name o = program_name r
         /\ row_academic_year o = academic_year r
         /\ row_median_salary o = format_salary (median_salary r)
         /\ In (median_salary r) (group_salaries data (program_name r))
         /\ Permutation (group_salaries data (program_name r))
              (map median_salary
                 (filter (fun x => String.eqb (program_name x) (program_name r))
                    (sorted_records data)))
         /\ (~ seen_before (sorted_records data) i r ->
             row_average_median_salary o
             = format_average
                 (group_mean (group_salaries data (program_name r)))
             /\ (notna (group_mean (group_salaries data (program_name r))) = true ->
                 row_average_median_salary o
                 = (rupee
                    ++ format_comma_f true
                         (group_mean (group_salaries data (program_name r))))%string
                 /\ row_average_median_salary o <> ""))
         /\ (seen_before (sorted_records data) i r ->
             row_average_median_salary o = "").
Proof.
  set (L := sort_values (with_average group_mean data)).
  assert (HpermL : Permutation L (with_average group_mean data))
    by apply sort_values_perm.
  assert (Hsnd : Forall (fun x => snd x
                   = group_mean (group_salaries data (program_name (fst x)))) L).
  { apply (Permutation_Forall (Permutation_sym HpermL)), with_average_snd. }
  assert (HL : map fst L = sorted_records data) by apply sorted_with_average.
  assert (Hperm : Permutation (sorted_records data) data) by apply sort_by_perm.
  split; [exact Hperm |].
  rewrite <- HL.
  split; [| split].
  - apply strongly_sorted_map.
    exact (sort_values_sorted (with_average group_mean data)).
  - unfold post_pass. fold L.
    rewrite render_rows_length, blank_duplicates_length.
    rewrite <- (length_map fst L), HL.
    apply Permutation_length, sort_by_perm.
  - intros i o Ho. unfold post_pass in Ho. fold L in Ho.
    destruct (render_rows_nth _ _ _ _ Ho) as [x [Hx ->]].
    destruct (blank_duplicates_nth _ _ _ _ Hx) as [r [avg [Hn [Hf Hs]]]].
    pose proof (proj1 (Forall_forall _ _) Hsnd _ (nth_error_In _ _ Hn)) as Havg.
    cbn [fst snd] in Havg.
    assert (Hr : nth_error (map fst L) i = Some r) by now rewrite nth_error_map, Hn.
    assert (Hin : In r data).
    { apply (Permutation_in _ Hperm). rewrite <- HL.
      exact (nth_error_In _ _ Hr). }
    exists r. cbn [render_row s_no row_program_name row_academic_year
                  row_median_salary row_average_median_salary].
    rewrite Hf, Hs. cbn [mem existsb orb].
    split; [exact Hr |].
    split; [reflexivity |]. split; [reflexivity |]. split; [reflexivity |].
    split; [reflexivity |].
    split; [now apply group_salaries_own |].
    split; [rewrite HL; apply group_salaries_sorted |].
    assert (Hiff : existsb (fun y => String.eqb (program_name r)
                              (program_name (fst y))) (firstn i L) = true
                   <-> seen_before (map fst L) i r).
    { rewrite existsb_firstn_seen. unfold seen_before. split.
      - intros [j [y [Hlt [Hj He]]]]. exists j, (fst y).
        split; [exact Hlt |]. split; [| exact He].
        now rewrite nth_error_map, Hj.
      - intros [j [r' [Hlt [Hj He]]]]. rewrite nth_error_map in Hj.
        destruct (nth_error L j) as [y |] eqn:Ey; [| discriminate].
        injection Hj as <-. now exists j, y. }
    split.
    + intros Hnot.
      destruct (existsb _ (firstn i L)); [exfalso; now apply Hnot, Hiff |].
      rewrite Havg. split; [reflexivity |].
      intros Hna. unfold format_average. rewrite Hna.
      split; [reflexivity | apply rupee_not_empty].
    + intros Hseen. apply Hiff in Hseen. rewrite Hseen. reflexivity.
Qed.

End Rows.

Example post_pass_sample (group_mean : list Z -> float) :
  map (fun o => (row_program_name o, row_academic_year o, row_median_salary o,
                 row_average_median_salary o))
      (post_pass group_mean sample_data)
  = [ ("PG-2", Some "2021-22", "₹700,000",
       format_average (group_mean [700000]));
      ("UG-4", Some "2021-22", "₹600,000",
       format_average (group_mean [500000; 600000]));
      ("UG-4", Some "2020-21", "₹500,000", "") ].
Proof. reflexivity. Qed.

Lemma C7_witness :
  exists first later,
    nth_error (post_pass ExpenditureSpec.mean_of_small sample_data) 1 = Some first
    /\ nth_error (post_pass ExpenditureSpec.mean_of_small sample_data) 2 = Some later
    /\ row_program_name first = "UG-4"
    /\ row_program_name later = "UG-4"
    /\ ~ seen_before (sorted_records sample_data) 1
           (sample "UG-4" (Some "2021-22") 600000)
    /\ seen_before (sorted_records sample_data) 2
         (sample "UG-4" (Some "2020-21") 500000)
    /\ group_salaries sample_data "UG-4" = [500000; 600000]
    /\ notna (ExpenditureSpec.mean_of_small [500000; 600000]) = true
    /\ row_median_salary first = "₹600,000"
    /\ row_average_median_salary first = "₹550,000.00"
    /\ row_median_salary later = "₹500,000"
    /\ row_average_median_salary later = "".
Proof.
  eexists. eexists.
  split; [vm_compute; reflexivity |].
  split; [vm_compute; reflexivity |].
  split; [reflexivity |]. split; [reflexivity |].
  assert (Hfirst : ~ seen_before (sorted_records sample_data) 1
                       (sample "UG-4" (Some "2021-22") 600000)).
  { intros (j & r' & Hlt & Hj & He). destruct j as [| j]; [| lia].
    vm_compute in Hj. injection Hj as <-. discriminate He. }
  assert (Hseen : seen_before (sorted_records sample_data) 2
                    (sample "UG-4" (Some "2020-21") 500000)).
  { exists 1%nat, (sample "UG-4" (Some "2021-22") 600000).
    split; [lia |]. split; reflexivity. }
  assert (Hna : notna (ExpenditureSpec.mean_of_small [500000; 600000]) = true)
    by (vm_compute; reflexivity).
  split; [exact Hfirst |]. split; [exact Hseen |].
  split; [reflexivity |]. split; [exact Hna |].
  destruct (C7_average_on_first_row_of_each_group
              ExpenditureSpec.mean_of_small sample_data) as [_ [_ [_ Hrows]]].
  split; [vm_compute; reflexivity |].
  split.
  { destruct (Hrows 1%nat _ eq_refl) as (r & Hr & _ & _ & _ & _ & _ & _ & Hmean & _).
    assert (Er : r = sample "UG-4" (Some "2021-22") 600000).
    { vm_compute in Hr. now injection Hr as <-. }
    subst r. destruct (Hmean Hfirst) as [_ Hshown].
    destruct (Hshown Hna) as [Hvalue _].
    refine (eq_trans Hvalue _). vm_compute. reflexivity. }
  split; [vm_compute; reflexivity |].
  destruct (Hrows 2%nat _ eq_refl) as (r & Hr & _ & _ & _ & _ & _ & _ & _ & Hblank).
  assert (Er : r = sample "UG-4" (Some "2020-21") 500000).
  { vm_compute in Hr. now injection Hr as <-. }
  subst r. exact (Hblank Hseen).
Defined.

End MedianSalaryFacts.

(* ===================================================================== *)
(** ** Properties of phd_data_tab.py *)
(* ===================================================================== *)

Module PhdFacts.
Import PhdData PhdSpec SortFacts Samples.

(** *** Dictionaries *)

Lemma dict_get_set (d : dict) (k : string) (v : Z) (y : string) (default : Z) :
  dict_get (dict_set d k v) y default
  = if String.eqb k y then v else dict_get d y default.
Proof.
  induction d as [| [k' v'] d IH]; cbn [dict_set dict_get].
  - reflexivity.
  - destruct (String.eqb_spec k' k) as [-> | Hne]; cbn [dict_get].
    + destruct (String.eqb k y); reflexivity.
    + rewrite IH. destruct (String.eqb_spec k' y) as [-> | _]; [| reflexivity].
      destruct (String.eqb_spec k y) as [-> | _]; [contradiction | reflexivity].
Qed.

Lemma keys_set (d : dict) (k : string) (v : Z) :
  keys (dict_set d k v) = if mem k (keys d) then keys d else keys d ++ [k].
Proof.
  unfold mem. induction d as [| [k' v'] d IH]; cbn [dict_set keys map fst existsb app].
  - reflexivity.
  - rewrite (String.eqb_sym k k').
    destruct (String.eqb_spec k' k) as [-> | _]; cbn [orb keys map fst].
    + reflexivity.
    + fold (keys (dict_set d k v)). fold (keys d). rewrite IH.
      destruct (existsb (String.eqb k) (keys d)); reflexivity.
Qed.

Lemma fold_set_keys (f g : string -> Z) (ys : list string) :
  forall d e : dict,
    keys d = keys e ->
    keys (fold_left (fun a year => dict_set a year (f year)) ys d)
    = keys (fold_left (fun a year => dict_set a year (g year)) ys e).
Proof.
  induction ys as [| y ys IH]; intros d e H; cbn [fold_left]; [exact H |].
  apply IH. now rewrite !keys_set, H.
Qed.

(** The columns of a row do not depend on its values. *)
Lemma fill_years_keys (f g : string -> Z) (ys : list string) :
  keys (fill_years ys f) = keys (fill_years ys g).
Proof. now apply fold_set_keys. Qed.

Lemma fold_set_get (f : string -> Z) (ys : list string) :
  forall (d : dict) (y : string),
    (forall k, In k (keys d) -> dict_get d k 0 = f k) ->
    In y (keys d) \/ In y ys ->
    dict_get (fold_left (fun a year => dict_set a year (f year)) ys d) y 0 = f y.
Proof.
  induction ys as [| y0 ys IH]; intros d y Hd Hy; cbn [fold_left].
  - destruct Hy as [Hy | []]. now apply Hd.
  - apply IH.
    + intros k Hk. rewrite dict_get_set.
      destruct (String.eqb_spec y0 k) as [-> | Hne]; [reflexivity |].
      apply Hd. rewrite keys_set in Hk.
      destruct (mem y0 (keys d)); [exact Hk |].
      apply in_app_or in Hk. destruct Hk as [Hk | [Hk | []]];
        [exact Hk | contradiction].
    + destruct Hy as [Hy | [<- | Hy]].
      * left. rewrite keys_set. destruct (mem y0 (keys d)); [exact Hy |].
        apply in_or_app. now left.
      * left. rewrite keys_set. destruct (mem y0 (keys d)) eqn:E.
        -- unfold mem in E. apply existsb_exists in E.
           destruct E as [x [Hx Ex]]. apply String.eqb_eq in Ex. now subst x.
        -- apply in_or_app. right. now left.
      * now right.
Qed.

(** The value stored under a year is the value computed for it. *)
Lemma fill_years_get (f : string -> Z) (ys : list string) (y : string) :
  In y ys -> dict_get (fill_years ys f) y 0 = f y.
Proof.
  intros H. unfold fill_years. apply fold_set_get; [intros k [] | now right].
Qed.

Lemma fold_set_in (f : string -> Z) (ys : list string) :
  forall (d : dict) (y : string),
    In y (keys (fold_left (fun a year => dict_set a year (f year)) ys d))
    -> In y (keys d) \/ In y ys.
Proof.
  induction ys as [| y0 ys IH]; intros d y H; cbn [fold_left] in H; [now left |].
  destruct (IH _ _ H) as [Hk | Hk]; [| right; now right].
  rewrite keys_set in Hk. destruct (mem y0 (keys d)); [now left |].
  apply in_app_or in Hk. destruct Hk as [Hk | [<- | []]];
    [now left | right; now left].
Qed.

Lemma fill_years_in (f : string -> Z) (ys : list string) (y : string) :
  In y (keys (fill_years ys f)) -> In y ys.
Proof.
  intros H. destruct (fold_set_in _ _ _ _ H) as [[] | Hy]. exact Hy.
Qed.

Lemma fold_set_nodup (f : string -> Z) (ys : list string) :
  forall d : dict,
    NoDup ys -> (forall y, In y ys -> ~ In y (keys d)) ->
    fold_left (fun a year => dict_set a year (f year)) ys d
    = d ++ map (fun y => (y, f y)) ys.
Proof.
  induction ys as [| y0 ys IH]; intros d Hnd Hfresh; cbn [fold_left map].
  - now rewrite app_nil_r.
  - inversion Hnd as [| ? ? Hnotin Hnd']; subst.
    assert (Hset : dict_set d y0 (f y0) = d ++ [(y0, f y0)]).
    { assert (Hy0 : ~ In y0 (keys d)) by (apply Hfresh; now left).
      clear - Hy0. induction d as [| [k v] d IHd]; cbn [dict_set app]; [reflexivity |].
      destruct (String.eqb_spec k y0) as [-> | _].
      - exfalso. apply Hy0. now left.
      - rewrite IHd; [reflexivity |]. intros H. apply Hy0. now right. }
    rewrite Hset, IH; [now rewrite <- app_assoc | exact Hnd' |].
    intros y Hy Hin. unfold keys in Hin. rewrite map_app in Hin.
    apply in_app_or in Hin. destruct Hin as [Hin | [<- | []]].
    + apply (Hfresh y); [now right | exact Hin].
    + contradiction.
Qed.

(** With distinct years the row has one column for each year, in order. *)
Lemma fill_years_nodup (f : string -> Z) (ys : list string) :
  NoDup ys -> fill_years ys f = map (fun y => (y, f y)) ys.
Proof.
  intros H. unfold fill_years. rewrite (fold_set_nodup f ys [] H); [reflexivity |].
  intros y _ [].
Qed.

Lemma fold_left_add (l : list Z) (a : Z) :
  fold_left Z.add l a = a + fold_right Z.add 0 l.
Proof.
  revert a. induction l as [| x l IH]; intros a; cbn [fold_left fold_right];
    [lia |].
  rewrite IH. lia.
Qed.

Lemma sum_years_nodup (f : string -> Z) (ys : list string) :
  NoDup ys ->
  sum_years ys (fill_years ys f) = fold_right Z.add 0 (values (fill_years ys f)).
Proof.
  intros H. unfold sum_years. rewrite fold_left_add, Z.add_0_l.
  f_equal. transitivity (map f ys).
  - apply map_ext_in. intros y Hy. now apply fill_years_get.
  - unfold values. rewrite (fill_years_nodup f ys H), map_map. reflexivity.
Qed.

(** A table without the title of the graduation table is passed over. *)
Lemma phd_other_table_is_skipped (t : table) (rest : list table) (st : state) :
  contains "No. of Ph.D students graduated" (table_text t) = false ->
  tables_loop (t :: rest) st = tables_loop rest st.
Proof.
  intros H. cbn [tables_loop]. rewrite H.
  destruct (List.length t <? 2)%nat; reflexivity.
Qed.

(** C10, as stated, fails: with a header that names the year 2021-22 twice
    the full-time row holds 4 under that year and 8 as its total. *)
Lemma C10_repeated_year_is_counted_twice :
  exists ft pt tot,
    extract_phd_graduated_data (single_table "A" "B" repeated_year_table)
      = DataFrame [ft; pt; tot]
    /\ per_year ft = [("2021-22", 4)]
    /\ total ft = 8
    /\ total ft <> row_sum ft.
Proof.
  do 3 eexists. split; [vm_compute; reflexivity |].
  split; [reflexivity |]. split; [reflexivity |]. cbn. discriminate.
Qed.

(** C10, amended: a frame that is not empty has the three rows Full Time,
    Part Time and Total, with the same year columns; under every year the
    Total row holds the sum of the other two; and when the years of the
    header are pairwise distinct, the 'Total' column of each row is the sum
    of the row's per-year values. *)
Theorem C10_three_rows_with_totals (d : document) (rows : list out_row) :
  extract_phd_graduated_data d = DataFrame rows ->
  rows <> [] ->
  exists (st : state) (ft pt tot : out_row),
    pages_loop (pages d) initial = Ret st
    /\ rows = [ft; pt; tot]
    /\ row_program_name ft = "Ph.D. Graduated - Full Time"
    /\ row_program_name pt = "Ph.D. Graduated - Part Time"
    /\ row_program_name tot = "Ph.D. Graduated - Total"
    /\ keys (per_year pt) = keys (per_year ft)
    /\ keys (per_year tot) = keys (per_year ft)
    /\ (forall y, In y (keys (per_year tot)) ->
          dict_get (per_year tot) y 0
          = dict_get (per_year ft) y 0 + dict_get (per_year pt) y 0)
    /\ (NoDup (years st) ->
          total ft = row_sum ft /\ total pt = row_sum pt /\ total tot = row_sum tot).
Proof.
  intros Hex Hne. unfold extract_phd_graduated_data, guarded in Hex.
  destruct (getitem (pages d) 0) as [p0 | e0]; cbn [bind] in Hex; [| discriminate].
  destruct (pages_loop (pages d) initial) as [st | e] eqn:Hst; [| discriminate].
  assert (Erows : rows = build_rows d st) by congruence. subst rows. clear Hex.
  unfold build_rows in *.
  destruct (years st) as [| y ys] eqn:Hys; [contradiction |].
  set (sorted := sorted_desc (y :: ys)).
  set (ft := fill_years sorted (fun k => dict_get (full_time_grads st) k 0)).
  set (pt := fill_years sorted (fun k => dict_get (part_time_grads st) k 0)).
  set (tot := fill_years sorted (fun k => dict_get ft k 0 + dict_get pt k 0)).
  do 4 eexists.
  split; [reflexivity |]. split; [reflexivity |].
  cbn [row_program_name per_year total].
  split; [reflexivity |]. split; [reflexivity |]. split; [reflexivity |].
  split; [apply fill_years_keys |]. split; [apply fill_years_keys |].
  split.
  - intros k Hk. apply fill_years_in in Hk.
    unfold tot. now rewrite fill_years_get.
  - intros Hnd. rewrite Hys in Hnd.
    assert (Hsorted : NoDup sorted).
    { apply (Permutation_NoDup (Permutation_sym (sorted_desc_perm _))), Hnd. }
    unfold row_sum. cbn [per_year].
    split; [| split]; now apply sum_years_nodup.
Qed.

Lemma C10_witness :
  exists rows,
    extract_phd_graduated_data (single_table "A" "B" graduated_table)
      = DataFrame rows
    /\ rows <> []
    /\ map total rows = [30; 6; 36]
    /\ exists (st : state) (ft pt tot : out_row),
         pages_loop (pages (single_table "A" "B" graduated_table)) initial = Ret st
         /\ rows = [ft; pt; tot]
         /\ row_program_name ft = "Ph.D. Graduated - Full Time"
         /\ row_program_name pt = "Ph.D. Graduated - Part Time"
         /\ row_program_name tot = "Ph.D. Graduated - Total"
         /\ keys (per_year pt) = keys (per_year ft)
         /\ keys (per_year tot) = keys (per_year ft)
         /\ (forall y, In y (keys (per_year tot)) ->
               dict_get (per_year tot) y 0
               = dict_get (per_year ft) y 0 + dict_get (per_year pt) y 0)
         /\ (NoDup (years st) ->
               total ft = row_sum ft /\ total pt = row_sum pt
               /\ total tot = row_sum tot).
Proof.
  eexists.
  split; [vm_compute; reflexivity |].
  split; [discriminate |].
  split; [vm_compute; reflexivity |].
  eapply (C10_three_rows_with_totals (single_table "A" "B" graduated_table)).
  - vm_compute. reflexivity.
  - discriminate.
Defined.

End PhdFacts.

(* ===================================================================== *)
(** ** Further properties of student_ratio_tab.py *)
(* ===================================================================== *)

Module StudentRatioMoreFacts.
Import StudentRatio StudentRatioSpec StudentRatioMore Samples PyFacts.

(** *** Serial numbers and well-formed records *)

Lemma serial_numbers_snoc (n : nat) :
  serial_numbers (S n) = serial_numbers n ++ [1 + Z.of_nat n].
Proof.
  unfold serial_numbers. rewrite seq_S, map_app. cbn [map]. f_equal. f_equal. lia.
Qed.

Lemma read_counts_ratio (fc tc : nat) (r : row) (t f : Z) (ratio : num) :
  try_except (read_counts fc tc r) [ValueError; TypeError; IndexError] (Ret None)
    = Ret (Some (t, f, ratio)) ->
  ratio_of f t = Ret ratio.
Proof.
  unfold read_counts.
  destruct (getitem r tc) as [c1 | e]; cbn [bind];
    [| destruct e; cbn; discriminate].
  destruct (as_str c1) as [ts | e]; cbn [bind];
    [| destruct e; cbn; discriminate].
  destruct (getitem r fc) as [c2 | e]; cbn [bind];
    [| destruct e; cbn; discriminate].
  destruct (as_str c2) as [fs | e]; cbn [bind];
    [| destruct e; cbn; discriminate].
  destruct (negb _ && negb _); [| cbn; discriminate].
  destruct (int_of_str (strip (replace "," "" ts))) as [t' | e]; cbn [bind];
    [| destruct e; cbn; discriminate].
  destruct (int_of_str (strip (replace "," "" fs))) as [f' | e]; cbn [bind];
    [| destruct e; cbn; discriminate].
  destruct (ratio_of f' t') as [q | e] eqn:Hq; cbn [bind];
    [| destruct e; cbn; discriminate].
  cbn [try_except]. intros [= <- <- <-]. exact Hq.
Qed.

Lemma emit_invariant (name code prog : string) (t f : Z) (ratio : num) (st : state) :
  scan_invariant name code st ->
  accepts_program prog = true ->
  ratio_of f t = Ret ratio ->
  scan_invariant name code (emit name code prog (t, f, ratio) st).
Proof.
  intros (Hn & Hs & Hw) Hp Hr. unfold scan_invariant, emit. cbn [data next_s_no].
  rewrite length_app, map_app, Nat.add_1_r, serial_numbers_snoc. cbn [List.length map s_no].
  split; [lia |]. split; [rewrite Hs, Hn; reflexivity |].
  apply Forall_app. split; [exact Hw |].
  constructor; [| constructor]. unfold well_formed. cbn. auto.
Qed.

Lemma row_step_invariant (name code : string) (fc tc : nat) (r : row)
    (st st' : state) :
  scan_invariant name code st ->
  row_step name code fc tc r st = Ret st' ->
  scan_invariant name code st' /\ table_found st' = table_found st.
Proof.
  intros Hinv. unfold row_step.
  destruct (getitem r 0) as [c | e]; cbn [bind]; [| discriminate].
  destruct (negb (truthy c) || String.eqb (strip (str_cell c)) "").
  { intros [= <-]. auto. }
  destruct (accepts_program _) eqn:Hp; [| intros [= <-]; auto].
  destruct (try_except (read_counts fc tc r) _ _) as [[[[t f] ratio] |] | e] eqn:Hv;
    cbn [bind]; [| intros [= <-]; auto | discriminate].
  intros [= <-]. split; [| reflexivity].
  apply emit_invariant; [exact Hinv | exact Hp |].
  apply (read_counts_ratio _ _ _ _ _ _ Hv).
Qed.

Lemma rows_loop_invariant (name code : string) (fc tc : nat) (rows : list row)
    (st st' : state) :
  scan_invariant name code st ->
  rows_loop name code fc tc rows st = Ret st' ->
  scan_invariant name code st' /\ table_found st' = table_found st.
Proof.
  revert st. induction rows as [| r rows IH]; intros st Hinv; cbn [rows_loop].
  { intros [= <-]. auto. }
  destruct (row_step name code fc tc r st) as [st1 | e] eqn:Hr; cbn [bind];
    [| discriminate].
  destruct (row_step_invariant _ _ _ _ _ _ _ Hinv Hr) as [Hinv1 Hf1].
  intros H. destruct (IH _ Hinv1 H) as [Hinv' Hf']. split; [exact Hinv' | congruence].
Qed.

Lemma tables_loop_invariant (name code : string) (ts : list table) (st st' : state) :
  scan_invariant name code st ->
  tables_loop name code ts st = Ret st' ->
  scan_invariant name code st'.
Proof.
  revert st. induction ts as [| t ts IH]; intros st Hinv; cbn [tables_loop].
  { now intros [= <-]. }
  destruct t as [| first body]; [apply IH, Hinv |].
  destruct (is_strength_header (clean_header first)); [| apply IH, Hinv].
  assert (Hm : scan_invariant name code (mark_found st)) by exact Hinv.
  destruct (f <- index "No. of Female Students" (clean_header first) 0 ;;
            t0 <- index "Total Students" (clean_header first) 0 ;; Ret (f, t0))
    as [[fc tc] | []]; try discriminate.
  - intros H. apply (rows_loop_invariant _ _ _ _ _ _ _ Hm H).
  - apply IH, Hm.
Qed.

Lemma pages_loop_invariant (name code : string) (ps : list page) (st st' : state) :
  scan_invariant name code st ->
  pages_loop name code ps st = Ret st' ->
  scan_invariant name code st'.
Proof.
  revert st. induction ps as [| p ps IH]; intros st Hinv; cbn [pages_loop].
  { now intros [= <-]. }
  destruct (table_found st); [now intros [= <-] |].
  destruct (tables_loop name code (extract_tables p) st) as [st1 | e] eqn:Ht;
    cbn [bind]; [| discriminate].
  apply IH. apply (tables_loop_invariant _ _ _ _ _ Hinv Ht).
Qed.

Lemma initial_invariant (name code : string) : scan_invariant name code initial.
Proof. unfold scan_invariant. cbn. auto. Qed.

(** *** The frame made of the records *)

Lemma to_frame_s_no (data : list record) : map s_no (to_frame data) = map s_no data.
Proof.
  unfold to_frame. destruct (existsb _ data); [| reflexivity].
  rewrite map_map. reflexivity.
Qed.

Lemma to_frame_length (data : list record) :
  List.length (to_frame data) = List.length data.
Proof. now rewrite <- (length_map s_no), to_frame_s_no, length_map. Qed.

(** A record holds a float exactly when its total is positive. *)
Lemma well_formed_is_float (name code : string) (r : record) :
  well_formed name code r -> is_float (female_ratio r) = (0 <? total_students r).
Proof.
  intros (_ & _ & _ & Hr). unfold ratio_of in Hr.
  destruct (0 <? total_students r).
  - destruct (truediv _ _) as [q | e]; cbn [bind] in Hr; [| discriminate].
    destruct (round2 _) as [f | e]; cbn [bind] in Hr; [| discriminate].
    injection Hr as <-. reflexivity.
  - injection Hr as <-. reflexivity.
Qed.

Lemma existsb_is_float (name code : string) (data : list record) :
  Forall (well_formed name code) data ->
  existsb (fun r => is_float (female_ratio r)) data
  = existsb (fun r => 0 <? total_students r) data.
Proof.
  induction 1 as [| r data Hr _ IH]; [reflexivity |].
  cbn [existsb]. now rewrite (well_formed_is_float _ _ _ Hr), IH.
Qed.

Lemma existsb_total_to_frame (data : list record) :
  existsb (fun r => 0 <? total_students r) (to_frame data)
  = existsb (fun r => 0 <? total_students r) data.
Proof.
  unfold to_frame. destruct (existsb _ data); [| reflexivity].
  induction data as [| r data IH]; [reflexivity |].
  cbn [map existsb with_ratio total_students]. now rewrite IH.
Qed.

Lemma frame_invariant (d : document) (rows : list record) :
  extract_student_ratio_data d = DataFrame rows ->
  exists data,
    rows = to_frame data
    /\ map s_no data = serial_numbers (List.length data)
    /\ Forall (well_formed (college_name d) (college_id d)) data.
Proof.
  unfold extract_student_ratio_data, guarded.
  destruct (getitem (pages d) 0) as [p | e]; cbn [bind]; [| discriminate].
  destruct (pages_loop _ _ _ initial) as [st | e] eqn:Hp; [| discriminate].
  intros [= <-].
  destruct (pages_loop_invariant _ _ _ _ _ (initial_invariant _ _) Hp) as (_ & Hs & Hw).
  exists (data st). auto.
Qed.

(** X1: in every frame the extractor returns, the records are numbered
    1, 2, ..., n in the order of the frame, without gap or repetition. *)
Theorem X1_serial_numbers_are_consecutive (d : document) (rows : list record) :
  extract_student_ratio_data d = DataFrame rows ->
  map s_no rows = serial_numbers (List.length rows).
Proof.
  intros H. destruct (frame_invariant d rows H) as (data & -> & Hs & _).
  now rewrite to_frame_s_no, to_frame_length.
Qed.

Lemma X1_witness :
  extract_student_ratio_data (single_table "A" "B" two_programs)
    = DataFrame (frame_rows (extract_student_ratio_data (single_table "A" "B" two_programs)))
  /\ map s_no (frame_rows (extract_student_ratio_data (single_table "A" "B" two_programs)))
     = [1; 2].
Proof.
  split; [vm_compute; reflexivity |].
  apply (X1_serial_numbers_are_consecutive (single_table "A" "B" two_programs)).
  vm_compute; reflexivity.
Defined.

(** X2: every record of a returned frame carries the institute's name and
    code and names a program that starts with UG [ or PG [.  Its ratio is
    what line 87 computes from the record's own two counts, as the frame's
    column holds it: when no record of the frame has a positive total the
    column is a column of integers and the ratio is the integer 0; when
    some record has a positive total the column is a column of floats, and
    the ratio of a record whose total is not positive is 0.0. *)
Theorem X2_records_are_well_formed (d : document) (rows : list record) (r : record) :
  extract_student_ratio_data d = DataFrame rows ->
  In r rows ->
  rec_college_name r = college_name d
  /\ rec_college_id r = college_id d
  /\ (startswith (program r) "UG [" || startswith (program r) "PG [") = true
  /\ (exists computed,
        ratio_of (female_students r) (total_students r) = Ret computed
        /\ female_ratio r
           = if existsb (fun x => 0 <? total_students x) rows
             then upcast computed else computed)
  /\ (Forall (fun x => total_students x <= 0) rows -> female_ratio r = PyInt 0)
  /\ (Exists (fun x => 0 < total_students x) rows ->
      exists f, female_ratio r = PyFloat f
                /\ (total_students r <= 0 -> f = 0%float)).
Proof.
  intros H Hin. destruct (frame_invariant d rows H) as (data & -> & _ & Hw).
  assert (Hsome : existsb (fun x => 0 <? total_students x) (to_frame data) = true
                  <-> Exists (fun x => 0 < total_students x) (to_frame data)).
  { rewrite existsb_exists, Exists_exists.
    split; intros (x & Hx & Hpos); exists x; (split; [exact Hx |]);
      now apply Z.ltb_lt. }
  assert (Hcore :
    rec_college_name r = college_name d
    /\ rec_college_id r = college_id d
    /\ accepts_program (program r) = true
    /\ exists computed,
         ratio_of (female_students r) (total_students r) = Ret computed
         /\ female_ratio r
            = if existsb (fun x => 0 <? total_students x) (to_frame data)
              then upcast computed else computed).
  { rewrite existsb_total_to_frame, <- (existsb_is_float _ _ _ Hw).
    unfold to_frame in Hin.
    destruct (existsb (fun r0 => is_float (female_ratio r0)) data).
    - apply in_map_iff in Hin. destruct Hin as (r0 & <- & Hin0).
      destruct (proj1 (Forall_forall _ _) Hw r0 Hin0) as (Hn & Hc & Hp & Hr).
      cbn [with_ratio rec_college_name rec_college_id program female_students
           total_students female_ratio].
      split; [exact Hn |]. split; [exact Hc |]. split; [exact Hp |].
      exists (female_ratio r0). split; [exact Hr | reflexivity].
    - destruct (proj1 (Forall_forall _ _) Hw r Hin) as (Hn & Hc & Hp & Hr).
      split; [exact Hn |]. split; [exact Hc |]. split; [exact Hp |].
      exists (female_ratio r). split; [exact Hr | reflexivity]. }
  destruct Hcore as (Hn & Hc & Hp & computed & Hr & Hratio).
  split; [exact Hn |]. split; [exact Hc |]. split; [exact Hp |].
  split; [exists computed; split; [exact Hr | exact Hratio] |].
  split.
  - intros Hall.
    assert (Hno : existsb (fun x => 0 <? total_students x) (to_frame data) = false).
    { apply not_true_is_false. intros Ht. apply Hsome in Ht.
      apply Exists_exists in Ht. destruct Ht as (x & Hx & Hpos).
      pose proof (proj1 (Forall_forall _ _) Hall x Hx) as Hle. cbv beta in Hle. lia. }
    rewrite Hno in Hratio. rewrite Hratio.
    pose proof (proj1 (Forall_forall _ _) Hall r Hin) as Hle. cbv beta in Hle.
    rewrite (StudentRatioFacts.ratio_of_not_positive _ _ Hle) in Hr. congruence.
  - intros Hex. apply Hsome in Hex. rewrite Hex in Hratio.
    unfold ratio_of in Hr.
    destruct (Z.ltb_spec 0 (total_students r)) as [Hpos | Hle].
    + destruct (truediv _ _) as [q | e]; cbn [bind] in Hr; [| discriminate].
      destruct (round2 _) as [f | e]; cbn [bind] in Hr; [| discriminate].
      injection Hr as <-. exists f. split; [exact Hratio | lia].
    + injection Hr as <-. exists (float_of_int 0).
      split; [exact Hratio | reflexivity].
Qed.

Lemma X2_witness :
  let d := single_table "A" "B" mixed_table in
  let r1 := {| s_no := 1; rec_college_name := "A"; rec_college_id := "B";
               program := "UG [4 Years]"; total_students := 1000;
               female_students := 450; female_ratio := PyFloat 45 |} in
  let r2 := {| s_no := 2; rec_college_name := "A"; rec_college_id := "B";
               program := "PG [2 Years]"; total_students := 0;
               female_students := 0; female_ratio := PyFloat 0 |} in
  extract_student_ratio_data d = DataFrame [r1; r2]
  /\ In r2 [r1; r2]
  /\ Exists (fun x => 0 < total_students x) [r1; r2]
  /\ total_students r2 <= 0
  /\ exists f, female_ratio r2 = PyFloat f /\ f = 0%float.
Proof.
  intros d r1 r2.
  assert (Hd : extract_student_ratio_data d = DataFrame [r1; r2])
    by (vm_compute; reflexivity).
  assert (Hin : In r2 [r1; r2]) by (right; left; reflexivity).
  assert (Hex : Exists (fun x => 0 < total_students x) [r1; r2]).
  { apply Exists_cons_hd. cbn. lia. }
  assert (Hle : total_students r2 <= 0) by (cbn; lia).
  split; [exact Hd |]. split; [exact Hin |]. split; [exact Hex |].
  split; [exact Hle |].
  destruct (X2_records_are_well_formed d [r1; r2] r2 Hd Hin)
    as (_ & _ & _ & _ & _ & Hfloat).
  destruct (Hfloat Hex) as (f & Hf & Hzero).
  exists f. split; [exact Hf | exact (Hzero Hle)].
Defined.

(** *** Only the first recognised table is read *)

Lemma eqb_sym (a b : string) : String.eqb a b = String.eqb b a.
Proof.
  destruct (String.eqb_spec a b) as [-> | Hne].
  - symmetry. apply String.eqb_refl.
  - symmetry. apply String.eqb_neq. congruence.
Qed.

Lemma mem_index_from (x : string) (l : list string) (i : nat) :
  mem x l = true -> exists j, index_from x l i = Ret j.
Proof.
  revert i. induction l as [| y l IH]; intros i; cbn [mem existsb index_from];
    [discriminate |].
  rewrite (eqb_sym x y). destruct (String.eqb y x); [eauto |].
  cbn [orb]. apply IH.
Qed.

Lemma mem_index (x : string) (l : list string) :
  mem x l = true -> exists j, index x l 0 = Ret j.
Proof. apply mem_index_from. Qed.

Lemma rows_loop_table_found (name code : string) (fc tc : nat) (rows : list row)
    (st st' : state) :
  rows_loop name code fc tc rows st = Ret st' -> table_found st' = table_found st.
Proof.
  revert st. induction rows as [| r rows IH]; intros st; cbn [rows_loop].
  { now intros [= <-]. }
  destruct (row_step name code fc tc r st) as [st1 | e] eqn:Hr; cbn [bind];
    [| discriminate].
  intros H. rewrite (IH _ H). revert Hr. unfold row_step.
  destruct (getitem r 0) as [c | e]; cbn [bind]; [| discriminate].
  destruct (negb (truthy c) || String.eqb (strip (str_cell c)) "");
    [now intros [= <-] |].
  destruct (accepts_program _); [| now intros [= <-]].
  destruct (try_except _ _ _) as [[[[t f] ratio] |] | e]; cbn [bind];
    [| now intros [= <-] | discriminate].
  now intros [= <-].
Qed.

Lemma tables_loop_recognised (name code : string) (t : table) (rest : list table)
    (st : state) :
  recognised t = true ->
  tables_loop name code (t :: rest) st = tables_loop name code [t] st
  /\ forall st', tables_loop name code [t] st = Ret st' -> table_found st' = true.
Proof.
  destruct t as [| first body]; cbn [recognised]; [discriminate |].
  intros H. cbn [tables_loop]. rewrite H.
  unfold is_strength_header in H.
  apply andb_prop in H. destruct H as [H Ht].
  apply andb_prop in H. destruct H as [_ Hf].
  destruct (mem_index _ _ Hf) as [fc ->]. destruct (mem_index _ _ Ht) as [tc ->].
  cbn [bind]. split; [reflexivity |].
  intros st' Hr. apply rows_loop_table_found in Hr. exact Hr.
Qed.

Lemma tables_loop_skip_prefix (name code : string) (ts1 ts2 : list table)
    (st : state) :
  forallb (fun t => negb (recognised t)) ts1 = true ->
  tables_loop name code (ts1 ++ ts2) st = tables_loop name code ts2 st.
Proof.
  induction ts1 as [| t ts1 IH]; intros H; [reflexivity |].
  cbn [forallb] in H. apply andb_prop in H. destruct H as [Ht Hts].
  cbn [app]. rewrite StudentRatioFacts.tables_loop_skip by (now destruct (recognised t)).
  apply IH, Hts.
Qed.

Lemma pages_loop_skip_prefix (name code : string) (ps1 ps2 : list page) :
  forallb (fun p => forallb (fun t => negb (recognised t)) (extract_tables p)) ps1
    = true ->
  pages_loop name code (ps1 ++ ps2) initial = pages_loop name code ps2 initial.
Proof.
  induction ps1 as [| p ps1 IH]; intros H; [reflexivity |].
  cbn [forallb] in H. apply andb_prop in H. destruct H as [Hp Hps].
  cbn [app pages_loop initial table_found].
  change {| data := []; next_s_no := 1; table_found := false |} with initial.
  rewrite (StudentRatioFacts.tables_loop_none_recognised _ _ _ _ Hp). cbn [bind].
  apply IH, Hps.
Qed.

Lemma pages_loop_found (name code : string) (ps : list page) (st : state) :
  table_found st = true -> pages_loop name code ps st = Ret st.
Proof. intros H. destruct ps; cbn [pages_loop]; [| rewrite H]; reflexivity. Qed.

(** X3: the scan stops at the first table that passes the header test.
    Whatever tables and pages follow it, and whatever unrecognised tables
    and pages precede it, the outcome (frame or error) is the one of the
    document that holds this table alone. *)
Theorem X3_only_the_first_recognised_table_is_read (name code : string)
    (ps1 : list page) (ls : list (Q * string)) (tos1 : list table_obj)
    (t : table_obj) (tos2 : list table_obj) (ps2 : list page) :
  forallb (fun p => forallb (fun t => negb (recognised t)) (extract_tables p)) ps1
    = true ->
  forallb (fun t => negb (recognised (extract t))) tos1 = true ->
  recognised (extract t) = true ->
  extract_student_ratio_data
    {| college_name := name; college_id := code;
       pages := ps1 ++ {| lines := ls; find_tables := tos1 ++ t :: tos2 |} :: ps2 |}
  = extract_student_ratio_data (single_table name code (extract t)).
Proof.
  intros Hps Hts Ht. unfold extract_student_ratio_data, guarded, single_table.
  cbn [pages college_name college_id].
  replace (getitem (ps1 ++ {| lines := ls; find_tables := tos1 ++ t :: tos2 |} :: ps2) 0)
    with (Ret (A := page) (hd {| lines := ls; find_tables := tos1 ++ t :: tos2 |} ps1))
    by (destruct ps1; reflexivity).
  cbn [getitem nth_error bind].
  rewrite (pages_loop_skip_prefix _ _ _ _ Hps).
  cbn [pages_loop initial table_found extract_tables find_tables map extract].
  change {| data := []; next_s_no := 1; table_found := false |} with initial.
  rewrite map_app. cbn [map].
  rewrite tables_loop_skip_prefix
    by (rewrite forallb_forall in Hts |- *; intros x Hx;
        apply in_map_iff in Hx; destruct Hx as (y & <- & Hy); apply Hts, Hy).
  destruct (tables_loop_recognised name code (extract t)
              (map extract tos2) initial Ht) as [-> Hfound].
  destruct (tables_loop name code [extract t] initial) as [st' | e]; cbn [bind];
    [| reflexivity].
  rewrite (pages_loop_found _ _ _ _ (Hfound st' eq_refl)). reflexivity.
Qed.

Lemma X3_witness :
  extract_student_ratio_data
    {| college_name := "A"; college_id := "B";
       pages := [ {| lines := []; find_tables := [ {| bbox_top := 0%Q; extract := other_table |} ] |} ]
                ++ {| lines := [];
                      find_tables :=
                        [ {| bbox_top := 10%Q; extract := other_table |} ]
                        ++ {| bbox_top := 300%Q; extract := strength_table |}
                        :: [ {| bbox_top := 500%Q; extract := dash_table |} ] |}
                :: [ {| lines := []; find_tables := [ {| bbox_top := 0%Q; extract := two_programs |} ] |} ] |}
  = extract_student_ratio_data (single_table "A" "B" strength_table).
Proof.
  apply (X3_only_the_first_recognised_table_is_read "A" "B"
           [ {| lines := []; find_tables := [ {| bbox_top := 0%Q; extract := other_table |} ] |} ]
           [] [ {| bbox_top := 10%Q; extract := other_table |} ]
           {| bbox_top := 300%Q; extract := strength_table |}
           [ {| bbox_top := 500%Q; extract := dash_table |} ]
           [ {| lines := []; find_tables := [ {| bbox_top := 0%Q; extract := two_programs |} ] |} ]);
    vm_compute; reflexivity.
Defined.

(** *** A count cell that is missing *)

Lemma row_step_missing_count (name code : string) (fc tc : nat) (r : row)
    (st : state) :
  accepted_row r = true ->
  missing_count fc tc r ->
  row_step name code fc tc r st = Raise AttributeError.
Proof.
  intros Ha Hm. unfold row_step.
  destruct r as [| [s |] r']; cbn [accepted_row] in Ha; try discriminate.
  apply andb_prop in Ha. destruct Ha as [Ha Hp].
  apply andb_prop in Ha. destruct Ha as [Hs Hb].
  cbn [getitem nth_error bind truthy str_cell].
  rewrite Hs. apply negb_true_iff in Hb. rewrite Hb. cbn [negb orb]. rewrite Hp.
  unfold read_counts, getitem.
  destruct Hm as [Ht | [[s' Ht] Hf]]; rewrite Ht; [reflexivity |].
  rewrite Hf. reflexivity.
Qed.

(** X4: a program row whose count cell is missing (the table library
    hands over None) is not skipped as a row with an unreadable count is:
    the method call on None raises AttributeError, which the row's handler
    does not catch, so the whole extraction fails and the records read
    before that row are lost with it. *)
Theorem X4_missing_count_cell_fails_the_extraction (name code : string)
    (first : row) (rows1 : list row) (r : row) (rows2 : list row)
    (fc tc : nat) (st1 : state) :
  is_strength_header (clean_header first) = true ->
  index "No. of Female Students" (clean_header first) 0 = Ret fc ->
  index "Total Students" (clean_header first) 0 = Ret tc ->
  rows_loop name code fc tc rows1 (mark_found initial) = Ret st1 ->
  accepted_row r = true ->
  missing_count fc tc r ->
  extract_student_ratio_data (single_table name code (first :: rows1 ++ r :: rows2))
  = Failed AttributeError.
Proof.
  intros Hh Hf Ht H1 Ha Hm. unfold extract_student_ratio_data, guarded, single_table.
  cbn [pages college_name college_id getitem nth_error bind pages_loop initial
       table_found extract_tables find_tables map extract tables_loop].
  rewrite Hh, Hf, Ht. cbn [bind].
  change {| data := []; next_s_no := 1; table_found := false |} with initial.
  rewrite StudentRatioFacts.rows_loop_app, H1. cbn [bind rows_loop].
  rewrite (row_step_missing_count _ _ _ _ _ _ Ha Hm). reflexivity.
Qed.

Lemma X4_witness :
  extract_student_ratio_data
    (single_table "A" "B"
       (strength_header
        :: [ [Some "UG [4 Years]"; Some "550"; Some "450"; Some "1000"] ]
        ++ [Some "PG [2 Years]"; Some "30"; None; Some "50"] :: []))
  = Failed AttributeError.
Proof.
  apply (X4_missing_count_cell_fails_the_extraction "A" "B" strength_header
           [ [Some "UG [4 Years]"; Some "550"; Some "450"; Some "1000"] ]
           [Some "PG [2 Years]"; Some "30"; None; Some "50"] [] 2%nat 3%nat
           (match rows_loop "A" "B" 2 3
                    [ [Some "UG [4 Years]"; Some "550"; Some "450"; Some "1000"] ]
                    (mark_found initial) with
            | Ret st => st
            | Raise _ => initial
            end)).
  - vm_compute; reflexivity.
  - vm_compute; reflexivity.
  - vm_compute; reflexivity.
  - vm_compute; reflexivity.
  - vm_compute; reflexivity.
  - right. split; [exists "50"; reflexivity | reflexivity].
Defined.

End StudentRatioMoreFacts.

(* ===================================================================== *)
(** ** From the heading of a table to the program name *)
(* ===================================================================== *)

Module LabelFacts.
Import LabelSpec PyFacts ResolverSpec.

Lemma take_digits_all_digits (s : string) : all_digits (take_digits s) = true.
Proof.
  induction s as [| c s IH]; [reflexivity |].
  cbn [take_digits]. destruct (is_digit c) eqn:Hc; [| reflexivity].
  cbn [all_digits]. now rewrite Hc.
Qed.

Lemma take_digits_digits (ds : string) (t : string) :
  all_digits ds = true ->
  take_digits t = "" ->
  take_digits (ds ++ t) = ds.
Proof.
  intros Hd Ht. induction ds as [| c ds IH]; [exact Ht |].
  cbn [all_digits] in Hd. apply andb_prop in Hd. destruct Hd as [Hc Hd].
  cbn [String.append take_digits]. rewrite Hc, (IH Hd). reflexivity.
Qed.

Lemma eqb_empty_digits (ds : string) : ds <> "" -> String.eqb ds "" = false.
Proof. intros H. now apply String.eqb_neq. Qed.

(** *** What the label pattern matches *)

Lemma match_label_form (s m : string) :
  match_label s = Some m ->
  exists kind years plural, is_kind kind /\ digits years /\ m = label kind years plural.
Proof.
  unfold match_label.
  set (ds := take_digits (drop 4 s)).
  assert (Hds : all_digits ds = true) by apply take_digits_all_digits.
  assert (Hcase : forall kind : string, is_kind kind ->
             (if String.eqb ds "" then None
              else if String.prefix " Years Program(s)]"
                        (drop (String.length ds) (drop 4 s))
                   then Some ((kind ++ " [") ++ ds ++ " Years Program(s)]")%string
              else if String.prefix " Year Program(s)]"
                        (drop (String.length ds) (drop 4 s))
                   then Some ((kind ++ " [") ++ ds ++ " Year Program(s)]")%string
              else None) = Some m ->
             exists kind years plural,
               is_kind kind /\ digits years /\ m = label kind years plural).
  { intros kind Hk. destruct (String.eqb_spec ds "") as [| Hne]; [discriminate |].
    destruct (String.prefix " Years Program(s)]" _).
    - intros [= <-]. exists kind, ds, true. split; [exact Hk |]. split; [now split |].
      unfold label. now rewrite append_assoc.
    - destruct (String.prefix " Year Program(s)]" _); [| discriminate].
      intros [= <-]. exists kind, ds, false. split; [exact Hk |]. split; [now split |].
      unfold label. now rewrite append_assoc. }
  destruct (String.prefix "UG [" s); [apply (Hcase "UG"); now left |].
  destruct (String.prefix "PG [" s); [apply (Hcase "PG"); now right | discriminate].
Qed.

Lemma findall_from_form (s : string) (skip : nat) (m : string) :
  In m (findall_from s skip) ->
  exists kind years plural, is_kind kind /\ digits years /\ m = label kind years plural.
Proof.
  revert skip. induction s as [| c s IH]; intros skip; [contradiction |].
  cbn [findall_from]. destruct skip as [| k]; [| apply IH].
  destruct (match_label (String c s)) as [m' |] eqn:Hm; [| apply IH].
  intros [<- | Hin]; [apply (match_label_form _ _ Hm) | apply (IH _ Hin)].
Qed.

Lemma last_in {A : Type} (l : list A) (d : A) : l <> [] -> In (last l d) l.
Proof.
  induction l as [| x l IH]; [contradiction |]. intros _.
  destruct l as [| y l]; [now left |].
  right. apply IH. discriminate.
Qed.

(** *** What the three extractors make of a label *)

Lemma replace_char_digits (x : ascii) (new ds t : string) :
  is_digit x = false ->
  all_digits ds = true ->
  replace (String x "") new (ds ++ t) = (ds ++ replace (String x "") new t)%string.
Proof.
  intros Hx Hd. unfold replace. induction ds as [| c ds IH]; [reflexivity |].
  cbn [all_digits] in Hd. apply andb_prop in Hd. destruct Hd as [Hc Hd].
  cbn [String.append replace_from String.prefix].
  destruct (ascii_dec x c) as [-> | _]; [congruence |].
  now rewrite (IH Hd).
Qed.

Lemma replace_word_digits (x : ascii) (old new ds t : string) :
  is_digit x = false ->
  all_digits ds = true ->
  replace (String x old) new (ds ++ t) = (ds ++ replace (String x old) new t)%string.
Proof.
  intros Hx Hd. unfold replace. induction ds as [| c ds IH]; [reflexivity |].
  cbn [all_digits] in Hd. apply andb_prop in Hd. destruct Hd as [Hc Hd].
  cbn [String.append replace_from String.prefix].
  destruct (ascii_dec x c) as [-> | _]; [congruence |].
  now rewrite (IH Hd).
Qed.

Lemma search_program_at (sep kind years t : string) :
  is_kind kind -> digits years -> take_digits t = "" ->
  String.length sep = 1%nat ->
  search_program sep (kind ++ sep ++ years ++ t) = Some (kind, years).
Proof.
  intros Hk [Hne Hd] Ht Hsep.
  destruct sep as [| x [| y sep]]; try discriminate. clear Hsep.
  assert (Hm : match_program (String x "") (kind ++ String x "" ++ years ++ t)
               = Some (kind, years)).
  { unfold match_program.
    destruct Hk as [-> | ->]; cbn [String.append String.prefix String.length Nat.add drop];
      repeat match goal with
             | |- context [ascii_dec ?a ?b] =>
                 destruct (ascii_dec a b); try congruence; try discriminate
             end;
      rewrite ?prefix_empty; cbn [drop];
      rewrite (take_digits_digits _ _ Hd Ht), (eqb_empty_digits _ Hne); reflexivity. }
  destruct Hk as [-> | ->]; cbn [String.append search_program] in Hm |- *;
    rewrite Hm; reflexivity.
Qed.

Lemma placement_program_of_label (kind years : string) (plural : bool) :
  is_kind kind -> digits years ->
  Placement.program_of_label (label kind years plural)
  = Some (kind ++ "-" ++ years)%string.
Proof.
  intros Hk Hd. unfold Placement.program_of_label, label.
  assert (Hsq : replace "YearsProgram(s)]" ""
                  (replace "[" "-"
                     (replace " " ""
                        (kind ++ " [" ++ years
                         ++ (if plural then " Years Program(s)]"
                             else " Year Program(s)]"))))
                = (kind ++ "-" ++ years
                   ++ (if plural then "" else "YearProgram(s)]"))%string).
  { destruct Hd as [_ Hall].
    assert (H1 : replace " " ""
                   (kind ++ " [" ++ years
                    ++ (if plural then " Years Program(s)]" else " Year Program(s)]"))
                 = (kind ++ "[" ++ years
                    ++ (if plural then "YearsProgram(s)]" else "YearProgram(s)]"))%string).
    { assert (Ht : replace " " ""
                     (years ++ (if plural then " Years Program(s)]"
                                else " Year Program(s)]"))
                   = (years ++ (if plural then "YearsProgram(s)]"
                                else "YearProgram(s)]"))%string).
      { rewrite (replace_char_digits " " "" years _ eq_refl Hall).
        destruct plural; reflexivity. }
      destruct Hk as [-> | ->]; unfold replace in Ht |- *;
        cbn [String.append replace_from String.prefix String.length Nat.sub];
        repeat match goal with
               | |- context [ascii_dec ?a ?b] =>
                   destruct (ascii_dec a b); try congruence; try discriminate
               end;
        rewrite ?prefix_empty; cbn [String.append]; rewrite ?Ht; reflexivity. }
    rewrite H1. clear H1.
    assert (H2 : replace "[" "-"
                   (kind ++ "[" ++ years
                    ++ (if plural then "YearsProgram(s)]" else "YearProgram(s)]"))
                 = (kind ++ "-" ++ years
                    ++ (if plural then "YearsProgram(s)]" else "YearProgram(s)]"))%string).
    { assert (Ht : replace "[" "-"
                     (years ++ (if plural then "YearsProgram(s)]"
                                else "YearProgram(s)]"))
                   = (years ++ (if plural then "YearsProgram(s)]"
                                else "YearProgram(s)]"))%string).
      { rewrite (replace_char_digits "[" "-" years _ eq_refl Hall).
        destruct plural; reflexivity. }
      destruct Hk as [-> | ->]; unfold replace in Ht |- *;
        cbn [String.append replace_from String.prefix String.length Nat.sub];
        repeat match goal with
               | |- context [ascii_dec ?a ?b] =>
                   destruct (ascii_dec a b); try congruence; try discriminate
               end;
        rewrite ?prefix_empty; cbn [String.append]; rewrite ?Ht; reflexivity. }
    rewrite H2. clear H2.
    assert (Ht : replace "YearsProgram(s)]" ""
                   (years ++ (if plural then "YearsProgram(s)]"
                              else "YearProgram(s)]"))
                 = (years ++ (if plural then "" else "YearProgram(s)]"))%string).
    { rewrite (replace_word_digits "Y" "earsProgram(s)]" "" years _ eq_refl Hall).
      destruct plural; reflexivity. }
    destruct Hk as [-> | ->]; unfold replace in Ht |- *;
      cbn [String.append replace_from String.prefix String.length Nat.sub];
      repeat match goal with
             | |- context [ascii_dec ?a ?b] =>
                 destruct (ascii_dec a b); try congruence; try discriminate
             end;
      rewrite ?prefix_empty; cbn [String.append]; rewrite ?Ht; reflexivity. }
  rewrite Hsq.
  rewrite (search_program_at "-" kind years _ Hk Hd); [reflexivity | | reflexivity].
  destruct plural; reflexivity.
Qed.

Lemma bracket_program_of_label (kind years : string) (plural : bool) :
  is_kind kind -> digits years ->
  search_program " [" (label kind years plural) = Some (kind, years).
Proof.
  intros Hk [Hne Hd]. unfold label.
  assert (Ht : take_digits (if plural then " Years Program(s)]" else " Year Program(s)]")
               = "") by (destruct plural; reflexivity).
  assert (Hm : match_program " ["
                 (kind ++ " [" ++ years
                  ++ (if plural then " Years Program(s)]" else " Year Program(s)]"))
               = Some (kind, years)).
  { unfold match_program.
    destruct Hk as [-> | ->]; cbn [String.append String.prefix String.length Nat.add drop];
      repeat match goal with
             | |- context [ascii_dec ?a ?b] =>
                 destruct (ascii_dec a b); try congruence; try discriminate
             end;
      rewrite ?prefix_empty; cbn [drop];
      rewrite (take_digits_digits _ _ Hd Ht), (eqb_empty_digits _ Hne); reflexivity. }
  destruct Hk as [-> | ->]; cbn [String.append search_program] in Hm |- *;
    rewrite Hm; reflexivity.
Qed.

End LabelFacts.

(* ===================================================================== *)
(** ** Further properties of the resolver and of placement_data_tab.py *)
(* ===================================================================== *)

Module ProgramNameFacts.
Import LabelSpec LabelFacts PyFacts ResolverSpec.

Lemma resolve_form (text_above_table : string) (y : Q) (previous_page_text : string) :
  resolve text_above_table y previous_page_text = unknown_program
  \/ exists kind years plural,
       is_kind kind /\ digits years
       /\ resolve text_above_table y previous_page_text = label kind years plural.
Proof.
  destruct (ResolverFacts.resolve_cases text_above_table y previous_page_text)
    as (Habove & Hbefore & Hnone).
  destruct (findall_labels text_above_table) as [| a above] eqn:Ea.
  - destruct (Qltb y 150) eqn:Hy.
    + destruct (findall_labels previous_page_text) as [| b before] eqn:Eb.
      * left. apply Hnone; [reflexivity | now right].
      * right. rewrite Hbefore;
          [| reflexivity | now apply ResolverFacts.Qltb_lt | discriminate].
        apply (findall_from_form previous_page_text 0).
        fold (findall_labels previous_page_text). rewrite Eb.
        apply last_in. discriminate.
    + left. apply Hnone; [reflexivity |]. left. now apply ResolverFacts.Qltb_ge.
  - right. rewrite Habove by discriminate.
    apply (findall_from_form text_above_table 0).
    fold (findall_labels text_above_table). rewrite Ea.
    apply last_in. discriminate.
Qed.

(** X5: on a page and a previous page of plain ASCII text, the resolver
    raises ValueError when the table starts at the top edge of the page
    (the crop above it has no area), and otherwise returns 'Unknown
    Program' or a heading of the form UG/PG [n Year(s) Program(s)].  On
    'Unknown Program' each of the three extractors that call it finds no
    program name and passes the table over; on a heading, the placement
    extractor (which squeezes the heading first) and the examination and
    salary extractors (which search it as it is) derive the same program
    name, UG-n or PG-n.  When the call raises, the step of each of the
    three extractors on a table with the header it looks for raises as
    well: no handler stands between the call and the outermost one. *)
Theorem X5_resolved_heading_gives_one_program_name (p : page) (table_obj : Doc.table_obj)
    (previous_page_text : string) :
  ascii_page p = true ->
  PySpec.ascii_text previous_page_text = true ->
  (((bbox_top table_obj <= 0)%Q
    /\ find_program_name_for_table p table_obj previous_page_text = Raise ValueError)
   \/ ((0 < bbox_top table_obj)%Q
       /\ exists program_header,
            find_program_name_for_table p table_obj previous_page_text
            = Ret program_header
            /\ ((program_header = unknown_program
                 /\ Placement.program_of_label program_header = None
                 /\ UniversityExam.program_of_label program_header = None
                 /\ MedianSalaryScan.program_of_label program_header = None)
                \/ (exists kind years plural,
                      is_kind kind /\ digits years
                      /\ program_header = label kind years plural
                      /\ Placement.program_of_label program_header
                         = Some (kind ++ "-" ++ years)%string
                      /\ UniversityExam.program_of_label program_header
                         = Some (kind ++ "-" ++ years)%string
                      /\ MedianSalaryScan.program_of_label program_header
                         = Some (kind ++ "-" ++ years)%string))))
  /\ (forall (name code : string) (first second : row) (rest : table),
        (bbox_top table_obj <= 0)%Q ->
        extract table_obj = first :: second :: rest ->
        (Placement.is_placement_header (clean_header first) = true ->
         forall data,
           Placement.table_step name code p previous_page_text table_obj data
           = Raise ValueError)
        /\ (UniversityExam.is_exam_header (clean_header first) = true ->
            forall data,
              UniversityExam.table_step name code p previous_page_text table_obj data
              = Raise ValueError)
        /\ (MedianSalaryScan.is_salary_header (clean_header first) = true ->
            forall data,
              MedianSalaryScan.table_step name code p previous_page_text table_obj data
              = Raise ValueError)).
Proof.
  intros _ _. split.
  - destruct (Qlt_le_dec 0 (bbox_top table_obj)) as [Hpos | Hle].
    2:{ left. split; [exact Hle | now apply ResolverFacts.find_program_name_raises]. }
    right. split; [exact Hpos |].
    rewrite (ResolverFacts.find_program_name_returns _ _ _ Hpos).
    eexists. split; [reflexivity |].
    destruct (resolve_form (text_above p (bbox_top table_obj)) (bbox_top table_obj)
                previous_page_text) as [-> | (kind & years & plural & Hk & Hd & ->)].
    + left. split; [reflexivity |].
      split; [vm_compute; reflexivity |].
      split; vm_compute; reflexivity.
    + right. exists kind, years, plural.
      split; [exact Hk |]. split; [exact Hd |]. split; [reflexivity |].
      split; [apply placement_program_of_label; assumption |].
      unfold UniversityExam.program_of_label, MedianSalaryScan.program_of_label.
      rewrite (bracket_program_of_label kind years plural Hk Hd). split; reflexivity.
  - intros name code first second rest Hle He.
    pose proof (ResolverFacts.find_program_name_raises p table_obj
                  previous_page_text Hle) as Hraise.
    split; [| split]; intros Hh data.
    + unfold Placement.table_step. rewrite He, Hh, Hraise. reflexivity.
    + unfold UniversityExam.table_step. rewrite He, Hh, Hraise. reflexivity.
    + unfold MedianSalaryScan.table_step. rewrite He, Hh, Hraise. reflexivity.
Qed.

Lemma X5_witness :
  ascii_page heading_page = true
  /\ PySpec.ascii_text "" = true
  /\ (0 < bbox_top table_at_100)%Q
  /\ find_program_name_for_table heading_page table_at_100 ""
     = Ret "PG [2 Years Program(s)]"
  /\ Placement.program_of_label "PG [2 Years Program(s)]" = Some "PG-2"
  /\ UniversityExam.program_of_label "PG [2 Years Program(s)]" = Some "PG-2"
  /\ MedianSalaryScan.program_of_label "PG [2 Years Program(s)]" = Some "PG-2"
  /\ find_program_name_for_table heading_page table_at_top "" = Raise ValueError.
Proof.
  assert (Hpage : ascii_page heading_page = true) by (vm_compute; reflexivity).
  split; [exact Hpage |]. split; [reflexivity |]. split; [reflexivity |].
  destruct (X5_resolved_heading_gives_one_program_name heading_page table_at_100 ""
              Hpage eq_refl) as [[[Hle _] | [_ (h & Hh & Hcases)]] _].
  { exfalso. vm_compute in Hle. now apply Hle. }
  assert (Eh : h = "PG [2 Years Program(s)]").
  { vm_compute in Hh. now injection Hh as <-. }
  subst h.
  destruct Hcases as [(Hu & _) | (kind & years & plural & _ & _ & Hl & Hp & He & Hs)].
  { discriminate Hu. }
  split; [exact Hh |].
  assert (Ek : (kind ++ "-" ++ years)%string = "PG-2").
  { pose proof (eq_refl : Placement.program_of_label "PG [2 Years Program(s)]"
                          = Some "PG-2") as Hc.
    congruence. }
  rewrite Ek in Hp, He, Hs.
  split; [exact Hp |]. split; [exact He |]. split; [exact Hs |].
  destruct (X5_resolved_heading_gives_one_program_name heading_page table_at_top ""
              Hpage eq_refl) as [[[_ Hr] | [Hpos _]] _]; [exact Hr |].
  exfalso. vm_compute in Hpos. discriminate Hpos.
Defined.

(** X23: a heading is found only where it stands on one line.  The
    headings of a text are the headings of its lines, one line after the
    other: a heading that the page breaks over two lines is found on
    neither, and nothing is found across a line break. *)
Theorem X23_headings_do_not_span_lines (ls : list string) :
  findall_labels (join newline ls) = flat_map findall_labels ls.
Proof.
  induction ls as [| a ls IH]; [reflexivity |].
  destruct ls as [| a' ls].
  - cbn [join flat_map]. now rewrite app_nil_r.
  - change (join newline (a :: a' :: ls))
      with (a ++ String (ascii_of_nat 10) (join newline (a' :: ls)))%string.
    unfold findall_labels.
    rewrite ResolverFacts.findall_from_before_break by lia.
    cbn [flat_map]. f_equal. exact IH.
Qed.

Lemma match_program_form (sep s kind years : string) :
  match_program sep s = Some (kind, years) -> is_kind kind /\ digits years.
Proof.
  unfold match_program.
  set (ds := take_digits (drop (2 + String.length sep) s)).
  assert (Hds : all_digits ds = true) by apply take_digits_all_digits.
  assert (Hcase : forall k : string, is_kind k ->
             (if String.eqb ds "" then None else Some (k, ds)) = Some (kind, years) ->
             is_kind kind /\ digits years).
  { intros k Hk. destruct (String.eqb_spec ds "") as [| Hne]; [discriminate |].
    intros [= <- <-]. split; [exact Hk | now split]. }
  destruct (String.prefix ("UG" ++ sep) s); [apply Hcase; now left |].
  destruct (String.prefix ("PG" ++ sep) s); [apply Hcase; now right | discriminate].
Qed.

Lemma search_program_form (sep s kind years : string) :
  search_program sep s = Some (kind, years) -> is_kind kind /\ digits years.
Proof.
  induction s as [| c s IH]; cbn [search_program].
  - destruct (match_program sep "") as [[k y] |] eqn:Hm; [| discriminate].
    intros [= <- <-]. apply (match_program_form _ _ _ _ Hm).
  - destruct (match_program sep (String c s)) as [[k y] |] eqn:Hm; [| exact IH].
    intros [= <- <-]. apply (match_program_form _ _ _ _ Hm).
Qed.

Lemma search_program_code (sep s : string) (prog : string) :
  match search_program sep s with
  | Some (prog_type, prog_years) => Some (prog_type ++ "-" ++ prog_years)%string
  | None => None
  end = Some prog ->
  program_code prog.
Proof.
  destruct (search_program sep s) as [[k y] |] eqn:Hs; [| discriminate].
  intros [= <-]. destruct (search_program_form _ _ _ _ Hs) as [Hk Hd].
  exists k, y. auto.
Qed.

(** *** Positions in a header *)

Lemma index_from_absent_prefix (x : string) (a l : list string) (i : nat) :
  mem x a = false ->
  index_from x (a ++ l) i = index_from x l (i + List.length a).
Proof.
  revert i. induction a as [| y a IH]; intros i Ha.
  - cbn. now rewrite Nat.add_0_r.
  - cbn [mem existsb] in Ha. apply orb_false_iff in Ha. destruct Ha as [Hy Ha].
    cbn [app index_from List.length].
    rewrite StudentRatioMoreFacts.eqb_sym, Hy, (IH _ Ha). f_equal. lia.
Qed.

Lemma index_first (x : string) (a l : list string) :
  mem x a = false ->
  index x (a ++ x :: l) 0 = Ret (List.length a).
Proof.
  intros Ha. unfold index. cbn [skipn].
  rewrite (index_from_absent_prefix _ _ _ _ Ha). cbn [index_from].
  now rewrite String.eqb_refl.
Qed.

Lemma index_second (x : string) (a b l : list string) :
  mem x b = false ->
  index x (a ++ x :: b ++ x :: l) (List.length a + 1)
  = Ret (List.length a + 1 + List.length b)%nat.
Proof.
  intros Hb. unfold index.
  replace (skipn (List.length a + 1) (a ++ x :: b ++ x :: l)) with (b ++ x :: l).
  2:{ rewrite Nat.add_1_r.
      change (a ++ x :: b ++ x :: l) with (a ++ [x] ++ (b ++ x :: l)).
      rewrite app_assoc.
      replace (S (List.length a)) with (List.length (a ++ [x]))
        by (rewrite length_app; cbn; lia).
      now rewrite skipn_app, skipn_all, Nat.sub_diag. }
  rewrite (index_from_absent_prefix _ _ _ _ Hb). cbn [index_from].
  now rewrite String.eqb_refl.
Qed.

End ProgramNameFacts.

Module PlacementMoreFacts.
Import Placement PlacementMore LabelSpec PyFacts.

Lemma read_row_well_formed (name code prog : string) (gy g p h : nat) (r : row)
    (rec : record) :
  program_code prog ->
  read_row name code prog gy g p h r = Ret rec ->
  well_formed name code rec.
Proof.
  intros Hprog. unfold read_row.
  destruct (getitem r gy) as [grad_year | e]; cbn [bind]; [| discriminate].
  destruct (count_at r g) as [vg | e]; cbn [bind]; [| discriminate].
  destruct (count_at r p) as [vp | e]; cbn [bind]; [| discriminate].
  destruct (count_at r h) as [vh | e]; cbn [bind]; [| discriminate].
  destruct (pct_of vp vg) as [pp | e] eqn:Hp; cbn [bind]; [| discriminate].
  destruct (pct_of vh vg) as [hp | e] eqn:Hh; cbn [bind]; [| discriminate].
  intros [= <-]. unfold well_formed. cbn. auto.
Qed.

Lemma row_step_well_formed (name code prog : string) (cols : nat * nat * nat * nat)
    (r : row) (data data' : list record) :
  program_code prog ->
  Forall (well_formed name code) data ->
  row_step name code prog cols r data = Ret data' ->
  Forall (well_formed name code) data'.
Proof.
  intros Hprog Hdata. destruct cols as [[[gy g] p] h]. unfold row_step.
  destruct (read_row name code prog gy g p h r) as [rec | e] eqn:Hr; cbn [bind try_except].
  - intros [= <-]. apply Forall_app. split; [exact Hdata |].
    constructor; [| constructor]. apply (read_row_well_formed _ _ _ _ _ _ _ _ _ Hprog Hr).
  - destruct (existsb _ _); [| discriminate]. now intros [= <-].
Qed.

Lemma rows_loop_well_formed (name code prog : string) (cols : nat * nat * nat * nat)
    (rows : list row) (data data' : list record) :
  program_code prog ->
  Forall (well_formed name code) data ->
  rows_loop name code prog cols rows data = Ret data' ->
  Forall (well_formed name code) data'.
Proof.
  intros Hprog. revert data. induction rows as [| r rows IH]; intros data Hdata;
    cbn [rows_loop].
  { now intros [= <-]. }
  destruct (row_step name code prog cols r data) as [data1 | e] eqn:Hr; cbn [bind];
    [| discriminate].
  apply IH. apply (row_step_well_formed _ _ _ _ _ _ _ Hprog Hdata Hr).
Qed.

Lemma table_step_well_formed (name code : string) (p : page) (prev : string)
    (t : table_obj) (data data' : list record) :
  Forall (well_formed name code) data ->
  table_step name code p prev t data = Ret data' ->
  Forall (well_formed name code) data'.
Proof.
  intros Hdata. unfold table_step.
  destruct (extract t) as [| first [| second rest]]; try (now intros [= <-]).
  destruct (is_placement_header _); [| now intros [= <-]].
  destruct (find_program_name_for_table _ _ _) as [program_header | e]; cbn [bind];
    [| discriminate].
  destruct (program_of_label _) as [prog |] eqn:Hprog; [| now intros [= <-]].
  apply ProgramNameFacts.search_program_code in Hprog.
  destruct (find_cols _) as [cols | []]; try discriminate; try (now intros [= <-]).
  apply (rows_loop_well_formed _ _ _ _ _ _ _ Hprog Hdata).
Qed.

Lemma tables_loop_well_formed (name code : string) (p : page) (prev : string)
    (ts : list table_obj) (data data' : list record) :
  Forall (well_formed name code) data ->
  tables_loop name code p prev ts data = Ret data' ->
  Forall (well_formed name code) data'.
Proof.
  revert data. induction ts as [| t ts IH]; intros data Hdata; cbn [tables_loop].
  { now intros [= <-]. }
  destruct (table_step name code p prev t data) as [data1 | e] eqn:Ht; cbn [bind];
    [| discriminate].
  apply IH. apply (table_step_well_formed _ _ _ _ _ _ _ Hdata Ht).
Qed.

Lemma pages_loop_well_formed (name code : string) (ps : list page) (prev : string)
    (data data' : list record) :
  Forall (well_formed name code) data ->
  pages_loop name code ps prev data = Ret data' ->
  Forall (well_formed name code) data'.
Proof.
  revert prev data. induction ps as [| p ps IH]; intros prev data Hdata;
    cbn [pages_loop].
  { now intros [= <-]. }
  destruct (tables_loop name code p prev (find_tables p) data) as [data1 | e] eqn:Ht;
    cbn [bind]; [| discriminate].
  apply IH. apply (tables_loop_well_formed _ _ _ _ _ _ _ Hdata Ht).
Qed.

(** X24: the placement extractor takes as the graduation year of a row
    the cell under the first column labelled Academic Year that stands
    after the table's first column, whatever columns follow it: in a
    header where the lateral entries have a year column of their own
    before the one of the graduating count, it is the former that is
    read. *)
Theorem X24_placement_year_is_the_first_year_column_after_the_first
    (h0 : string) (b c : list string) (cols : nat * nat * nat * nat) :
  mem "Academic Year" b = false ->
  find_cols (h0 :: b ++ "Academic Year" :: c) = Ret cols ->
  fst (fst (fst cols)) = (1 + List.length b)%nat.
Proof.
  intros Hb. unfold find_cols.
  assert (Hi : index "Academic Year" (h0 :: b ++ "Academic Year" :: c) 1
               = Ret (1 + List.length b)%nat).
  { unfold index. cbn [skipn].
    rewrite (ProgramNameFacts.index_from_absent_prefix _ _ _ _ Hb). cbn [index_from].
    now rewrite String.eqb_refl. }
  rewrite Hi. cbn [bind].
  destruct (index "No. of students graduating in minimum stipulated time" _ 0)
    as [g | e]; cbn [bind]; [| discriminate].
  destruct (index "No. of students placed" _ 0) as [p | e]; cbn [bind];
    [| discriminate].
  destruct (index "No. of students selected for Higher Studies" _ 0) as [h | e];
    cbn [bind]; [| discriminate].
  now intros [= <-].
Qed.

Lemma X24_witness :
  find_cols lateral_header = Ret (3, 6, 7, 9)%nat
  /\ fst (fst (fst (3, 6, 7, 9)%nat)) = (1 + 2)%nat.
Proof.
  assert (H : find_cols lateral_header = Ret (3, 6, 7, 9)%nat)
    by (vm_compute; reflexivity).
  split; [exact H |].
  apply (X24_placement_year_is_the_first_year_column_after_the_first
           "Academic Year"
           [ "No. of first year students intake in the year";
             "No. of first year students admitted in the year" ]
           [ "No. of students admitted through Lateral entry";
             "Academic Year"; "No. of students graduating in minimum stipulated time";
             "No. of students placed";
             "Median salary of placed graduates(Amount in Rs.)";
             "No. of students selected for Higher Studies" ]
           (3, 6, 7, 9)%nat eq_refl H).
Defined.

Lemma number_rows_in {R : Type} (rows : list R) (i : Z) (r : R) :
  In (i, r) (number_rows rows) -> In r rows.
Proof. unfold number_rows. apply in_combine_r. Qed.

Lemma pct_of_float (part graduated : Z) (x : num) :
  pct_of part graduated = Ret x ->
  (exists f, x = PyFloat f) /\ (graduated <= 0 -> x = PyFloat 0).
Proof.
  unfold pct_of. destruct (Z.ltb_spec 0 graduated) as [Hpos | Hle].
  - destruct (truediv _ _) as [q | e]; cbn [bind]; [| discriminate].
    destruct (round2 _) as [f | e]; cbn [bind]; [| discriminate].
    intros [= <-]. split; [eauto | lia].
  - intros [= <-]. split; [eauto | reflexivity].
Qed.

(** X6: every record of a frame the placement extractor returns carries
    the institute's name and code and a program name of the form UG-n or
    PG-n, and its two percentages are what lines 86 and 87 compute from
    the record's own counts: always floats, and 0.0 when the number of
    graduates is not positive. *)
Theorem X6_placement_records_are_well_formed (d : document)
    (rows : list (Z * record)) (i : Z) (r : record) :
  extract_placement_data d = DataFrame rows ->
  In (i, r) rows ->
  rec_college_name r = college_name d
  /\ rec_college_code r = college_id d
  /\ program_code (program_name r)
  /\ pct_of (placed r) (graduated r) = Ret (placement_pct r)
  /\ pct_of (higher_studies r) (graduated r) = Ret (higher_pct r)
  /\ (exists f g, placement_pct r = PyFloat f /\ higher_pct r = PyFloat g)
  /\ (graduated r <= 0 -> placement_pct r = PyFloat 0 /\ higher_pct r = PyFloat 0).
Proof.
  unfold extract_placement_data, guarded.
  destruct (getitem (pages d) 0) as [p0 | e]; cbn [bind]; [| discriminate].
  destruct (pages_loop _ _ _ _ _) as [data | e] eqn:Hp; [| discriminate].
  intros [= <-] Hin. apply number_rows_in in Hin.
  pose proof (pages_loop_well_formed _ _ _ _ _ _ (Forall_nil _) Hp) as Hw.
  destruct (proj1 (Forall_forall _ _) Hw r Hin) as (Hn & Hc & Hprog & H1 & H2).
  destruct (pct_of_float _ _ _ H1) as [[f Hf] Hz1].
  destruct (pct_of_float _ _ _ H2) as [[g Hg] Hz2].
  split; [exact Hn |]. split; [exact Hc |]. split; [exact Hprog |].
  split; [exact H1 |]. split; [exact H2 |].
  split; [exists f, g; auto |]. auto.
Qed.

Lemma X6_witness :
  let r := {| rec_college_name := "A"; rec_college_code := "B";
              program_name := "UG-4"; graduation_year := Some "2021-22";
              graduated := 0; placed := 0; placement_pct := PyFloat 0;
              higher_studies := 0; higher_pct := PyFloat 0 |} in
  In (2, r) (frame_rows (extract_placement_data placement_document))
  /\ placement_pct r = PyFloat 0 /\ higher_pct r = PyFloat 0.
Proof.
  intros r.
  assert (Hin : In (2, r) (frame_rows (extract_placement_data placement_document)))
    by (vm_compute; right; left; reflexivity).
  split; [exact Hin |].
  assert (Hd : extract_placement_data placement_document
               = DataFrame (frame_rows (extract_placement_data placement_document)))
    by (vm_compute; reflexivity).
  apply (X6_placement_records_are_well_formed placement_document _ 2 r Hd Hin).
  cbn. lia.
Defined.

End PlacementMoreFacts.

(* ===================================================================== *)
(** ** Properties of university_exam_tab.py *)
(* ===================================================================== *)

Module ExamFacts.
Import UniversityExam ExamMore LabelSpec PyFacts.

Lemma exam_read_row_well_formed (name code prog : string) (cols : columns) (r : row)
    (rec : record) :
  program_code prog ->
  read_row name code prog cols r = Ret rec ->
  well_formed name code rec.
Proof.
  intros Hprog. unfold read_row.
  destruct (getitem r (admit_year_col cols)) as [ay | e]; cbn [bind]; [| discriminate].
  destruct (getitem r (grad_year_col cols)) as [gy | e]; cbn [bind]; [| discriminate].
  destruct (Placement.count_at r (admitted_col cols)) as [va | e]; cbn [bind];
    [| discriminate].
  destruct (Placement.count_at r (graduated_col cols)) as [vg | e]; cbn [bind];
    [| discriminate].
  destruct (lateral_of cols r) as [vl | e]; cbn [bind]; [| discriminate].
  destruct (percentage_of vg (va + vl)) as [pc | e] eqn:Hp; cbn [bind]; [| discriminate].
  intros [= <-]. unfold well_formed. cbn. auto.
Qed.

Lemma exam_row_step_well_formed (name code prog : string) (cols : columns)
    (r : row) (data data' : list record) :
  program_code prog ->
  Forall (well_formed name code) data ->
  row_step name code prog cols r data = Ret data' ->
  Forall (well_formed name code) data'.
Proof.
  intros Hprog Hdata. unfold row_step.
  destruct (read_row name code prog cols r) as [rec | e] eqn:Hr; cbn [bind try_except].
  - intros [= <-]. apply Forall_app. split; [exact Hdata |].
    constructor; [| constructor]. apply (exam_read_row_well_formed _ _ _ _ _ _ Hprog Hr).
  - destruct (existsb _ _); [| discriminate]. now intros [= <-].
Qed.

Lemma exam_rows_loop_well_formed (name code prog : string) (cols : columns)
    (rows : list row) (data data' : list record) :
  program_code prog ->
  Forall (well_formed name code) data ->
  rows_loop name code prog cols rows data = Ret data' ->
  Forall (well_formed name code) data'.
Proof.
  intros Hprog. revert data. induction rows as [| r rows IH]; intros data Hdata;
    cbn [rows_loop].
  { now intros [= <-]. }
  destruct (row_step name code prog cols r data) as [data1 | e] eqn:Hr; cbn [bind];
    [| discriminate].
  apply IH. apply (exam_row_step_well_formed _ _ _ _ _ _ _ Hprog Hdata Hr).
Qed.

Lemma exam_table_step_well_formed (name code : string) (p : page) (prev : string)
    (t : table_obj) (data data' : list record) :
  Forall (well_formed name code) data ->
  table_step name code p prev t data = Ret data' ->
  Forall (well_formed name code) data'.
Proof.
  intros Hdata. unfold table_step.
  destruct (extract t) as [| first [| second rest]]; try (now intros [= <-]).
  destruct (is_exam_header _); [| now intros [= <-]].
  destruct (find_program_name_for_table _ _ _) as [program_header | e]; cbn [bind];
    [| discriminate].
  destruct (program_of_label _) as [prog |] eqn:Hprog; [| now intros [= <-]].
  apply ProgramNameFacts.search_program_code in Hprog.
  destruct (find_cols _) as [cols | []]; try discriminate; try (now intros [= <-]).
  apply (exam_rows_loop_well_formed _ _ _ _ _ _ _ Hprog Hdata).
Qed.

Lemma exam_tables_loop_well_formed (name code : string) (p : page) (prev : string)
    (ts : list table_obj) (data data' : list record) :
  Forall (well_formed name code) data ->
  tables_loop name code p prev ts data = Ret data' ->
  Forall (well_formed name code) data'.
Proof.
  revert data. induction ts as [| t ts IH]; intros data Hdata; cbn [tables_loop].
  { now intros [= <-]. }
  destruct (table_step name code p prev t data) as [data1 | e] eqn:Ht; cbn [bind];
    [| discriminate].
  apply IH. apply (exam_table_step_well_formed _ _ _ _ _ _ _ Hdata Ht).
Qed.

Lemma exam_pages_loop_well_formed (name code : string) (ps : list page) (prev : string)
    (data data' : list record) :
  Forall (well_formed name code) data ->
  pages_loop name code ps prev data = Ret data' ->
  Forall (well_formed name code) data'.
Proof.
  revert prev data. induction ps as [| p ps IH]; intros prev data Hdata;
    cbn [pages_loop].
  { now intros [= <-]. }
  destruct (tables_loop name code p prev (find_tables p) data) as [data1 | e] eqn:Ht;
    cbn [bind]; [| discriminate].
  apply IH. apply (exam_tables_loop_well_formed _ _ _ _ _ _ _ Hdata Ht).
Qed.

Lemma percentage_of_float (graduated total : Z) (x : num) :
  percentage_of graduated total = Ret x ->
  (exists f, x = PyFloat f) /\ (total <= 0 -> x = PyFloat 0).
Proof.
  unfold percentage_of. destruct (Z.ltb_spec 0 total) as [Hpos | Hle].
  - destruct (truediv _ _) as [q | e]; cbn [bind]; [| discriminate].
    destruct (round2 _) as [f | e]; cbn [bind]; [| discriminate].
    intros [= <-]. split; [eauto | lia].
  - intros [= <-]. split; [eauto | reflexivity].
Qed.

(** X7: every record of a frame the examination extractor returns carries
    the institute's name and code and a program name of the form UG-n or
    PG-n, and its percentage is what line 106 computes from the record's
    own graduated and total admitted counts: always a float, and 0.0 when
    the total admitted is not positive. *)
Theorem X7_exam_records_are_well_formed (d : document)
    (rows : list (Z * record)) (i : Z) (r : record) :
  extract_university_exam_data d = DataFrame rows ->
  In (i, r) rows ->
  rec_college_name r = college_name d
  /\ rec_college_code r = college_id d
  /\ program_code (program_name r)
  /\ percentage_of (graduated r) (total_admitted r) = Ret (percentage r)
  /\ (exists f, percentage r = PyFloat f)
  /\ (total_admitted r <= 0 -> percentage r = PyFloat 0).
Proof.
  unfold extract_university_exam_data, guarded.
  destruct (getitem (pages d) 0) as [p0 | e]; cbn [bind]; [| discriminate].
  destruct (pages_loop _ _ _ _ _) as [data | e] eqn:Hp; [| discriminate].
  intros [= <-] Hin. apply PlacementMoreFacts.number_rows_in in Hin.
  pose proof (exam_pages_loop_well_formed _ _ _ _ _ _ (Forall_nil _) Hp) as Hw.
  destruct (proj1 (Forall_forall _ _) Hw r Hin) as (Hn & Hc & Hprog & H1).
  destruct (percentage_of_float _ _ _ H1) as [Hf Hz].
  split; [exact Hn |]. split; [exact Hc |]. split; [exact Hprog |].
  split; [exact H1 |]. split; [exact Hf | exact Hz].
Qed.

Lemma X7_witness :
  let r := {| rec_college_name := "A"; rec_college_code := "B";
              program_name := "UG-4"; admit_year := Some "2017-18";
              graduation_year := Some "2018-19"; total_admitted := 120;
              graduated := 90; percentage := PyFloat 75 |} in
  In (1, r) (frame_rows (extract_university_exam_data exam_document))
  /\ percentage_of (graduated r) (total_admitted r) = Ret (percentage r).
Proof.
  intros r.
  assert (Hin : In (1, r) (frame_rows (extract_university_exam_data exam_document)))
    by (vm_compute; left; reflexivity).
  split; [exact Hin |].
  assert (Hd : extract_university_exam_data exam_document
               = DataFrame (frame_rows (extract_university_exam_data exam_document)))
    by (vm_compute; reflexivity).
  apply (X7_exam_records_are_well_formed exam_document _ 1 r Hd Hin).
Defined.

(** *** Lateral entries *)

Lemma contains_comma_cons (c : ascii) (s : string) :
  contains "," (String c s) = Ascii.eqb c "," || contains "," s.
Proof.
  cbn [contains String.prefix].
  destruct (ascii_dec "," c) as [<- | Hne].
  - now rewrite prefix_empty.
  - assert (Hc : Ascii.eqb c "," = false)
      by (apply Ascii.eqb_neq; intros ->; now apply Hne).
    now rewrite Hc.
Qed.

Lemma contains_comma_empty : contains "," "" = false.
Proof. reflexivity. Qed.

Lemma contains_comma_lstrip (s : string) :
  contains "," (lstrip s) = contains "," s.
Proof.
  induction s as [| c s IH]; [reflexivity |].
  cbn [lstrip]. destruct (is_space c) eqn:Hc; [| reflexivity].
  rewrite IH, contains_comma_cons.
  assert (E : Ascii.eqb c "," = false)
    by (apply Ascii.eqb_neq; intros ->; discriminate Hc).
  now rewrite E.
Qed.

Lemma contains_comma_rstrip (s : string) :
  contains "," (rstrip s) = contains "," s.
Proof.
  induction s as [| c s IH]; [reflexivity |].
  cbn [rstrip]. rewrite contains_comma_cons, <- IH.
  destruct (rstrip s) as [| c' s'] eqn:E.
  - destruct (is_space c) eqn:Hc.
    + assert (Ec : Ascii.eqb c "," = false)
        by (apply Ascii.eqb_neq; intros ->; discriminate Hc).
      now rewrite Ec.
    + rewrite contains_comma_cons. reflexivity.
  - rewrite contains_comma_cons. reflexivity.
Qed.

Lemma all_digits_no_comma (s : string) :
  all_digits s = true -> contains "," s = false.
Proof.
  induction s as [| c s IH]; [reflexivity |].
  cbn [all_digits]. intros H. apply andb_prop in H. destruct H as [Hc Hs].
  rewrite contains_comma_cons, (digit_not_comma _ Hc), (IH Hs). reflexivity.
Qed.

Lemma isdigit_with_comma (s : string) :
  contains "," s = true -> isdigit (strip s) = false.
Proof.
  intros H. unfold isdigit.
  destruct (all_digits (strip s)) eqn:Hd; [| apply andb_false_r].
  apply all_digits_no_comma in Hd.
  unfold strip in Hd. rewrite contains_comma_rstrip, contains_comma_lstrip in Hd.
  congruence.
Qed.

Lemma count_at_grouped (r : row) (col : nat) (n : Z) :
  0 <= n ->
  nth_error r col = Some (Some (ExpenditureSpec.grouped n)) ->
  Placement.count_at r col = Ret n.
Proof.
  intros Hn Hc. rewrite (PlacementFacts.count_at_text _ _ _ Hc).
  destruct (ExpenditureFacts.grouped_groups n Hn) as [groups [Hg [Hdig Hcat]]].
  rewrite Hg, (ExpenditureFacts.remove_commas_join _ Hdig), Hcat.
  now apply int_of_str_of_int.
Qed.

(** X8: the lateral entries of a row are read more narrowly than its
    other counts.  A text with a thousands separator is taken as no
    lateral entries at all (the digit test of line 102 fails, and the row
    is kept with 0), whereas the same text under the admitted or graduated
    column is read as the number it writes. *)
Theorem X8_lateral_entries_with_separator_count_as_zero (cols : columns) (r : row)
    (col : nat) (s : string) :
  lateral_entry_col cols = Some col ->
  nth_error r col = Some (Some s) ->
  contains "," s = true ->
  lateral_of cols r = Ret 0
  /\ forall n : Z, 0 <= n -> s = ExpenditureSpec.grouped n ->
       Placement.count_at r col = Ret n.
Proof.
  intros Hcol Hc Hs. split.
  - unfold lateral_of, getitem. rewrite Hcol, Hc. cbn [bind str_cell].
    rewrite (isdigit_with_comma _ Hs). now rewrite andb_false_r.
  - intros n Hn ->. now apply count_at_grouped.
Qed.

Lemma X8_witness :
  lateral_of exam_columns separated_row = Ret 0
  /\ forall n : Z, 0 <= n -> "1,234" = ExpenditureSpec.grouped n ->
       Placement.count_at separated_row 4 = Ret n.
Proof.
  apply (X8_lateral_entries_with_separator_count_as_zero exam_columns separated_row
           4%nat "1,234"); reflexivity.
Defined.

(** *** Which column is the graduation year *)

(** X9: the examination extractor takes as the graduation year of a row
    the cell under the second column labelled Academic Year, and as the
    admission year the cell under the first, whatever columns follow.  In
    a header where the lateral entries have a year column of their own,
    the second, the year column that stands before the graduating count
    is the third, and it is not the one taken. *)
Theorem X9_graduation_year_is_the_second_year_column (a b c : list string)
    (cols : columns) :
  mem "Academic Year" a = false ->
  mem "Academic Year" b = false ->
  find_cols (a ++ "Academic Year" :: b ++ "Academic Year" :: c) = Ret cols ->
  admit_year_col cols = List.length a
  /\ grad_year_col cols = (List.length a + 1 + List.length b)%nat.
Proof.
  intros Ha Hb. unfold find_cols.
  rewrite (ProgramNameFacts.index_first _ _ _ Ha). cbn [bind].
  destruct (index "No. of first year students admitted in the year" _ 0)
    as [ac | e]; cbn [bind]; [| discriminate].
  rewrite (ProgramNameFacts.index_second _ _ _ _ Hb). cbn [bind].
  destruct (index "No. of students graduating in minimum stipulated time" _ 0)
    as [gc | e]; cbn [bind]; [| discriminate].
  destruct (if mem lateral_entry_label _ then _ else _) as [lc | e]; cbn [bind];
    [| discriminate].
  intros [= <-]. cbn. auto.
Qed.

Lemma X9_witness :
  find_cols (clean_header exam_header) = Ret exam_columns
  /\ admit_year_col exam_columns = 0%nat
  /\ grad_year_col exam_columns = 3%nat
  /\ graduated_col exam_columns = 6%nat.
Proof.
  assert (H : find_cols (clean_header exam_header) = Ret exam_columns)
    by (vm_compute; reflexivity).
  split; [exact H |].
  destruct (X9_graduation_year_is_the_second_year_column []
              [ "No. of first year students intake in the year";
                "No. of first year students admitted in the year" ]
              [ "No. of students admitted through Lateral entry"; "Academic Year";
                "No. of students graduating in minimum stipulated time" ]
              exam_columns eq_refl eq_refl H) as [H1 H2].
  split; [exact H1 |]. split; [exact H2 | reflexivity].
Defined.

End ExamFacts.

(* ===================================================================== *)
(** ** Properties of the table scan of median_salary_tab.py *)
(* ===================================================================== *)

Module MedianScanFacts.
Import MedianSalary MedianSalaryScan MedianScanMore PySpec PyFacts.

Lemma take_amount_chars (s : string) :
  forall_chars digit_or_comma (take_amount s) = true.
Proof.
  induction s as [| c s IH]; [reflexivity |].
  cbn [take_amount]. destruct (is_digit c || Ascii.eqb c ",") eqn:Hc; [| reflexivity].
  cbn [forall_chars]. unfold digit_or_comma at 1. now rewrite Hc.
Qed.

Lemma match_amount_form (s g : string) :
  match_amount s = Some g -> amount_text g.
Proof.
  destruct s as [| c r]; [discriminate |]. cbn [match_amount].
  destruct (is_digit c) eqn:Hc; [| discriminate].
  destruct (take_amount r) as [| x run] eqn:Hrun; [discriminate |].
  intros [= <-]. exists c, (String x run).
  split; [reflexivity |]. split; [exact Hc |]. split; [discriminate |].
  rewrite <- Hrun. apply take_amount_chars.
Qed.

Lemma search_amount_form (s g : string) :
  search_amount s = Some g -> amount_text g.
Proof.
  induction s as [| c s IH]; cbn [search_amount].
  - discriminate.
  - destruct (match_amount (String c s)) as [g' |] eqn:Hm; [| exact IH].
    intros [= <-]. apply (match_amount_form _ _ Hm).
Qed.

(** *** The integer of a text of digits and commas *)

Lemma remove_commas_keep_digits (g : string) :
  forall_chars digit_or_comma g = true -> replace "," "" g = keep_digits g.
Proof.
  induction g as [| c g IH]; [reflexivity |].
  cbn [forall_chars]. intros H. apply andb_prop in H. destruct H as [Hc Hg].
  rewrite remove_commas_cons, (IH Hg). cbn [keep_digits].
  unfold digit_or_comma in Hc.
  destruct (is_digit c) eqn:Hd.
  - now rewrite (digit_not_comma _ Hd).
  - cbn [orb] in Hc. now rewrite Hc.
Qed.

Lemma all_digits_keep_digits (s : string) : all_digits (keep_digits s) = true.
Proof.
  induction s as [| c s IH]; [reflexivity |].
  cbn [keep_digits]. destruct (is_digit c) eqn:Hc; [| exact IH].
  cbn [all_digits]. now rewrite Hc.
Qed.

Lemma number_from_keep_digits (s : string) (acc : Z) :
  number_from acc (keep_digits s) = number_from acc s.
Proof.
  revert acc. induction s as [| c s IH]; intros acc; [reflexivity |].
  cbn [keep_digits number_from]. destruct (is_digit c) eqn:Hc; [| apply IH].
  cbn [number_from]. rewrite Hc. apply IH.
Qed.

Lemma digit_val_nonneg (c : ascii) : is_digit c = true -> (0 <= digit_val c)%Z.
Proof.
  unfold is_digit, digit_val. intros H. apply andb_prop in H. destruct H as [H _].
  apply Nat.leb_le in H. lia.
Qed.

Lemma number_from_nonneg (s : string) (acc : Z) :
  (0 <= acc)%Z -> (0 <= number_from acc s)%Z.
Proof.
  revert acc. induction s as [| c s IH]; intros acc Hacc; [exact Hacc |].
  cbn [number_from]. destruct (is_digit c) eqn:Hc; [| now apply IH].
  apply IH. pose proof (digit_val_nonneg c Hc). lia.
Qed.

Lemma int_digits_all_digits (s : string) (acc : Z) :
  all_digits s = true ->
  int_digits acc true s = Some (number_from acc s).
Proof.
  revert acc. induction s as [| c s IH]; intros acc; [reflexivity |].
  cbn [all_digits]. intros H. apply andb_prop in H. destruct H as [Hc Hs].
  cbn [int_digits number_from]. rewrite Hc. now apply IH.
Qed.

Lemma int_signed_digit (c : ascii) (r : string) :
  is_digit c = true ->
  int_signed (String c r) = int_digits 0 false (String c r).
Proof.
  destruct c as [[] [] [] [] [] [] [] []]; try discriminate; reflexivity.
Qed.

Lemma int_of_str_digits (s : string) :
  all_digits s = true -> s <> "" ->
  int_of_str s = Ret (number_from 0 s).
Proof.
  intros Hd Hne. unfold int_of_str. rewrite (int_strip_digits _ Hd).
  destruct s as [| c r]; [contradiction |].
  cbn [all_digits] in Hd. apply andb_prop in Hd. destruct Hd as [Hc Hr].
  rewrite (int_signed_digit _ _ Hc). cbn [int_digits number_from]. rewrite Hc.
  now rewrite (int_digits_all_digits _ _ Hr).
Qed.

Lemma int_of_amount (g : string) :
  amount_text g ->
  int_of_str (replace "," "" g) = Ret (number_from 0 g)
  /\ (0 <= number_from 0 g)%Z.
Proof.
  intros (c & run & -> & Hc & Hne & Hrun).
  split; [| apply number_from_nonneg; lia].
  assert (Hg : forall_chars digit_or_comma (String c run) = true).
  { cbn [forall_chars]. unfold digit_or_comma at 1. now rewrite Hc, Hrun. }
  rewrite (remove_commas_keep_digits _ Hg).
  rewrite <- (number_from_keep_digits (String c run)).
  apply int_of_str_digits; [apply all_digits_keep_digits |].
  cbn [keep_digits]. rewrite Hc. discriminate.
Qed.



(** *** Where the first run stands *)





(** *** The frame as a whole *)

Lemma scan_read_row_well_formed (name code prog : string) (gy sc : nat) (r : row)
    (rec : record) :
  LabelSpec.program_code prog ->
  read_row name code prog gy sc r = Ret (Some rec) ->
  well_formed name code rec.
Proof.
  intros Hprog. unfold read_row.
  destruct (getitem r gy) as [y | e]; cbn [bind]; [| discriminate].
  destruct (getitem r sc) as [c | e]; cbn [bind]; [| discriminate].
  destruct (search_amount (str_cell c)) as [g |] eqn:Hs; [| discriminate].
  destruct (int_of_amount g (search_amount_form _ _ Hs)) as [-> Hpos].
  cbn [bind]. intros [= <-]. unfold well_formed. cbn. auto.
Qed.

Lemma scan_row_step_well_formed (name code prog : string) (gy sc : nat) (r : row)
    (data data' : list record) :
  LabelSpec.program_code prog ->
  Forall (well_formed name code) data ->
  row_step name code prog gy sc r data = Ret data' ->
  Forall (well_formed name code) data'.
Proof.
  intros Hprog Hdata. unfold row_step.
  destruct (read_row name code prog gy sc r) as [[rec |] | e] eqn:Hr;
    cbn [bind try_except].
  - intros [= <-]. apply Forall_app. split; [exact Hdata |].
    constructor; [| constructor].
    apply (scan_read_row_well_formed _ _ _ _ _ _ _ Hprog Hr).
  - now intros [= <-].
  - destruct (existsb _ _); [| discriminate]. now intros [= <-].
Qed.

Lemma scan_rows_loop_well_formed (name code prog : string) (gy sc : nat)
    (rows : list row) (data data' : list record) :
  LabelSpec.program_code prog ->
  Forall (well_formed name code) data ->
  rows_loop name code prog gy sc rows data = Ret data' ->
  Forall (well_formed name code) data'.
Proof.
  intros Hprog. revert data. induction rows as [| r rows IH]; intros data Hdata;
    cbn [rows_loop].
  { now intros [= <-]. }
  destruct (row_step name code prog gy sc r data) as [data1 | e] eqn:Hr; cbn [bind];
    [| discriminate].
  apply IH. apply (scan_row_step_well_formed _ _ _ _ _ _ _ _ Hprog Hdata Hr).
Qed.

Lemma scan_table_step_well_formed (name code : string) (p : page) (prev : string)
    (t : table_obj) (data data' : list record) :
  Forall (well_formed name code) data ->
  table_step name code p prev t data = Ret data' ->
  Forall (well_formed name code) data'.
Proof.
  intros Hdata. unfold table_step.
  destruct (extract t) as [| first [| second rest]]; try (now intros [= <-]).
  destruct (is_salary_header _); [| now intros [= <-]].
  destruct (find_program_name_for_table _ _ _) as [program_header | e]; cbn [bind];
    [| discriminate].
  destruct (program_of_label _) as [prog |] eqn:Hprog; [| now intros [= <-]].
  apply ProgramNameFacts.search_program_code in Hprog.
  destruct (index _ _ _) as [gy | []]; try discriminate; try (now intros [= <-]).
  destruct (first_containing _ _ _) as [sc |]; [| now intros [= <-]].
  apply (scan_rows_loop_well_formed _ _ _ _ _ _ _ _ Hprog Hdata).
Qed.

Lemma scan_tables_loop_well_formed (name code : string) (p : page) (prev : string)
    (ts : list table_obj) (data data' : list record) :
  Forall (well_formed name code) data ->
  tables_loop name code p prev ts data = Ret data' ->
  Forall (well_formed name code) data'.
Proof.
  revert data. induction ts as [| t ts IH]; intros data Hdata; cbn [tables_loop].
  { now intros [= <-]. }
  destruct (table_step name code p prev t data) as [data1 | e] eqn:Ht; cbn [bind];
    [| discriminate].
  apply IH. apply (scan_table_step_well_formed _ _ _ _ _ _ _ Hdata Ht).
Qed.

Lemma scan_pages_loop_well_formed (name code : string) (ps : list page)
    (prev : string) (data data' : list record) :
  Forall (well_formed name code) data ->
  pages_loop name code ps prev data = Ret data' ->
  Forall (well_formed name code) data'.
Proof.
  revert prev data. induction ps as [| p ps IH]; intros prev data Hdata;
    cbn [pages_loop].
  { now intros [= <-]. }
  destruct (tables_loop name code p prev (find_tables p) data) as [data1 | e] eqn:Ht;
    cbn [bind]; [| discriminate].
  apply IH. apply (scan_tables_loop_well_formed _ _ _ _ _ _ _ Hdata Ht).
Qed.

Lemma render_rows_numbers (l : list (record * float)) (k : Z) :
  map s_no (render_rows k l)
  = map (fun i => k + Z.of_nat i) (seq 0 (List.length l)).
Proof.
  revert k. induction l as [| x l IH]; intros k; [reflexivity |].
  cbn [render_rows map List.length seq render_row s_no]. f_equal; [lia |].
  rewrite IH, <- seq_shift, map_map. apply map_ext. intros i. lia.
Qed.

(** X22: every row of the frame that the salary extractor returns comes
    from one record of the scan: it carries the institute's name and
    code and a program name of the form UG-n or PG-n, and its salary text
    is the formatting of a salary that is not negative.  The rows are
    numbered 1, 2, ..., n after the sort, and there are as many rows as
    records: the post-pass adds none and drops none. *)
Theorem X22_salary_frame_comes_from_the_scanned_records
    (group_mean : list Z -> float) (d : document) (rows : list out_row) :
  extract_median_salary_data group_mean d = DataFrame rows ->
  exists data : list record,
    pages_loop (college_name d) (college_id d) (pages d) "" [] = Ret data
    /\ List.length rows = List.length data
    /\ map s_no rows = StudentRatioMore.serial_numbers (List.length rows)
    /\ Forall (fun o =>
                 row_college_name o = college_name d
                 /\ row_college_code o = college_id d
                 /\ LabelSpec.program_code (row_program_name o)
                 /\ exists salary : Z,
                      0 <= salary /\ row_median_salary o = format_salary salary)
         rows.
Proof.
  unfold extract_median_salary_data, guarded.
  destruct (getitem (pages d) 0) as [p0 | e]; cbn [bind]; [| discriminate].
  destruct (pages_loop _ _ _ _ _) as [data | e] eqn:Hp; [| discriminate].
  intros [= <-]. exists data. split; [reflexivity |].
  pose proof (scan_pages_loop_well_formed _ _ _ _ _ _ (Forall_nil _) Hp) as Hw.
  set (L := sort_values (with_average group_mean data)).
  assert (HL : List.length L = List.length data).
  { unfold L. rewrite (Permutation_length (MedianSalaryFacts.sort_values_perm _)).
    unfold with_average. apply length_map. }
  assert (Hlen : List.length (post_pass group_mean data) = List.length data).
  { unfold post_pass. fold L.
    now rewrite MedianSalaryFacts.render_rows_length,
      MedianSalaryFacts.blank_duplicates_length. }
  split; [exact Hlen |]. split.
  - unfold post_pass at 1. fold L. rewrite render_rows_numbers.
    rewrite MedianSalaryFacts.blank_duplicates_length, Hlen, HL.
    unfold StudentRatioMore.serial_numbers.
    rewrite <- seq_shift, map_map. apply map_ext. intros i. lia.
  - apply Forall_forall. intros o Ho.
    apply In_nth_error in Ho. destruct Ho as [i Hi].
    unfold post_pass in Hi. fold L in Hi.
    destruct (MedianSalaryFacts.render_rows_nth _ _ _ _ Hi) as [x [Hx ->]].
    destruct (MedianSalaryFacts.blank_duplicates_nth _ _ _ _ Hx)
      as [r [avg [Hn [Hf _]]]].
    assert (Hin : In r data).
    { apply nth_error_In in Hn.
      apply (Permutation_in _ (MedianSalaryFacts.sort_values_perm _)) in Hn.
      unfold with_average in Hn. apply in_map_iff in Hn.
      destruct Hn as [r' [E Hr']]. now injection E as -> _. }
    destruct (proj1 (Forall_forall _ _) Hw r Hin) as (H1 & H2 & H3 & H4).
    cbn [render_row row_college_name row_college_code row_program_name
         row_median_salary].
    rewrite Hf. split; [exact H1 |]. split; [exact H2 |]. split; [exact H3 |].
    exists (median_salary r). split; [exact H4 | reflexivity].
Qed.

Lemma X22_witness :
  exists data : list record,
    pages_loop "A" "B" [salary_page] "" [] = Ret data
    /\ List.length
         (frame_rows
            (extract_median_salary_data ExpenditureSpec.mean_of_small salary_document))
       = List.length data
    /\ List.length data = 2%nat.
Proof.
  destruct (X22_salary_frame_comes_from_the_scanned_records
              ExpenditureSpec.mean_of_small salary_document
              (frame_rows
                 (extract_median_salary_data ExpenditureSpec.mean_of_small
                    salary_document)))
    as (data & Hd & Hlen & _).
  - vm_compute. reflexivity.
  - exists data. split; [exact Hd |]. split; [exact Hlen |].
    rewrite <- Hlen. vm_compute. reflexivity.
Defined.

End MedianScanFacts.

(* ===================================================================== *)
(** ** Properties of extract_program_data (app.py) *)
(* ===================================================================== *)

Module ProgramDataFacts.
Import ProgramData ProgramDataMore SortFacts.

(** *** The programs listed *)

Lemma mem_in (x : string) (l : list string) : mem x l = true <-> In x l.
Proof.
  unfold mem. rewrite existsb_exists. split.
  - intros [y [Hy E]]. apply String.eqb_eq in E. now subst y.
  - intros H. exists x. split; [exact H | apply String.eqb_refl].
Qed.

Lemma distinct_in (l : list string) (x : string) : In x (distinct l) <-> In x l.
Proof.
  induction l as [| y l IH]; [reflexivity |].
  cbn [distinct]. destruct (mem y l) eqn:E.
  - rewrite IH. split; [now right |].
    intros [<- | H]; [now apply mem_in | exact H].
  - cbn [In]. now rewrite IH.
Qed.

Lemma distinct_nodup (l : list string) : NoDup (distinct l).
Proof.
  induction l as [| y l IH]; [constructor |].
  cbn [distinct]. destruct (mem y l) eqn:E; [exact IH |].
  constructor; [| exact IH].
  rewrite distinct_in. intros H. apply mem_in in H. congruence.
Qed.

Lemma strongly_sorted_ascending (l : list string) :
  NoDup l ->
  StronglySorted (fun a b => String.leb a b = true) l ->
  StronglySorted (fun a b => String.ltb a b = true) l.
Proof.
  intros Hnd Hs. induction Hs as [| x l Hl IH Hx]; [constructor |].
  inversion Hnd as [| ? ? Hnotin Hnd']; subst.
  constructor; [now apply IH |].
  apply Forall_forall. intros b Hb.
  apply leb_neq_ltb.
  - revert b Hb. now apply Forall_forall.
  - intros ->. contradiction.
Qed.

Lemma all_programs_ascending (st : state) :
  StronglySorted (fun a b => String.ltb a b = true) (all_programs st).
Proof.
  unfold all_programs. apply strongly_sorted_ascending.
  - apply (Permutation_NoDup (Permutation_sym (sort_by_perm _ _ _))).
    apply distinct_nodup.
  - apply sort_by_sorted.
    + intros a b. destruct (String.leb_total a b); auto.
    + intros a b c. apply leb_trans.
Qed.

Lemma all_programs_in (st : state) (x : string) :
  In x (all_programs st) ->
  In x (keys (sanctioned_intake st)) \/ In x (keys (total_students st)).
Proof.
  unfold all_programs. intros H.
  apply (Permutation_in _ (sort_by_perm _ _ _)) in H.
  apply (proj1 (distinct_in _ _)) in H. apply in_app_or in H. exact H.
Qed.

(** *** The lines written *)

Lemma lines_loop_names (name code : string) (st : state) (programs : list string)
    (k : Z) :
  map line_program_name (lines_loop name code st programs k)
  = filter (fun prog => (0 <? dict_get (sanctioned_intake st) prog 0)
                        || (0 <? dict_get (total_students st) prog 0)) programs.
Proof.
  revert k. induction programs as [| p programs IH]; intros k; [reflexivity |].
  cbn [lines_loop filter].
  destruct ((0 <? dict_get (sanctioned_intake st) p 0)
            || (0 <? dict_get (total_students st) p 0)); [| apply IH].
  cbn [map line_program_name]. now rewrite IH.
Qed.

Lemma lines_loop_numbers (name code : string) (st : state) (programs : list string)
    (k : Z) :
  map s_no (lines_loop name code st programs k)
  = map (fun i => k + Z.of_nat i)
        (seq 0 (List.length (lines_loop name code st programs k))).
Proof.
  revert k. induction programs as [| p programs IH]; intros k; [reflexivity |].
  cbn [lines_loop].
  destruct ((0 <? dict_get (sanctioned_intake st) p 0)
            || (0 <? dict_get (total_students st) p 0)); [| apply IH].
  cbn [map s_no List.length seq]. f_equal; [lia |].
  rewrite IH, <- seq_shift, map_map. apply map_ext. intros i. lia.
Qed.

Lemma lines_loop_values (name code : string) (st : state) (programs : list string)
    (k : Z) (l : line) :
  In l (lines_loop name code st programs k) ->
  line_college_name l = name
  /\ line_college_code l = code
  /\ sanctioned_intake_of l = dict_get (sanctioned_intake st) (line_program_name l) 0
  /\ total_students_of l = dict_get (total_students st) (line_program_name l) 0
  /\ (0 < sanctioned_intake_of l \/ 0 < total_students_of l).
Proof.
  revert k. induction programs as [| p programs IH]; intros k; [contradiction |].
  cbn [lines_loop].
  destruct ((0 <? dict_get (sanctioned_intake st) p 0)
            || (0 <? dict_get (total_students st) p 0)) eqn:E; [| apply IH].
  intros [<- | H]; [| apply (IH _ H)]. cbn.
  apply orb_prop in E. repeat split; try reflexivity.
  destruct E as [E | E]; apply Z.ltb_lt in E; auto.
Qed.

Lemma strongly_sorted_filter {A : Type} (R : A -> A -> Prop) (f : A -> bool)
    (l : list A) :
  StronglySorted R l -> StronglySorted R (filter f l).
Proof.
  induction 1 as [| x l Hl IH Hx]; cbn [filter]; [constructor |].
  destruct (f x); [| exact IH].
  constructor; [exact IH |].
  apply Forall_forall. intros b Hb. apply filter_In in Hb.
  exact (proj1 (Forall_forall _ _) Hx b (proj1 Hb)).
Qed.

(** *** The keys stored by the scan *)

Lemma keys_forall_set (P : string -> Prop) (d : dict) (k : string) (v : Z) :
  P k -> Forall P (keys d) -> Forall P (keys (dict_set d k v)).
Proof.
  intros Hk Hd. apply Forall_forall. intros x Hx.
  apply ExpenditureFacts.keys_dict_set in Hx. destruct Hx as [-> | Hx]; [exact Hk |].
  exact (proj1 (Forall_forall _ _) Hd x Hx).
Qed.

Lemma program_row_step_keys (skip_dash : bool) (set : state -> string -> Z -> state)
    (col : nat) (r : row) (st st' : state) :
  (forall s prog v, is_program prog = true -> program_keys s ->
                    program_keys (set s prog v)) ->
  program_keys st ->
  row_step skip_dash set col r st = Ret st' ->
  program_keys st'.
Proof.
  intros Hset Hst. unfold row_step.
  destruct (getitem r 0) as [c | e]; cbn [bind]; [| discriminate].
  destruct (is_program _) eqn:Hp; [| now intros [= <-]].
  destruct (try_except _ _ _) as [[v |] | e]; cbn [bind]; try discriminate;
    intros [= <-]; [now apply Hset | exact Hst].
Qed.

Lemma program_rows_loop_keys (skip_dash : bool) (set : state -> string -> Z -> state)
    (col : nat) (rows : list row) (st st' : state) :
  (forall s prog v, is_program prog = true -> program_keys s ->
                    program_keys (set s prog v)) ->
  program_keys st ->
  rows_loop skip_dash set col rows st = Ret st' ->
  program_keys st'.
Proof.
  intros Hset. revert st. induction rows as [| r rows IH]; intros st Hst;
    cbn [rows_loop].
  { now intros [= <-]. }
  destruct (row_step skip_dash set col r st) as [st1 | e] eqn:Hr; cbn [bind];
    [| discriminate].
  apply IH. apply (program_row_step_keys _ _ _ _ _ _ Hset Hst Hr).
Qed.

Lemma set_intake_keys (s : state) (prog : string) (v : Z) :
  is_program prog = true -> program_keys s -> program_keys (set_intake s prog v).
Proof.
  intros Hp [Hi Ht]. split; [| exact Ht]. cbn. now apply keys_forall_set.
Qed.

Lemma set_total_keys (s : state) (prog : string) (v : Z) :
  is_program prog = true -> program_keys s -> program_keys (set_total s prog v).
Proof.
  intros Hp [Hi Ht]. split; [exact Hi |]. cbn. now apply keys_forall_set.
Qed.

Lemma totals_block_keys (header : list string) (body : list row) (st st' : state) :
  program_keys st -> totals_block header body st = Ret st' -> program_keys st'.
Proof.
  intros Hst. unfold totals_block.
  destruct (mem _ _ && mem _ _); [| now intros [= <-]].
  destruct (index _ _ _) as [i | []]; try discriminate; try (now intros [= <-]).
  apply (program_rows_loop_keys _ _ _ _ _ _ set_total_keys Hst).
Qed.

Lemma program_table_step_keys (t : table) (st st' : state) :
  program_keys st -> table_step t st = Ret st' -> program_keys st'.
Proof.
  intros Hst. unfold table_step.
  destruct t as [| [| h0 first] body]; try (now intros [= <-]).
  destruct (contains _ _ && mem _ _); [| apply (totals_block_keys _ _ _ _ Hst)].
  destruct (index _ _ _) as [i | []]; try discriminate; try (now intros [= <-]).
  destruct (rows_loop true set_intake i body st) as [st1 | e] eqn:Hr; cbn [bind];
    [| discriminate].
  apply totals_block_keys. apply (program_rows_loop_keys _ _ _ _ _ _ set_intake_keys Hst Hr).
Qed.

Lemma program_tables_loop_keys (ts : list table) (st st' : state) :
  program_keys st -> tables_loop ts st = Ret st' -> program_keys st'.
Proof.
  revert st. induction ts as [| t ts IH]; intros st Hst; cbn [tables_loop].
  { now intros [= <-]. }
  destruct (table_step t st) as [st1 | e] eqn:Ht; cbn [bind]; [| discriminate].
  apply IH. apply (program_table_step_keys _ _ _ Hst Ht).
Qed.

Lemma program_pages_loop_keys (ps : list page) (st st' : state) :
  program_keys st -> pages_loop ps st = Ret st' -> program_keys st'.
Proof.
  revert st. induction ps as [| p ps IH]; intros st Hst; cbn [pages_loop].
  { now intros [= <-]. }
  destruct (tables_loop (extract_tables p) st) as [st1 | e] eqn:Ht; cbn [bind];
    [| discriminate].
  apply IH. apply (program_tables_loop_keys _ _ _ Hst Ht).
Qed.

(** X12: the lines of a frame that extract_program_data returns are
    numbered 1, 2, ..., n; their program names are in strictly ascending
    order, so no program has two lines; each names a UG or PG program and
    carries the institute's name and code; and each has a positive intake
    or a positive number of students: a program for which both are zero
    or missing has no line. *)
Theorem X12_program_lines_are_sorted_and_positive (d : document) (lines : list line) :
  extract_program_data d = DataFrame lines ->
  map s_no lines = StudentRatioMore.serial_numbers (List.length lines)
  /\ StronglySorted (fun a b => String.ltb a b = true) (map line_program_name lines)
  /\ Forall (fun l => line_college_name l = college_name d
                      /\ line_college_code l = college_id d
                      /\ is_program (line_program_name l) = true
                      /\ (0 < sanctioned_intake_of l \/ 0 < total_students_of l))
       lines.
Proof.
  unfold extract_program_data, guarded.
  destruct (getitem (pages d) 0) as [p0 | e]; cbn [bind]; [| discriminate].
  destruct (pages_loop (pages d) initial) as [st | e] eqn:Hp; [| discriminate].
  intros [= <-].
  assert (Hkeys : program_keys st).
  { assert (H0 : program_keys initial) by (split; constructor).
    apply (program_pages_loop_keys _ _ _ H0 Hp). }
  split; [| split].
  - rewrite lines_loop_numbers. unfold StudentRatioMore.serial_numbers.
    rewrite <- seq_shift, map_map. apply map_ext. intros i. lia.
  - rewrite lines_loop_names. apply strongly_sorted_filter, all_programs_ascending.
  - apply Forall_forall. intros l Hl.
    destruct (lines_loop_values _ _ _ _ _ _ Hl) as (Hn & Hc & _ & _ & Hpos).
    split; [exact Hn |]. split; [exact Hc |]. split; [| exact Hpos].
    assert (Hin : In (line_program_name l) (all_programs st)).
    { assert (H : In (line_program_name l)
                    (map line_program_name
                       (lines_loop (college_name d) (college_id d) st
                          (all_programs st) 1)))
        by (apply in_map, Hl).
      rewrite lines_loop_names in H. apply filter_In in H. apply H. }
    destruct Hkeys as [Hi Ht].
    destruct (all_programs_in _ _ Hin) as [H | H];
      [exact (proj1 (Forall_forall _ _) Hi _ H)
      | exact (proj1 (Forall_forall _ _) Ht _ H)].
Qed.

Lemma X12_witness :
  map s_no (frame_rows (extract_program_data program_document))
  = StudentRatioMore.serial_numbers
      (List.length (frame_rows (extract_program_data program_document)))
  /\ StronglySorted (fun a b => String.ltb a b = true)
       (map line_program_name (frame_rows (extract_program_data program_document)))
  /\ Forall (fun l => line_college_name l = "A"
                      /\ line_college_code l = "B"
                      /\ is_program (line_program_name l) = true
                      /\ (0 < sanctioned_intake_of l \/ 0 < total_students_of l))
       (frame_rows (extract_program_data program_document)).
Proof.
  apply (X12_program_lines_are_sorted_and_positive program_document).
  vm_compute. reflexivity.
Defined.

End ProgramDataFacts.

(* ===================================================================== *)
(** ** Properties of full_report_tab.py *)
(* ===================================================================== *)

Module ReportFacts.
Import Report ReportMore PySpec PyFacts.

(** *** The sheet name *)

Lemma take_chars_count (n : nat) (s : string) :
  (char_count (take_chars n s) <= n)%nat.
Proof.
  revert n. induction s as [| c s IH]; intros n; cbn [take_chars char_count]; [lia |].
  destruct (is_continuation c) eqn:Hc.
  - cbn [char_count]. rewrite Hc. apply IH.
  - destruct n as [| k]; cbn [char_count]; [lia |].
    rewrite Hc. specialize (IH k). lia.
Qed.

Lemma take_chars_all (n : nat) (s : string) :
  (char_count s <= n)%nat -> take_chars n s = s.
Proof.
  revert n. induction s as [| c s IH]; intros n; cbn [take_chars char_count];
    [reflexivity |].
  destruct (is_continuation c).
  - intros H. now rewrite IH.
  - destruct n as [| k]; [lia |]. intros H. rewrite IH; [reflexivity | lia].
Qed.

Lemma take_chars_clean (n : nat) (s : string) :
  clean s = true -> clean (take_chars n s) = true.
Proof.
  unfold clean. revert n. induction s as [| c s IH]; intros n; [reflexivity |].
  cbn [forall_chars take_chars]. intros H. apply andb_prop in H. destruct H as [Hc Hs].
  destruct (is_continuation c).
  - cbn [forall_chars]. now rewrite Hc, IH.
  - destruct n as [| k]; [reflexivity |]. cbn [forall_chars]. now rewrite Hc, IH.
Qed.

Lemma remove_forbidden_clean (s : string) : clean (remove_forbidden s) = true.
Proof.
  unfold clean. induction s as [| c s IH]; [reflexivity |].
  cbn [remove_forbidden]. destruct (forbidden c) eqn:Hc; [exact IH |].
  cbn [forall_chars]. now rewrite Hc, IH.
Qed.

Lemma remove_forbidden_id (s : string) : clean s = true -> remove_forbidden s = s.
Proof.
  unfold clean. induction s as [| c s IH]; [reflexivity |].
  cbn [forall_chars remove_forbidden]. intros H. apply andb_prop in H.
  destruct H as [Hc Hs]. apply negb_true_iff in Hc. now rewrite Hc, IH.
Qed.

Lemma remove_forbidden_app (a b : string) :
  remove_forbidden (a ++ b) = (remove_forbidden a ++ remove_forbidden b)%string.
Proof.
  induction a as [| c a IH]; [reflexivity |].
  cbn [String.append remove_forbidden]. destruct (forbidden c); [exact IH |].
  cbn [String.append]. now rewrite IH.
Qed.

(** X13: the sheet name made from any text has at most 31 characters
    (characters, not bytes) and none of the characters the pattern
    removes; a text that has neither fault is its own sheet name. *)
Theorem X13_sheet_name_is_short_and_clean (sheet_name : string) :
  (char_count (safe_sheet_name sheet_name) <= 31)%nat
  /\ clean (safe_sheet_name sheet_name) = true
  /\ (clean sheet_name = true -> (char_count sheet_name <= 31)%nat ->
      safe_sheet_name sheet_name = sheet_name).
Proof.
  unfold safe_sheet_name. split; [apply take_chars_count |].
  split; [apply take_chars_clean, remove_forbidden_clean |].
  intros Hc Hn. rewrite (remove_forbidden_id _ Hc). now apply take_chars_all.
Qed.

Lemma X13_witness :
  (char_count (safe_sheet_name "Placement & Higher Studies") <= 31)%nat
  /\ clean (safe_sheet_name "Placement & Higher Studies") = true
  /\ safe_sheet_name "Placement & Higher Studies" = "Placement & Higher Studies".
Proof.
  destruct (X13_sheet_name_is_short_and_clean "Placement & Higher Studies")
    as (H1 & H2 & H3).
  split; [exact H1 |]. split; [exact H2 |].
  apply H3; [vm_compute; reflexivity | apply Nat.leb_le; vm_compute; reflexivity].
Defined.

Lemma take_chars_app (n : nat) (a b : string) :
  (n <= char_count a)%nat -> continues b = false ->
  take_chars n (a ++ b) = take_chars n a.
Proof.
  intros Hn Hb. revert n Hn. induction a as [| c a IH]; intros n Hn.
  - cbn [char_count] in Hn. assert (n = 0%nat) by lia. subst n.
    cbn [String.append take_chars]. destruct b as [| x b]; [reflexivity |].
    cbn [continues] in Hb. cbn [take_chars]. now rewrite Hb.
  - cbn [String.append take_chars char_count] in Hn |- *.
    destruct (is_continuation c).
    + now rewrite IH.
    + destruct n as [| k]; [reflexivity |]. rewrite IH; [reflexivity | lia].
Qed.

(** X14: when the institute's name, the forbidden characters taken out,
    has 31 characters or more, the sheet name of its report is made of
    the name alone: the institute's code, which ends the report's key,
    plays no part, and two institutes whose names begin with the same 31
    characters are given the same sheet name. *)
Theorem X14_long_names_hide_the_code (college_name college_code : string) :
  (31 <= char_count (remove_forbidden college_name))%nat ->
  safe_sheet_name (report_key college_name college_code)
  = safe_sheet_name college_name.
Proof.
  intros H. unfold safe_sheet_name, report_key.
  rewrite remove_forbidden_app. apply take_chars_app; [exact H |].
  reflexivity.
Qed.

Lemma X14_witness :
  safe_sheet_name
    (report_key "Indian Institute of Technology Madras" "IR-E-U-0456")
  = safe_sheet_name "Indian Institute of Technology Madras"
  /\ safe_sheet_name
       (report_key "Indian Institute of Technology Bombay" "IR-E-U-0306")
     = safe_sheet_name
         (report_key "Indian Institute of Technology Madras" "IR-E-U-0456").
Proof.
  split.
  - apply (X14_long_names_hide_the_code
             "Indian Institute of Technology Madras" "IR-E-U-0456").
    apply Nat.leb_le. vm_compute. reflexivity.
  - vm_compute. reflexivity.
Defined.

(** *** The report without repeated parameters *)

Section Compile.

Variable value : Type.
Variable notna : value -> bool.
Variable text_of : value -> string.

Lemma mem_iff (x : string) (l : list string) : mem x l = true <-> In x l.
Proof.
  unfold mem. rewrite existsb_exists. split.
  - intros [y [Hy E]]. apply String.eqb_eq in E. now subst y.
  - intros H. exists x. split; [exact H | apply String.eqb_refl].
Qed.

Lemma drop_duplicates_in (l : list (string * value)) (seen : list string)
    (p : string) :
  In p (map fst (drop_duplicates value seen l))
  <-> In p (map fst l) /\ ~ In p seen.
Proof.
  revert seen. induction l as [| [q v] l IH]; intros seen; cbn [drop_duplicates map fst In].
  - tauto.
  - destruct (mem q seen) eqn:E.
    + rewrite IH. apply mem_iff in E. split.
      * intros [H1 H2]. auto.
      * intros [[<- | H1] H2]; [contradiction | auto].
    + cbn [map fst In]. rewrite IH. cbn [In].
      assert (Hq : ~ In q seen) by (rewrite <- mem_iff; congruence).
      split.
      * intros [<- | [H1 H2]]; [auto |]. split; [auto |]. intros H. apply H2. now right.
      * intros [[<- | H1] H2]; [now left |].
        destruct (string_dec q p) as [-> | Hne]; [now left |].
        right. split; [exact H1 |]. intros [E' | H]; [contradiction | contradiction].
Qed.

Lemma drop_duplicates_nodup (l : list (string * value)) (seen : list string) :
  NoDup (map fst (drop_duplicates value seen l)).
Proof.
  revert seen. induction l as [| [q v] l IH]; intros seen; cbn [drop_duplicates];
    [constructor |].
  destruct (mem q seen); [apply IH |].
  cbn [map fst]. constructor; [| apply IH].
  rewrite drop_duplicates_in. intros [_ H]. apply H. now left.
Qed.

Lemma drop_duplicates_lookup (l : list (string * value)) (seen : list string)
    (p : string) :
  lookup value (drop_duplicates value seen l) p
  = if mem p seen then None else lookup value l p.
Proof.
  revert seen. induction l as [| [q v] l IH]; intros seen; cbn [drop_duplicates lookup].
  - now destruct (mem p seen).
  - destruct (mem q seen) eqn:E.
    + rewrite IH. destruct (mem p seen) eqn:Ep; [reflexivity |].
      destruct (String.eqb_spec q p) as [-> | _]; [congruence | reflexivity].
    + cbn [lookup]. destruct (String.eqb_spec q p) as [-> | Hne].
      * now rewrite E.
      * rewrite IH. unfold mem. cbn [existsb].
        destruct (String.eqb_spec p q) as [-> | _]; [contradiction | reflexivity].
Qed.

Lemma concat_filter_nonempty {A : Type} (l : list (list A)) :
  List.concat (filter (fun x => negb (Nat.eqb (List.length x) 0)) l) = List.concat l.
Proof.
  induction l as [| x l IH]; [reflexivity |].
  cbn [filter List.concat]. destruct x as [| a x]; cbn [List.length Nat.eqb negb].
  - exact IH.
  - cbn [List.concat]. now rewrite IH.
Qed.

(** X15: the report compiled for one file never lists a parameter twice.
    Its parameters are those of the extractors' reformatted frames put one
    after the other, and the value kept for each is the first one in that
    order: a later row with a parameter already seen is dropped. *)
Theorem X15_report_keeps_the_first_value_of_each_parameter
    (frames : list (list (series value))) (report : list (string * value)) :
  compile_report value notna text_of frames = Some report ->
  let all_rows :=
    List.concat (map (reformat_data_for_full_report value notna text_of) frames) in
  NoDup (map fst report)
  /\ (forall p, In p (map fst report) <-> In p (map fst all_rows))
  /\ (forall p, lookup value report p = lookup value all_rows p).
Proof.
  unfold compile_report. cbv zeta.
  destruct (filter _ _) as [| x rest] eqn:E; [discriminate |].
  intros [= <-]. change (x ++ List.concat rest) with (List.concat (x :: rest)).
  rewrite <- E, concat_filter_nonempty.
  split; [apply drop_duplicates_nodup |]. split.
  - intros p. rewrite drop_duplicates_in. cbn [In]. tauto.
  - intros p. now rewrite drop_duplicates_lookup.
Qed.

End Compile.

Lemma X15_witness :
  compile_report string (fun _ => true) (fun s => s)
    [ [ [("ProgramName", "UG-4"); ("Graduated", "100")] ];
      [ [("ProgramName", "UG-4"); ("Graduated", "90"); ("Percentage", "75.0")] ] ]
  = Some [ ("Graduated (UG-4)", "100"); ("Percentage (UG-4)", "75.0") ]
  /\ NoDup (map fst [ ("Graduated (UG-4)", "100"); ("Percentage (UG-4)", "75.0") ])
  /\ lookup string [ ("Graduated (UG-4)", "100"); ("Percentage (UG-4)", "75.0") ]
       "Graduated (UG-4)"
     = Some "100".
Proof.
  assert (H : compile_report string (fun _ => true) (fun s => s)
                [ [ [("ProgramName", "UG-4"); ("Graduated", "100")] ];
                  [ [("ProgramName", "UG-4"); ("Graduated", "90");
                     ("Percentage", "75.0")] ] ]
              = Some [ ("Graduated (UG-4)", "100"); ("Percentage (UG-4)", "75.0") ])
    by (vm_compute; reflexivity).
  split; [exact H |].
  destruct (X15_report_keeps_the_first_value_of_each_parameter
              string (fun _ => true) (fun s => s) _ _ H) as (Hn & _ & Hl).
  split; [exact Hn |]. rewrite Hl. vm_compute. reflexivity.
Defined.

End ReportFacts.

(* ===================================================================== *)
(** ** Properties of extract_college_info *)
(* ===================================================================== *)

Module CollegeInfoFacts.
Import CollegeInfo CollegeInfoMore PySpec PyFacts.

Local Abbreviation break := (ascii_of_nat 10).

(** *** Stripping *)

Lemma rstrip_empty_iff (s : string) : rstrip s = "" <-> all_space s = true.
Proof.
  unfold all_space. induction s as [| c s IH]; [cbn; tauto |].
  cbn [rstrip forall_chars]. destruct (rstrip s) as [| x r] eqn:E.
  - destruct (is_space c); cbn [andb].
    + split; [intros _; now apply IH | reflexivity].
    + split; discriminate.
  - split; [discriminate |]. intros H. apply andb_prop in H. destruct H as [_ H].
    apply IH in H. discriminate.
Qed.

Lemma lstrip_all_space (s : string) : all_space s = true -> lstrip s = "".
Proof.
  unfold all_space. induction s as [| c s IH]; [reflexivity |].
  cbn [forall_chars lstrip]. intros H. apply andb_prop in H. destruct H as [Hc Hs].
  rewrite Hc. now apply IH.
Qed.

Lemma lstrip_bracket (n rest : string) :
  lstrip (n ++ String "[" rest) = (lstrip n ++ String "[" rest)%string.
Proof.
  induction n as [| c n IH]; [reflexivity |].
  cbn [String.append lstrip]. destruct (is_space c); [exact IH | reflexivity].
Qed.

Lemma lstrip_idem (s : string) : lstrip (lstrip s) = lstrip s.
Proof.
  induction s as [| c s IH]; [reflexivity |].
  cbn [lstrip]. destruct (is_space c) eqn:Hc; [exact IH |].
  cbn [lstrip]. now rewrite Hc.
Qed.

Lemma rstrip_idem (s : string) : rstrip (rstrip s) = rstrip s.
Proof.
  induction s as [| c s IH]; [reflexivity |].
  cbn [rstrip]. destruct (rstrip s) as [| x r] eqn:E.
  - destruct (is_space c) eqn:Hc; [reflexivity |]. cbn [rstrip]. now rewrite Hc.
  - cbn [rstrip] in IH |- *. cbn [rstrip]. rewrite IH. reflexivity.
Qed.

Lemma lstrip_rstrip (s : string) : lstrip (rstrip s) = rstrip (lstrip s).
Proof.
  induction s as [| c s IH]; [reflexivity |].
  cbn [lstrip rstrip]. destruct (is_space c) eqn:Hc.
  - rewrite <- IH. destruct (rstrip s) as [| x r] eqn:E; [reflexivity |].
    cbn [lstrip]. now rewrite Hc.
  - cbn [rstrip]. destruct (rstrip s) as [| x r]; cbn [lstrip]; now rewrite Hc.
Qed.

Lemma strip_idem (s : string) : strip (strip s) = strip s.
Proof.
  unfold strip. now rewrite lstrip_rstrip, lstrip_idem, rstrip_idem.
Qed.

Lemma strip_rstrip_lstrip (s : string) : strip (rstrip (lstrip s)) = strip s.
Proof. apply strip_idem. Qed.

Lemma forall_chars_lstrip (p : ascii -> bool) (s : string) :
  forall_chars p s = true -> forall_chars p (lstrip s) = true.
Proof.
  induction s as [| c s IH]; [reflexivity |].
  cbn [forall_chars lstrip]. intros H. destruct (is_space c).
  - apply andb_prop in H. now apply IH.
  - exact H.
Qed.

Lemma forall_chars_rstrip (p : ascii -> bool) (s : string) :
  forall_chars p s = true -> forall_chars p (rstrip s) = true.
Proof.
  induction s as [| c s IH]; [reflexivity |].
  cbn [forall_chars rstrip]. intros H. apply andb_prop in H. destruct H as [Hc Hs].
  specialize (IH Hs). destruct (rstrip s) as [| x r].
  - destruct (is_space c); [reflexivity |]. cbn [forall_chars]. now rewrite Hc.
  - cbn [forall_chars] in IH |- *. now rewrite Hc.
Qed.

Lemma forall_chars_strip (p : ascii -> bool) (s : string) :
  forall_chars p s = true -> forall_chars p (strip s) = true.
Proof. intros H. now apply forall_chars_rstrip, forall_chars_lstrip. Qed.

(** *** The name *)

Lemma closes_bracket (m rest : string) :
  without "[" m = true ->
  closes (m ++ String "[" rest) = all_space m.
Proof.
  unfold closes, without, all_space. induction m as [| c m IH]; [reflexivity |].
  cbn [forall_chars String.append lstrip]. intros H. apply andb_prop in H.
  destruct H as [Hc Hm]. destruct (is_space c) eqn:Hs; cbn [andb].
  - now apply IH.
  - apply negb_true_iff, Ascii.eqb_neq in Hc.
    destruct c as [[] [] [] [] [] [] [] []]; try reflexivity. now elim Hc.
Qed.

Lemma lazy_group_bracket (m rest : string) :
  without "[" m = true ->
  without break m = true ->
  lazy_group (m ++ String "[" rest) = Some (rstrip m).
Proof.
  intros Hb Hn. induction m as [| c m IH].
  - reflexivity.
  - assert (Hcl := closes_bracket (String c m) rest Hb).
    unfold without in Hb, Hn. cbn [forall_chars] in Hb, Hn.
    apply andb_prop in Hb. destruct Hb as [Hcb Hb].
    apply andb_prop in Hn. destruct Hn as [Hcn Hn].
    specialize (IH Hb Hn).
    cbn [String.append] in Hcl |- *. cbn [lazy_group]. rewrite Hcl.
    destruct (all_space (String c m)) eqn:Hs.
    + f_equal. symmetry. now apply rstrip_empty_iff.
    + apply negb_true_iff in Hcn. rewrite Hcn, IH. cbn [option_map]. f_equal.
      cbn [rstrip]. destruct (rstrip m) as [| x r] eqn:E; [| reflexivity].
      destruct (is_space c) eqn:Hc; [| reflexivity].
      apply rstrip_empty_iff in E. unfold all_space in Hs, E.
      cbn [forall_chars] in Hs. rewrite Hc, E in Hs. discriminate.
Qed.

Lemma lazy_group_form (s g : string) :
  lazy_group s = Some g -> without "[" g = true /\ without break g = true.
Proof.
  revert g. induction s as [| c s IH]; intros g; cbn [lazy_group].
  - destruct (closes ""); [intros [= <-]; auto | discriminate].
  - destruct (closes (String c s)) eqn:Hcl; [intros [= <-]; auto |].
    destruct (Ascii.eqb c break) eqn:Hn; [discriminate |].
    destruct (lazy_group s) as [g' |]; [| discriminate].
    cbn [option_map]. intros [= <-]. destruct (IH g' eq_refl) as [H1 H2].
    unfold without. cbn [forall_chars]. unfold without in H1, H2.
    rewrite H1, H2, Hn. cbn [negb andb]. split; [| reflexivity].
    rewrite andb_true_r. apply negb_true_iff, Ascii.eqb_neq. intros ->.
    unfold closes in Hcl. cbn in Hcl. discriminate.
Qed.

Lemma search_name_form (s g : string) :
  search_name s = Some g -> without "[" g = true /\ without break g = true.
Proof.
  induction s as [| c s IH]; cbn [search_name]; unfold match_name.
  - destruct (String.prefix name_literal ""); [| discriminate].
    destruct (lazy_group _) as [g' |] eqn:E; [| discriminate].
    intros [= <-]. apply (lazy_group_form _ _ E).
  - destruct (String.prefix name_literal (String c s)).
    + destruct (lazy_group _) as [g' |] eqn:E; [| exact IH].
      intros [= <-]. apply (lazy_group_form _ _ E).
    + exact IH.
Qed.

(** *** The code *)

Lemma take_until_close_form (s : string) : without "]" (take_until_close s) = true.
Proof.
  unfold without. induction s as [| c s IH]; [reflexivity |].
  cbn [take_until_close]. destruct (Ascii.eqb c "]") eqn:E; [reflexivity |].
  cbn [forall_chars]. now rewrite E, IH.
Qed.

Lemma take_until_close_app (b rest : string) :
  without "]" b = true ->
  take_until_close (b ++ String "]" rest) = b.
Proof.
  unfold without. induction b as [| c b IH]; [reflexivity |].
  cbn [forall_chars String.append take_until_close]. intros H. apply andb_prop in H.
  destruct H as [Hc Hb]. apply negb_true_iff in Hc. now rewrite Hc, IH.
Qed.

Lemma match_code_form (s g : string) :
  match_code s = Some g ->
  String.prefix "IR-" g = true /\ without "]" g = true.
Proof.
  unfold match_code. destruct (String.prefix "[IR-" s); [| discriminate].
  destruct (String.eqb _ ""); [discriminate |].
  destruct (String.prefix "]" _); [| discriminate].
  intros [= <-]. split; [cbn; now rewrite prefix_empty |].
  unfold without. cbn [String.append forall_chars Ascii.eqb Bool.eqb negb andb].
  apply take_until_close_form.
Qed.

Lemma search_code_form (s g : string) :
  search_code s = Some g ->
  String.prefix "IR-" g = true /\ without "]" g = true.
Proof.
  induction s as [| c s IH]; cbn [search_code].
  - destruct (match_code "") as [g' |] eqn:E; [| discriminate].
    intros [= <-]. apply (match_code_form _ _ E).
  - destruct (match_code (String c s)) as [g' |] eqn:E; [| exact IH].
    intros [= <-]. apply (match_code_form _ _ E).
Qed.

Lemma strip_code (g : string) :
  String.prefix "IR-" g = true -> String.prefix "IR-" (strip g) = true.
Proof.
  intros H.
  destruct g as [| a g]; [discriminate H |]. cbn [String.prefix] in H.
  destruct (ascii_dec "I" a) as [<- |]; [| discriminate H].
  destruct g as [| b g]; [discriminate H |]. cbn [String.prefix] in H.
  destruct (ascii_dec "R" b) as [<- |]; [| discriminate H].
  destruct g as [| c g]; [discriminate H |]. cbn [String.prefix] in H.
  destruct (ascii_dec "-" c) as [<- |]; [| discriminate H].
  unfold strip.
  change (lstrip (String "I" (String "R" (String "-" g))))
    with (String "I" (String "R" (String "-" g))).
  cbn [rstrip]. destruct (rstrip g) as [| x r]; reflexivity.
Qed.

(** X16: whatever the text, the name returned is 'Not Found' or a text
    without an opening bracket, without a line break and without spaces
    around it; the code returned is 'Not Found' or a text that starts
    with IR-, holds no closing bracket and has no spaces around it. *)
Theorem X16_college_info_is_well_formed (text : string) :
  let '(college_name, college_code) := extract_college_info text in
  (college_name = not_found
   \/ (without "[" college_name = true
       /\ without break college_name = true
       /\ strip college_name = college_name))
  /\ (college_code = not_found
      \/ (String.prefix "IR-" college_code = true
          /\ without "]" college_code = true
          /\ strip college_code = college_code)).
Proof.
  unfold extract_college_info. split.
  - destruct (search_name text) as [g |] eqn:E; [right | now left].
    destruct (search_name_form _ _ E) as [H1 H2].
    split; [now apply forall_chars_strip |].
    split; [now apply forall_chars_strip | apply strip_idem].
  - destruct (search_code text) as [g |] eqn:E; [right | now left].
    destruct (search_code_form _ _ E) as [H1 H2].
    split; [now apply strip_code |].
    split; [now apply forall_chars_strip | apply strip_idem].
Qed.

(** *** The usual first line *)

Lemma search_code_skip (pre s : string) :
  without "[" pre = true ->
  search_code (pre ++ s) = search_code s.
Proof.
  unfold without. induction pre as [| c pre IH]; [reflexivity |].
  cbn [forall_chars]. intros H. apply andb_prop in H. destruct H as [Hc Hpre].
  cbn [String.append search_code]. unfold match_code at 1. cbn [String.prefix].
  destruct (ascii_dec "[" c) as [<- | _]; [discriminate Hc |].
  now apply IH.
Qed.

Lemma drop_length_append (a b : string) : drop (String.length a) (a ++ b) = b.
Proof. induction a as [| c a IH]; [now destruct b | exact IH]. Qed.

Lemma prefix_append (a b : string) : String.prefix a (a ++ b) = true.
Proof.
  induction a as [| c a IH]; [apply prefix_empty |].
  cbn [String.append String.prefix]. destruct (ascii_dec c c); [exact IH | congruence].
Qed.

Lemma search_name_here (s g : string) :
  match_name s = Some g -> search_name s = Some g.
Proof. intros H. destruct s; cbn [search_name]; now rewrite H. Qed.

Lemma search_code_here (s g : string) :
  match_code s = Some g -> search_code s = Some g.
Proof. intros H. destruct s; cbn [search_code]; now rewrite H. Qed.

Lemma match_code_bracket (body rest : string) :
  body <> "" ->
  without "]" body = true ->
  match_code ("[IR-" ++ body ++ String "]" rest) = Some ("IR-" ++ body)%string.
Proof.
  intros Hne Hc. unfold match_code.
  rewrite prefix_append.
  change 4%nat with (String.length "[IR-"). rewrite drop_length_append.
  rewrite (take_until_close_app _ _ Hc), drop_length_append.
  destruct (String.eqb_spec body "") as [| _]; [contradiction |].
  cbn [String.prefix]. destruct (ascii_dec "]" "]"); [| congruence].
  now rewrite prefix_empty.
Qed.

(** X17: on a text that starts with the usual first line, the literal
    Institute Name:, the name (plain ASCII, no bracket, no line break in
    it), then the code in brackets (IR- and one or more characters of
    plain ASCII, no closing bracket in it), the function returns the name
    and the code, each without the spaces around it, whatever follows the
    line. *)
Theorem X17_first_line_round_trip (name body rest : string) :
  ascii_text name = true ->
  ascii_text body = true ->
  without "[" name = true ->
  without break name = true ->
  body <> "" ->
  without "]" body = true ->
  extract_college_info (first_line name ("IR-" ++ body) rest)
  = (strip name, strip ("IR-" ++ body)).
Proof.
  intros _ _ Hb Hn Hne Hc. unfold extract_college_info, first_line.
  assert (Hname : search_name
                    (name_literal ++ name ++ "[" ++ ("IR-" ++ body) ++ "]" ++ rest)
                  = Some (rstrip (lstrip name))).
  { apply search_name_here. unfold match_name.
    rewrite prefix_append, drop_length_append.
    change ("[" ++ ("IR-" ++ body) ++ "]" ++ rest)%string
      with (String "[" (("IR-" ++ body) ++ "]" ++ rest))%string.
    rewrite lstrip_bracket, lazy_group_bracket; [reflexivity | |];
      now apply forall_chars_lstrip. }
  assert (Hcode : search_code
                    (name_literal ++ name ++ "[" ++ ("IR-" ++ body) ++ "]" ++ rest)
                  = Some ("IR-" ++ body)%string).
  { rewrite <- append_assoc. rewrite search_code_skip.
    2:{ unfold without. rewrite ExpenditureFacts.forall_chars_append.
        unfold without in Hb. rewrite Hb. reflexivity. }
    apply search_code_here.
    change ("[" ++ ("IR-" ++ body) ++ "]" ++ rest)%string
      with ("[IR-" ++ body ++ String "]" rest)%string.
    now apply match_code_bracket. }
  rewrite Hname, Hcode. f_equal. apply strip_rstrip_lstrip.
Qed.

Lemma X17_witness :
  ascii_text " Indian Institute of Technology Madras " = true
  /\ ascii_text "E-U-0456" = true
  /\ extract_college_info
       (first_line " Indian Institute of Technology Madras " ("IR-" ++ "E-U-0456")
          (String break "Sanctioned (Approved) Intake"))
     = ("Indian Institute of Technology Madras", "IR-E-U-0456").
Proof.
  split; [vm_compute; reflexivity |]. split; [vm_compute; reflexivity |].
  rewrite (X17_first_line_round_trip " Indian Institute of Technology Madras "
             "E-U-0456" (String break "Sanctioned (Approved) Intake"));
    try (vm_compute; reflexivity).
  discriminate.
Defined.

(** *** Texts without the marks *)

Lemma search_name_absent (text : string) :
  contains name_literal text = false -> search_name text = None.
Proof.
  induction text as [| c text IH]; [reflexivity |].
  cbn [contains]. intros H. apply orb_false_iff in H. destruct H as [Hp Hc].
  cbn [search_name]. unfold match_name. rewrite Hp. now apply IH.
Qed.

Lemma search_code_absent (text : string) :
  contains "[IR-" text = false -> search_code text = None.
Proof.
  induction text as [| c text IH]; [reflexivity |].
  cbn [contains]. intros H. apply orb_false_iff in H. destruct H as [Hp Hc].
  cbn [search_code]. unfold match_code. rewrite Hp. now apply IH.
Qed.

(** X25: a text that does not hold the literal Institute Name: gives the
    name 'Not Found', and a text that does not hold an opening bracket
    followed by IR- gives the code 'Not Found'; neither is an error. *)
Theorem X25_college_info_defaults (text : string) :
  (contains name_literal text = false ->
   fst (extract_college_info text) = not_found)
  /\ (contains "[IR-" text = false ->
      snd (extract_college_info text) = not_found).
Proof.
  unfold extract_college_info. cbn [fst snd]. split; intros H.
  - now rewrite (search_name_absent _ H).
  - now rewrite (search_code_absent _ H).
Qed.

Lemma X25_witness :
  extract_college_info "National Institutional Ranking Framework"
  = (not_found, not_found).
Proof.
  destruct (X25_college_info_defaults "National Institutional Ranking Framework")
    as [H1 H2].
  specialize (H1 eq_refl). specialize (H2 eq_refl).
  destruct (extract_college_info "National Institutional Ranking Framework")
    as [n c].
  cbn [fst snd] in H1, H2. now rewrite H1, H2.
Defined.

End CollegeInfoFacts.

(* ===================================================================== *)
(** ** What the scans do on any document *)
(* ===================================================================== *)

Module ScanFacts.
Import ScanSpec PyFacts.

(** *** expenditure_tab.py: the scan raises nothing *)

Section ExpenditureScan.
Import Expenditure.

Lemma amount_of_cell_not_negative (c : cell) (v : Z) :
  amount_of_cell c = Ret v -> 0 <= v.
Proof.
  unfold amount_of_cell.
  set (s := keep_digits (strip (split_head "(" (str_cell c)))).
  assert (Hd : all_digits s = true) by apply MedianScanFacts.all_digits_keep_digits.
  destruct (String.eqb_spec s "") as [-> | Hne]; [discriminate |].
  rewrite (MedianScanFacts.int_of_str_digits _ Hd Hne). intros [= <-].
  apply MedianScanFacts.number_from_nonneg. lia.
Qed.

Lemma index_raises (x : string) (l : list string) (i : nat) (e : exn) :
  index x l i = Raise e -> e = ValueError.
Proof.
  unfold index. generalize (skipn i l) as l'. revert i.
  intros i l'. revert i. induction l' as [| y l' IH]; intros j; cbn [index_from].
  - now intros [= <-].
  - destruct (String.eqb y x); [discriminate | apply IH].
Qed.

Lemma year_step_returns (header : list string) (r : row) (year : string)
    (target : dict) :
  not_negative target ->
  exists target', year_step header r year target = Ret target'
                  /\ not_negative target'.
Proof.
  intros Hnn. unfold year_step.
  destruct (index year header 0) as [i | e] eqn:Hi; cbn [bind].
  2:{ apply index_raises in Hi. subst e. cbn. eauto. }
  destruct ((List.length r <=? i)%nat || negb (truthy (nth i r None)));
    [cbn; eauto |].
  destruct (amount_of_cell (nth i r None)) as [v | e] eqn:Hv; cbn [bind].
  - cbn [try_except]. eexists. split; [reflexivity |].
    intros k. rewrite PhdFacts.dict_get_set.
    apply amount_of_cell_not_negative in Hv. pose proof (Hnn year) as Hy.
    destruct (String.eqb year k); [lia | apply Hnn].
  - unfold amount_of_cell in Hv. apply int_of_str_raises in Hv. subst e. cbn. eauto.
Qed.

Lemma years_loop_returns (header : list string) (r : row) (years : list string)
    (target : dict) :
  not_negative target ->
  exists target', years_loop header r years target = Ret target'
                  /\ not_negative target'.
Proof.
  revert target. induction years as [| y years IH]; intros target Hnn;
    cbn [years_loop]; [eauto |].
  destruct (year_step_returns header r y target Hnn) as (t1 & -> & H1).
  cbn [bind]. now apply IH.
Qed.

Lemma row_step_returns (is_capital : bool) (header years : list string) (r : row)
    (st : state) :
  state_not_negative st ->
  exists st', row_step is_capital header years r st = Ret st'
              /\ state_not_negative st'.
Proof.
  intros [Hc Ho]. unfold row_step.
  destruct (negb (has_title r)); [exists st; split; [reflexivity | now split] |].
  destruct is_capital.
  - destruct (title_matches capital_keys _);
      [| exists st; split; [reflexivity | now split]].
    destruct (years_loop_returns header r years _ Hc) as (d & -> & Hd).
    cbn [bind]. eexists. split; [reflexivity |]. now split.
  - destruct (title_matches operational_keys _);
      [| exists st; split; [reflexivity | now split]].
    destruct (years_loop_returns header r years _ Ho) as (d & -> & Hd).
    cbn [bind]. eexists. split; [reflexivity |]. now split.
Qed.

Lemma rows_loop_returns (is_capital : bool) (header years : list string)
    (rows : list row) (st : state) :
  state_not_negative st ->
  exists st', rows_loop is_capital header years rows st = Ret st'
              /\ state_not_negative st'.
Proof.
  revert st. induction rows as [| r rows IH]; intros st Hst; cbn [rows_loop];
    [eauto |].
  destruct (row_step_returns is_capital header years r st Hst) as (s1 & -> & H1).
  cbn [bind]. now apply IH.
Qed.

Lemma table_step_returns (t : table) (st : state) :
  state_not_negative st ->
  exists st', table_step t st = Ret st' /\ state_not_negative st'.
Proof.
  intros Hst. unfold table_step.
  destruct (List.length t <? 2)%nat; [eauto |].
  destruct (negb _); [eauto |].
  destruct (find_header t) as [| h header]; [eauto |].
  destruct (filter year_like (h :: header)) as [| y years]; [eauto |].
  now apply rows_loop_returns.
Qed.

Lemma tables_loop_returns (ts : list table) (st : state) :
  state_not_negative st ->
  exists st', tables_loop ts st = Ret st' /\ state_not_negative st'.
Proof.
  revert st. induction ts as [| t ts IH]; intros st Hst; cbn [tables_loop];
    [eauto |].
  destruct (table_step_returns t st Hst) as (s1 & -> & H1).
  cbn [bind]. now apply IH.
Qed.

Lemma pages_loop_returns (ps : list page) (st : state) :
  state_not_negative st ->
  exists st', pages_loop ps st = Ret st' /\ state_not_negative st'.
Proof.
  revert st. induction ps as [| p ps IH]; intros st Hst; cbn [pages_loop];
    [eauto |].
  destruct (tables_loop_returns (extract_tables p) st Hst) as (s1 & -> & H1).
  cbn [bind]. now apply IH.
Qed.

(** X18: whatever the tables hold, the scan of the expenditure extractor
    (lines 49 to 108) raises nothing: a cell it cannot read is passed
    over.  Every amount it stores is not negative (a minus sign is dropped
    with the other characters that are not digits), so no sum under a
    year is negative either. *)
Theorem X18_expenditure_scan_returns_amounts_not_negative (ps : list page) :
  exists st : state,
    pages_loop ps initial = Ret st
    /\ forall year : string,
         0 <= dict_get (capital_exp st) year 0
         /\ 0 <= dict_get (operational_exp st) year 0.
Proof.
  assert (H0 : state_not_negative initial).
  { split; intros k; cbn; lia. }
  destruct (pages_loop_returns ps initial H0) as (st & Hst & Hc & Ho).
  exists st. split; [exact Hst |]. intros y. split; [apply Hc | apply Ho].
Qed.

End ExpenditureScan.

(** *** phd_data_tab.py *)

Section PhdScan.
Import PhdData.

Lemma read_years_returns (r : row) (i : nat) (ys : list string) (d : dict) :
  exists d', read_years r i ys d = Ret d'.
Proof.
  revert i d. induction ys as [| y ys IH]; intros i d; cbn [read_years]; [eauto |].
  assert (H : exists d1,
             try_except
               (c <- getitem r (i + 1) ;; v <- int_of_cell c ;; Ret (dict_set d y v))
               [ValueError; IndexError; TypeError] (Ret (dict_set d y 0)) = Ret d1).
  { unfold getitem. destruct (nth_error r (i + 1)) as [c |]; cbn [bind];
      [| cbn; eauto].
    destruct c as [s |]; cbn [int_of_cell]; [| cbn; eauto].
    destruct (int_of_str s) as [v | e] eqn:E; cbn [bind]; [cbn; eauto |].
    apply int_of_str_raises in E. subst e. cbn. eauto. }
  destruct H as [d1 ->]. cbn [bind]. apply IH.
Qed.






Lemma phd_row_step_returns (r : row) (st : state) :
  r <> [] -> exists st', row_step r st = Ret st'.
Proof.
  intros Hr. destruct r as [| c r]; [contradiction |].
  unfold row_step. cbn [getitem nth_error bind].
  destruct (contains "Full Time" _).
  - destruct (read_years_returns (c :: r) 0 (years st) (full_time_grads st)) as [d ->].
    cbn [bind]. eauto.
  - destruct (contains "Part Time" _); [| eauto].
    destruct (read_years_returns (c :: r) 0 (years st) (part_time_grads st)) as [d ->].
    cbn [bind]. eauto.
Qed.

Lemma phd_rows_loop_returns (rows : list row) (st : state) :
  Forall (fun r : row => r <> []) rows -> exists st', rows_loop rows st = Ret st'.
Proof.
  intros H. revert st. induction H as [| r rows Hr Hrows IH]; intros st;
    cbn [rows_loop]; [eauto |].
  destruct (phd_row_step_returns r st Hr) as [s1 ->]. cbn [bind]. apply IH.
Qed.

Lemma phd_tables_loop_returns (ts : list table) (st : state) :
  Forall (fun t => Forall (fun r : row => r <> []) t) ts ->
  exists st', tables_loop ts st = Ret st'.
Proof.
  intros H. revert st. induction H as [| t ts Ht Hts IH]; intros st;
    cbn [tables_loop]; [eauto |].
  destruct (List.length t <? 2)%nat; [apply IH |].
  destruct (negb _); [apply IH |].
  cbn [years]. destruct (find_years t (years st)); [apply IH |].
  now apply phd_rows_loop_returns.
Qed.

Lemma phd_pages_loop_returns (ps : list page) (st : state) :
  Forall (fun p => Forall (fun t => Forall (fun r : row => r <> []) t)
                     (extract_tables p)) ps ->
  exists st', pages_loop ps st = Ret st'.
Proof.
  intros H. revert st. induction H as [| p ps Hp Hps IH]; intros st;
    cbn [pages_loop]; [eauto |].
  destruct (phd_tables_loop_returns _ st Hp) as [s1 ->]. cbn [bind]. apply IH.
Qed.

(** X20: the graduation extractor fails on nothing but a row without
    cells: for a document that has a page, and whose tables have one cell
    or more in every row, it returns a frame, whatever the cells hold. *)
Theorem X20_phd_extractor_returns_a_frame (d : document) :
  pages d <> [] ->
  rows_have_cells d ->
  exists rows : list out_row, extract_phd_graduated_data d = DataFrame rows.
Proof.
  intros Hne Hrows. unfold extract_phd_graduated_data, guarded.
  destruct (pages d) as [| p0 ps] eqn:Hp; [contradiction |].
  cbn [getitem nth_error bind].
  unfold rows_have_cells in Hrows. rewrite Hp in Hrows.
  destruct (phd_pages_loop_returns (p0 :: ps) initial Hrows) as [st ->]. eauto.
Qed.

Lemma X20_witness :
  exists rows : list out_row,
    extract_phd_graduated_data (Samples.single_table "A" "B" PhdSpec.graduated_table)
    = DataFrame rows.
Proof.
  apply (X20_phd_extractor_returns_a_frame
           (Samples.single_table "A" "B" PhdSpec.graduated_table)).
  - discriminate.
  - unfold rows_have_cells. cbn.
    repeat constructor; discriminate.
Defined.

End PhdScan.

(** *** A document without tables *)

Lemma student_pages_without_tables (name code : string) (ps : list page) :
  Forall (fun p => find_tables p = []) ps ->
  StudentRatio.pages_loop name code ps StudentRatio.initial
  = Ret StudentRatio.initial.
Proof.
  induction 1 as [| p ps Hp Hps IH]; [reflexivity |].
  cbn [StudentRatio.pages_loop StudentRatio.initial StudentRatio.table_found].
  unfold extract_tables. rewrite Hp. cbn [map StudentRatio.tables_loop bind].
  exact IH.
Qed.

Lemma placement_pages_without_tables (name code : string) (ps : list page)
    (prev : string) :
  Forall (fun p => find_tables p = []) ps ->
  Placement.pages_loop name code ps prev [] = Ret [].
Proof.
  intros H. revert prev. induction H as [| p ps Hp Hps IH]; intros prev;
    [reflexivity |].
  cbn [Placement.pages_loop]. rewrite Hp. cbn [Placement.tables_loop bind]. apply IH.
Qed.

Lemma exam_pages_without_tables (name code : string) (ps : list page)
    (prev : string) :
  Forall (fun p => find_tables p = []) ps ->
  UniversityExam.pages_loop name code ps prev [] = Ret [].
Proof.
  intros H. revert prev. induction H as [| p ps Hp Hps IH]; intros prev;
    [reflexivity |].
  cbn [UniversityExam.pages_loop]. rewrite Hp.
  cbn [UniversityExam.tables_loop bind]. apply IH.
Qed.

Lemma salary_pages_without_tables (name code : string) (ps : list page)
    (prev : string) :
  Forall (fun p => find_tables p = []) ps ->
  MedianSalaryScan.pages_loop name code ps prev [] = Ret [].
Proof.
  intros H. revert prev. induction H as [| p ps Hp Hps IH]; intros prev;
    [reflexivity |].
  cbn [MedianSalaryScan.pages_loop]. rewrite Hp.
  cbn [MedianSalaryScan.tables_loop bind]. apply IH.
Qed.

Lemma phd_pages_without_tables (ps : list page) :
  Forall (fun p => find_tables p = []) ps ->
  PhdData.pages_loop ps PhdData.initial = Ret PhdData.initial.
Proof.
  induction 1 as [| p ps Hp Hps IH]; [reflexivity |].
  cbn [PhdData.pages_loop]. unfold extract_tables. rewrite Hp.
  cbn [map PhdData.tables_loop bind]. exact IH.
Qed.

Lemma program_pages_without_tables (ps : list page) :
  Forall (fun p => find_tables p = []) ps ->
  ProgramData.pages_loop ps ProgramData.initial = Ret ProgramData.initial.
Proof.
  induction 1 as [| p ps Hp Hps IH]; [reflexivity |].
  cbn [ProgramData.pages_loop]. unfold extract_tables. rewrite Hp.
  cbn [map ProgramData.tables_loop bind]. exact IH.
Qed.

Lemma expenditure_pages_without_tables (ps : list page) :
  Forall (fun p => find_tables p = []) ps ->
  Expenditure.pages_loop ps Expenditure.initial = Ret Expenditure.initial.
Proof.
  induction 1 as [| p ps Hp Hps IH]; [reflexivity |].
  cbn [Expenditure.pages_loop]. unfold extract_tables. rewrite Hp.
  cbn [map Expenditure.tables_loop bind]. exact IH.
Qed.

(** X21: a document that has pages but no table on any of them (a report
    of text only) gives an empty frame from each of the seven extractors,
    and an error from none: no row, and for the expenditure extractor no
    'Average' row either. *)
Theorem X21_document_without_tables_gives_empty_frames
    (group_mean np_mean : list Z -> float) (d : document) :
  pages d <> [] ->
  without_tables d ->
  StudentRatio.extract_student_ratio_data d = DataFrame []
  /\ Placement.extract_placement_data d = DataFrame []
  /\ UniversityExam.extract_university_exam_data d = DataFrame []
  /\ MedianSalaryScan.extract_median_salary_data group_mean d = DataFrame []
  /\ PhdData.extract_phd_graduated_data d = DataFrame []
  /\ ProgramData.extract_program_data d = DataFrame []
  /\ Expenditure.extract_expenditure_data np_mean d = DataFrame [].
Proof.
  intros Hne H. unfold without_tables in H.
  unfold StudentRatio.extract_student_ratio_data, Placement.extract_placement_data,
    UniversityExam.extract_university_exam_data,
    MedianSalaryScan.extract_median_salary_data,
    PhdData.extract_phd_graduated_data, ProgramData.extract_program_data,
    Expenditure.extract_expenditure_data, guarded.
  rewrite (student_pages_without_tables _ _ _ H),
    (placement_pages_without_tables _ _ _ _ H),
    (exam_pages_without_tables _ _ _ _ H),
    (salary_pages_without_tables _ _ _ _ H),
    (phd_pages_without_tables _ H),
    (program_pages_without_tables _ H),
    (expenditure_pages_without_tables _ H).
  destruct (pages d) as [| p0 ps]; [contradiction |].
  cbn [getitem nth_error bind].
  split; [reflexivity |]. split; [reflexivity |]. split; [reflexivity |].
  split; [reflexivity |]. split; [reflexivity |]. split; [reflexivity |].
  reflexivity.
Qed.

Lemma X21_witness :
  StudentRatio.extract_student_ratio_data text_only = DataFrame []
  /\ Placement.extract_placement_data text_only = DataFrame []
  /\ UniversityExam.extract_university_exam_data text_only = DataFrame []
  /\ MedianSalaryScan.extract_median_salary_data ExpenditureSpec.mean_of_small text_only
     = DataFrame []
  /\ PhdData.extract_phd_graduated_data text_only = DataFrame []
  /\ ProgramData.extract_program_data text_only = DataFrame []
  /\ Expenditure.extract_expenditure_data ExpenditureSpec.mean_of_small text_only
     = DataFrame [].
Proof.
  apply (X21_document_without_tables_gives_empty_frames
           ExpenditureSpec.mean_of_small ExpenditureSpec.mean_of_small text_only).
  - discriminate.
  - repeat constructor.
Defined.

End ScanFacts.

(* ===================================================================== *)
(** ** Two readings of one cell, and the end of the expenditure extractor *)
(* ===================================================================== *)

Module CrossFacts.
Import PyFacts CollegeInfoMore PySpec.

(** *** Stripping before or after the commas are taken out *)

Lemma is_space_not_comma (c : ascii) : is_space c = true -> Ascii.eqb c "," = false.
Proof. intros H. apply Ascii.eqb_neq. intros ->. discriminate H. Qed.

Lemma remove_commas_all_space (s : string) :
  all_space s = true -> replace "," "" s = s.
Proof.
  unfold all_space. induction s as [| c s IH]; [reflexivity |].
  cbn [forall_chars]. intros H. apply andb_prop in H. destruct H as [Hc Hs].
  now rewrite remove_commas_cons, (is_space_not_comma _ Hc), (IH Hs).
Qed.

Lemma lstrip_remove_commas (s : string) :
  lstrip (replace "," "" (lstrip s)) = lstrip (replace "," "" s).
Proof.
  induction s as [| c s IH]; [reflexivity |].
  cbn [lstrip]. destruct (is_space c) eqn:Hc; [| reflexivity].
  rewrite IH, (remove_commas_cons c s), (is_space_not_comma _ Hc).
  cbn [lstrip]. now rewrite Hc.
Qed.

Lemma rstrip_cons (c : ascii) (s : string) :
  rstrip (String c s)
  = match rstrip s with
    | EmptyString => if is_space c then EmptyString else String c EmptyString
    | r' => String c r'
    end.
Proof. reflexivity. Qed.

Lemma rstrip_remove_commas (s : string) :
  rstrip (replace "," "" (rstrip s)) = rstrip (replace "," "" s).
Proof.
  induction s as [| c s IH]; [reflexivity |].
  rewrite (rstrip_cons c s). destruct (rstrip s) as [| x r'] eqn:E.
  - assert (Hs : all_space s = true) by (now apply CollegeInfoFacts.rstrip_empty_iff).
    rewrite (remove_commas_cons c s), (remove_commas_all_space _ Hs).
    destruct (is_space c) eqn:Hc.
    + rewrite (is_space_not_comma _ Hc), (rstrip_cons c s), E, Hc. reflexivity.
    + destruct (Ascii.eqb c ",") eqn:Hk.
      * rewrite (remove_commas_cons c ""), Hk, E. reflexivity.
      * rewrite (remove_commas_cons c ""), Hk, (rstrip_cons c s), E. reflexivity.
  - rewrite (remove_commas_cons c (String x r')), (remove_commas_cons c s).
    destruct (Ascii.eqb c ","); [exact IH |].
    rewrite (rstrip_cons c (replace "," "" (String x r'))),
      (rstrip_cons c (replace "," "" s)), IH. reflexivity.
Qed.

Lemma strip_remove_commas (s : string) :
  strip (replace "," "" (strip s)) = strip (replace "," "" s).
Proof.
  unfold strip.
  rewrite <- (CollegeInfoFacts.lstrip_rstrip (replace "," "" (rstrip (lstrip s)))).
  rewrite rstrip_remove_commas, CollegeInfoFacts.lstrip_rstrip, lstrip_remove_commas.
  reflexivity.
Qed.

(** *** The white space of [str.strip] and the white space of [int] *)

Lemma is_space_cases (c : ascii) : is_space c = is_int_space c || is_separator c.
Proof. destruct c as [[] [] [] [] [] [] [] []]; reflexivity. Qed.

Lemma int_lstrip_no_separator (s : string) :
  no_separator s = true -> int_lstrip s = lstrip s.
Proof.
  unfold no_separator. induction s as [| c s IH]; [reflexivity |].
  cbn [forall_chars]. intros H. apply andb_prop in H. destruct H as [Hc Hs].
  cbn [int_lstrip lstrip]. rewrite (is_space_cases c).
  apply negb_true_iff in Hc. rewrite Hc, orb_false_r.
  destruct (is_int_space c); [exact (IH Hs) | reflexivity].
Qed.

Lemma int_rstrip_no_separator (s : string) :
  no_separator s = true -> int_rstrip s = rstrip s.
Proof.
  unfold no_separator. induction s as [| c s IH]; [reflexivity |].
  cbn [forall_chars]. intros H. apply andb_prop in H. destruct H as [Hc Hs].
  cbn [int_rstrip rstrip]. rewrite (IH Hs), (is_space_cases c).
  apply negb_true_iff in Hc. rewrite Hc, orb_false_r. reflexivity.
Qed.

(** On a text without separators [int] passes over the white space that
    [str.strip] takes away. *)
Lemma int_of_str_no_separator (s : string) :
  no_separator s = true ->
  int_of_str s = match int_signed (strip s) with
                 | Some z => Ret z
                 | None => Raise ValueError
                 end.
Proof.
  intros H. unfold int_of_str, strip.
  rewrite (int_lstrip_no_separator _ H), int_rstrip_no_separator; [reflexivity |].
  now apply CollegeInfoFacts.forall_chars_lstrip.
Qed.

Lemma forall_chars_remove_commas (p : ascii -> bool) (s : string) :
  forall_chars p s = true -> forall_chars p (replace "," "" s) = true.
Proof.
  induction s as [| c s IH]; [reflexivity |].
  cbn [forall_chars]. intros H. apply andb_prop in H. destruct H as [Hc Hs].
  rewrite remove_commas_cons. destruct (Ascii.eqb c ","); [exact (IH Hs) |].
  cbn [forall_chars]. now rewrite Hc, (IH Hs).
Qed.

Lemma strip_empty_all_space (s : string) : strip s = "" -> all_space s = true.
Proof.
  unfold strip, all_space. induction s as [| c s IH]; [reflexivity |].
  cbn [lstrip forall_chars]. destruct (is_space c) eqn:Hc; [exact IH |].
  cbn [rstrip]. rewrite Hc. destruct (rstrip s); discriminate.
Qed.

(** X26: the two extractors that read the strength table agree on every
    total whose text holds none of the four separators 28 to 31.
    student_ratio_tab.py takes the commas out and then strips the text;
    app.py strips it and then takes the commas out.  For every such text
    of the cell both give the same integer, or both give nothing.  A
    separator makes them differ: on the digit 1, the unit separator and a
    comma, the first strips the separator once the comma is gone and reads
    1; the second keeps the separator, on which [int] fails, and reads
    nothing. *)
Theorem X26_both_readings_of_a_total_agree :
  (forall (r : row) (col : nat) (s : string),
      nth_error r col = Some (Some s) ->
      no_separator s = true ->
      try_except (ProgramData.read_value false r col) [ValueError; IndexError]
        (Ret None)
      = Ret (StudentRatioSpec.normalize_count s))
  /\ (let s := String "1" (String (ascii_of_nat 31) ",") in
      try_except (ProgramData.read_value false [Some s] 0) [ValueError; IndexError]
        (Ret None) = Ret None
      /\ StudentRatioSpec.normalize_count s = Some 1%Z).
Proof.
  split; [| split; vm_compute; reflexivity].
  intros r col s Hc Hsep.
  unfold ProgramData.read_value, getitem, StudentRatioSpec.normalize_count.
  rewrite Hc. cbn [bind as_str andb negb].
  rewrite andb_true_r.
  assert (Hint : int_of_str (replace "," "" (strip s))
                 = int_of_str (strip (replace "," "" s))).
  { rewrite int_of_str_no_separator
      by (apply forall_chars_remove_commas, CollegeInfoFacts.forall_chars_strip, Hsep).
    rewrite (int_of_str_no_separator (strip (replace "," "" s)))
      by (apply CollegeInfoFacts.forall_chars_strip, forall_chars_remove_commas, Hsep).
    now rewrite strip_remove_commas, CollegeInfoFacts.strip_idem. }
  destruct (String.eqb_spec (strip s) "") as [E | Hne]; cbn [negb].
  - cbn [try_except].
    pose proof (strip_empty_all_space _ E) as Hs.
    rewrite (remove_commas_all_space _ Hs), E. reflexivity.
  - rewrite Hint.
    destruct (String.eqb_spec (strip (replace "," "" s)) "") as [-> | _].
    + reflexivity.
    + destruct (int_of_str (strip (replace "," "" s))) as [v | e] eqn:Ev; cbn [bind].
      * reflexivity.
      * apply int_of_str_raises in Ev. subst e. reflexivity.
Qed.

Lemma X26_witness :
  no_separator " 1,100 " = true
  /\ try_except
       (ProgramData.read_value false [Some "UG [4 Years]"; Some " 1,100 "] 1)
       [ValueError; IndexError] (Ret None)
     = Ret (Some 1100%Z)
  /\ StudentRatioSpec.normalize_count " 1,100 " = Some 1100%Z.
Proof.
  destruct X26_both_readings_of_a_total_agree as [Hagree _].
  assert (Hs : no_separator " 1,100 " = true) by (vm_compute; reflexivity).
  assert (Hn : StudentRatioSpec.normalize_count " 1,100 " = Some 1100%Z)
    by (vm_compute; reflexivity).
  split; [exact Hs |]. split; [| exact Hn].
  rewrite <- Hn.
  apply (Hagree [Some "UG [4 Years]"; Some " 1,100 "] 1%nat " 1,100 ");
    [reflexivity | exact Hs].
Defined.

(** *** The end of the expenditure extractor *)

Section ExpenditureEnd.
Import Expenditure.

Variable np_mean : list Z -> float.

Lemma year_rows_returns (d : document) (st : state) (years : list string) (idx : Z) :
  exists rows, year_rows d st idx years = Ret rows.
Proof.
  revert idx. induction years as [| year years IH]; intros idx; cbn [year_rows];
    [eauto |].
  unfold year_row.
  destruct (ExpenditureFacts.format_int_returns (dict_get (capital_exp st) year 0))
    as [c ->].
  destruct (ExpenditureFacts.format_int_returns (dict_get (operational_exp st) year 0))
    as [o ->].
  destruct (ExpenditureFacts.format_int_returns
              (dict_get (capital_exp st) year 0
               + dict_get (operational_exp st) year 0)) as [t ->].
  cbn [bind]. destruct (IH (idx + 1)) as [rs ->]. cbn [bind]. eauto.
Qed.

(** X27: on a document that has a page, the expenditure extractor fails
    in one case only: years were found, and the row of the averages
    cannot be written, because one of its three amounts (the two means
    of the array library, taken here as any function that returns a
    float, and their sum) is a float that [int] refuses.  The scan of the
    tables and the rows of the years raise nothing. *)
Theorem X27_expenditure_fails_only_on_the_average_row (d : document) :
  pages d <> [] ->
  (exists rows, extract_expenditure_data np_mean d = DataFrame rows)
  \/ (exists (st : state) (e : exn),
        pages_loop (pages d) initial = Ret st
        /\ all_years st <> []
        /\ average_row np_mean st = Raise e
        /\ extract_expenditure_data np_mean d = Failed e).
Proof.
  intros Hne. unfold extract_expenditure_data, guarded.
  destruct (pages d) as [| p0 ps] eqn:Hp; [contradiction |].
  cbn [getitem nth_error bind].
  assert (H0 : ScanSpec.state_not_negative initial).
  { split; intros k; cbn; lia. }
  destruct (ScanFacts.pages_loop_returns (p0 :: ps) initial H0) as (st & Hst & _).
  rewrite Hst. cbn [bind]. unfold combine_rows.
  destruct (all_years st) as [| y ys] eqn:Hy; [left; eauto |].
  destruct (year_rows_returns d st (y :: ys) 1) as [rows ->]. cbn [bind].
  destruct (average_row np_mean st) as [avg | e] eqn:Ha; cbn [bind].
  - left. eauto.
  - right. exists st, e. split; [reflexivity |]. split; [congruence |].
    split; [exact Ha | reflexivity].
Qed.

End ExpenditureEnd.

Lemma X27_witness :
  (exists rows,
     Expenditure.extract_expenditure_data ExpenditureSpec.mean_of_small
       ExpenditureSpec.two_tables = DataFrame rows)
  \/ (exists (st : Expenditure.state) (e : exn),
        Expenditure.pages_loop (pages ExpenditureSpec.two_tables) Expenditure.initial
          = Ret st
        /\ Expenditure.all_years st <> []
        /\ Expenditure.average_row ExpenditureSpec.mean_of_small st = Raise e
        /\ Expenditure.extract_expenditure_data ExpenditureSpec.mean_of_small
             ExpenditureSpec.two_tables = Failed e).
Proof.
  apply (X27_expenditure_fails_only_on_the_average_row ExpenditureSpec.mean_of_small
           ExpenditureSpec.two_tables).
  discriminate.
Defined.

End CrossFacts.
